(** * GLA University Timetable Generator: the scheduling core in Rocq

    A shallow embedding of [models.py], [constraints.py], [config.py] and
    [generator.py], with the seeding step of [main.py].

    Conventions of the embedding:
    - Python [int] is [Z]; Python [str] is [string] (byte strings, so the
      order on strings is the order of their code points);
    - a Python [dict] is a [gmap], a Python [set] is a [gset]; the
      course-assignment mapping, whose iteration order matters, is the list
      of its items in insertion order;
    - mutable instance attributes ([self.conflicts], [self.assignments],
      [self.generation_stats], the state of the module [random]) are passed
      explicitly;
    - text written by [print] is collected only where a property is about
      it (the warnings of the request builder). *)

From stdpp Require Import gmap strings list pretty.
From Stdlib Require Import Permutation Sorted OrdersEx.

Open Scope string_scope.
Open Scope Z_scope.
Open Scope list_scope.

(** ** models.py *)

Record TimeSlot := mkTimeSlot {
  day : string;
  period : Z;
  start_time : string;
  end_time : string
}.

Record Room := mkRoom {
  room_id : string;
  room_name : string;
  capacity : Z;
  room_type : string
}.

(** [TimeSlot.__eq__] and [TimeSlot.__hash__] look at (day, period) only, so
    a set or a dict of time slots is keyed by that pair. *)
Definition slot_key (s : TimeSlot) : string * Z := (day s, period s).

Record Teacher := mkTeacher {
  teacher_id : string;
  teacher_name : string;
  teacher_department : string;
  specializations : list string;
  unavailable_slots : gset (string * Z)
}.

Record Course := mkCourse {
  course_id : string;
  course_name : string;
  course_department : string;
  hours_per_week : Z;
  course_type : string
}.

Record Section := mkSection {
  section_id : string;
  section_name : string;
  section_department : string;
  semester : Z;
  student_count : Z
}.

Record ClassAssignment := mkClassAssignment {
  course : Course;
  section : Section;
  teacher : Teacher;
  room : Room;
  time_slot : TimeSlot
}.

(** [TimeSlot.__str__] *)
Definition TimeSlot_str (s : TimeSlot) : string :=
  day s +:+ " Period " +:+ pretty (period s) +:+
  " (" +:+ start_time s +:+ "-" +:+ end_time s +:+ ")".

(** The [__eq__] methods. *)
Definition TimeSlot_eq (a b : TimeSlot) : bool :=
  bool_decide (day a = day b) && bool_decide (period a = period b).
Definition Room_eq (a b : Room) : bool := bool_decide (room_id a = room_id b).
Definition Teacher_eq (a b : Teacher) : bool :=
  bool_decide (teacher_id a = teacher_id b).
Definition Course_eq (a b : Course) : bool :=
  bool_decide (course_id a = course_id b).
Definition Section_eq (a b : Section) : bool :=
  bool_decide (section_id a = section_id b).

(** [Teacher.add_unavailable_slot] and [Teacher.is_available] *)
Definition add_unavailable_slot (t : Teacher) (s : TimeSlot) : Teacher :=
  {| teacher_id := teacher_id t; teacher_name := teacher_name t;
     teacher_department := teacher_department t;
     specializations := specializations t;
     unavailable_slots := {[ slot_key s ]} ∪ unavailable_slots t |}.

Definition is_available (t : Teacher) (s : TimeSlot) : bool :=
  bool_decide (slot_key s ∉ unavailable_slots t).

(** ** constraints.py: ConstraintValidator

    Every [_check_*] method appends to [self.conflicts]; here it maps the
    list before the call to the list after it. *)

Definition teacher_conflict_msg (a : ClassAssignment) : string :=
  "Teacher conflict: " +:+ teacher_name (teacher a) +:+
  " is already scheduled at " +:+ TimeSlot_str (time_slot a).

Definition room_conflict_msg (a : ClassAssignment) : string :=
  "Room conflict: " +:+ room_name (room a) +:+
  " is already occupied at " +:+ TimeSlot_str (time_slot a).

Definition section_conflict_msg (a : ClassAssignment) : string :=
  "Section conflict: " +:+ section_name (section a) +:+
  " already has a class at " +:+ TimeSlot_str (time_slot a).

Definition capacity_conflict_msg (a : ClassAssignment) : string :=
  "Capacity conflict: Room " +:+ room_name (room a) +:+
  " (capacity: " +:+ pretty (capacity (room a)) +:+ ") is too small for " +:+
  "section " +:+ section_name (section a) +:+
  " (students: " +:+ pretty (student_count (section a)) +:+ ")".

Definition availability_conflict_msg (a : ClassAssignment) : string :=
  "Availability conflict: " +:+ teacher_name (teacher a) +:+
  " is not available at " +:+ TimeSlot_str (time_slot a).

Definition room_type_conflict_msg (a : ClassAssignment) : string :=
  "Room type conflict: Course " +:+ course_name (course a) +:+
  " requires a lab but " +:+ room_name (room a) +:+ " is a " +:+
  room_type (room a).

(** The test of each double-booking loop. *)
Definition same_teacher_slot (existing assignment : ClassAssignment) : bool :=
  Teacher_eq (teacher existing) (teacher assignment) &&
  TimeSlot_eq (time_slot existing) (time_slot assignment).
Definition same_room_slot (existing assignment : ClassAssignment) : bool :=
  Room_eq (room existing) (room assignment) &&
  TimeSlot_eq (time_slot existing) (time_slot assignment).
Definition same_section_slot (existing assignment : ClassAssignment) : bool :=
  Section_eq (section existing) (section assignment) &&
  TimeSlot_eq (time_slot existing) (time_slot assignment).

(** The tests of the three checks on the candidate alone. *)
Definition capacity_too_small (a : ClassAssignment) : bool :=
  bool_decide (capacity (room a) < student_count (section a)).
Definition teacher_unavailable (a : ClassAssignment) : bool :=
  negb (is_available (teacher a) (time_slot a)).
Definition room_type_mismatch (a : ClassAssignment) : bool :=
  bool_decide (course_type (course a) = "lab") &&
  negb (bool_decide (room_type (room a) = "lab")).

Definition _check_teacher_conflict (assignment : ClassAssignment)
    (existing_assignments : list ClassAssignment) (conflicts : list string)
    : list string :=
  foldl (fun cs existing =>
           if same_teacher_slot existing assignment
           then cs ++ [teacher_conflict_msg assignment] else cs)
        conflicts existing_assignments.

Definition _check_room_conflict (assignment : ClassAssignment)
    (existing_assignments : list ClassAssignment) (conflicts : list string)
    : list string :=
  foldl (fun cs existing =>
           if same_room_slot existing assignment
           then cs ++ [room_conflict_msg assignment] else cs)
        conflicts existing_assignments.

Definition _check_section_conflict (assignment : ClassAssignment)
    (existing_assignments : list ClassAssignment) (conflicts : list string)
    : list string :=
  foldl (fun cs existing =>
           if same_section_slot existing assignment
           then cs ++ [section_conflict_msg assignment] else cs)
        conflicts existing_assignments.

Definition _check_room_capacity (assignment : ClassAssignment)
    (conflicts : list string) : list string :=
  if capacity_too_small assignment
  then conflicts ++ [capacity_conflict_msg assignment] else conflicts.

Definition _check_teacher_availability (assignment : ClassAssignment)
    (conflicts : list string) : list string :=
  if teacher_unavailable assignment
  then conflicts ++ [availability_conflict_msg assignment] else conflicts.

Definition _check_room_type_compatibility (assignment : ClassAssignment)
    (conflicts : list string) : list string :=
  if room_type_mismatch assignment
  then conflicts ++ [room_type_conflict_msg assignment] else conflicts.

Definition validate_assignment (assignment : ClassAssignment)
    (existing_assignments : list ClassAssignment) : bool * list string :=
  let conflicts := [] in
  let conflicts := _check_teacher_conflict assignment existing_assignments conflicts in
  let conflicts := _check_room_conflict assignment existing_assignments conflicts in
  let conflicts := _check_section_conflict assignment existing_assignments conflicts in
  let conflicts := _check_room_capacity assignment conflicts in
  let conflicts := _check_teacher_availability assignment conflicts in
  let conflicts := _check_room_type_compatibility assignment conflicts in
  (bool_decide (length conflicts = 0%nat), conflicts).

(** ** constraints.py: ConflictDetector

    The report is the dict [conflicts] with its six lists; every entry of a
    list is a dict, here a record with the same fields. *)

Record TeacherConflict := mkTeacherConflict {
  tc_teacher : string;
  tc_time_slot : string;
  tc_courses : list string
}.

Record RoomConflict := mkRoomConflict {
  rc_room : string;
  rc_time_slot : string;
  rc_courses : list string
}.

Record SectionConflict := mkSectionConflict {
  sc_section : string;
  sc_time_slot : string;
  sc_courses : list string
}.

Record CapacityIssue := mkCapacityIssue {
  ci_room : string;
  ci_capacity : Z;
  ci_section : string;
  ci_student_count : Z;
  ci_time_slot : string
}.

Record AvailabilityIssue := mkAvailabilityIssue {
  ai_teacher : string;
  ai_time_slot : string
}.

Record RoomTypeIssue := mkRoomTypeIssue {
  ri_course : string;
  ri_room : string;
  ri_room_type : string;
  ri_required_type : string
}.

Record Conflicts := mkConflicts {
  teacher_conflicts : list TeacherConflict;
  room_conflicts : list RoomConflict;
  section_conflicts : list SectionConflict;
  capacity_issues : list CapacityIssue;
  availability_issues : list AvailabilityIssue;
  room_type_issues : list RoomTypeIssue
}.

(** The three lookup dicts. Their keys are Teacher, Room and Section
    objects, hashed and compared by id, so they are maps from the id; the
    inner dicts are keyed by time slots, that is by (day, period). *)
Abbreviation Schedule := (gmap string (gmap (string * Z) ClassAssignment)).

Record DetectorState := mkDetectorState {
  teacher_schedule : Schedule;
  room_schedule : Schedule;
  section_schedule : Schedule;
  conflicts : Conflicts
}.

(** [if who not in schedule: schedule[who] = {}] *)
Definition ensure_entry (who : string) (schedule : Schedule) : Schedule :=
  match schedule !! who with
  | Some _ => schedule
  | None => <[who := ∅]> schedule
  end.

(** [schedule[who]], read after [ensure_entry] *)
Definition entry_of (who : string) (schedule : Schedule)
    : gmap (string * Z) ClassAssignment :=
  default ∅ (schedule !! who).

(** [schedule[who][key] = assignment] *)
Definition store (who : string) (key : string * Z) (assignment : ClassAssignment)
    (schedule : Schedule) : Schedule :=
  <[who := <[key := assignment]> (entry_of who schedule)]> schedule.

(** The body of the loop of [find_all_conflicts], for one assignment. *)
Definition detector_step (st : DetectorState) (assignment : ClassAssignment)
    : DetectorState :=
  let key := slot_key (time_slot assignment) in
  let c := conflicts st in
  (* Track teacher schedules *)
  let ts := ensure_entry (teacher_id (teacher assignment)) (teacher_schedule st) in
  let tcs :=
    match entry_of (teacher_id (teacher assignment)) ts !! key with
    | Some occupant =>
        teacher_conflicts c ++
        [ {| tc_teacher := teacher_name (teacher assignment);
             tc_time_slot := TimeSlot_str (time_slot assignment);
             tc_courses := [course_name (course occupant);
                            course_name (course assignment)] |} ]
    | None => teacher_conflicts c
    end in
  let ts := store (teacher_id (teacher assignment)) key assignment ts in
  (* Track room schedules *)
  let rs := ensure_entry (room_id (room assignment)) (room_schedule st) in
  let rcs :=
    match entry_of (room_id (room assignment)) rs !! key with
    | Some occupant =>
        room_conflicts c ++
        [ {| rc_room := room_name (room assignment);
             rc_time_slot := TimeSlot_str (time_slot assignment);
             rc_courses := [course_name (course occupant);
                            course_name (course assignment)] |} ]
    | None => room_conflicts c
    end in
  let rs := store (room_id (room assignment)) key assignment rs in
  (* Track section schedules *)
  let ss := ensure_entry (section_id (section assignment)) (section_schedule st) in
  let scs :=
    match entry_of (section_id (section assignment)) ss !! key with
    | Some occupant =>
        section_conflicts c ++
        [ {| sc_section := section_name (section assignment);
             sc_time_slot := TimeSlot_str (time_slot assignment);
             sc_courses := [course_name (course occupant);
                            course_name (course assignment)] |} ]
    | None => section_conflicts c
    end in
  let ss := store (section_id (section assignment)) key assignment ss in
  (* Check capacity *)
  let cis :=
    if capacity_too_small assignment
    then capacity_issues c ++
         [ {| ci_room := room_name (room assignment);
              ci_capacity := capacity (room assignment);
              ci_section := section_name (section assignment);
              ci_student_count := student_count (section assignment);
              ci_time_slot := TimeSlot_str (time_slot assignment) |} ]
    else capacity_issues c in
  (* Check availability *)
  let ais :=
    if teacher_unavailable assignment
    then availability_issues c ++
         [ {| ai_teacher := teacher_name (teacher assignment);
              ai_time_slot := TimeSlot_str (time_slot assignment) |} ]
    else availability_issues c in
  (* Check room type *)
  let ris :=
    if room_type_mismatch assignment
    then room_type_issues c ++
         [ {| ri_course := course_name (course assignment);
              ri_room := room_name (room assignment);
              ri_room_type := room_type (room assignment);
              ri_required_type := "lab" |} ]
    else room_type_issues c in
  {| teacher_schedule := ts; room_schedule := rs; section_schedule := ss;
     conflicts := {| teacher_conflicts := tcs; room_conflicts := rcs;
                     section_conflicts := scs; capacity_issues := cis;
                     availability_issues := ais; room_type_issues := ris |} |}.

Definition detector_init : DetectorState :=
  {| teacher_schedule := ∅; room_schedule := ∅; section_schedule := ∅;
     conflicts := {| teacher_conflicts := []; room_conflicts := [];
                     section_conflicts := []; capacity_issues := [];
                     availability_issues := []; room_type_issues := [] |} |}.

(** The state after the loop over [assignments]. *)
Definition detector_run (assignments : list ClassAssignment) : DetectorState :=
  foldl detector_step detector_init assignments.

Definition find_all_conflicts (assignments : list ClassAssignment) : Conflicts :=
  conflicts (detector_run assignments).

(** [sum(len(v) for v in conflicts.values())] *)
Definition count_conflicts (c : Conflicts) : Z :=
  Z.of_nat (length (teacher_conflicts c)) +
  Z.of_nat (length (room_conflicts c)) +
  Z.of_nat (length (section_conflicts c)) +
  Z.of_nat (length (capacity_issues c)) +
  Z.of_nat (length (availability_issues c)) +
  Z.of_nat (length (room_type_issues c)).

(** [sep.join(l)] *)
Definition join (sep : string) (l : list string) : string :=
  match l with
  | [] => ""
  | x :: l' => foldl (fun acc y => acc +:+ sep +:+ y) x l'
  end.

(** The newline character, written "\n" in the source. *)
Definition nl : string :=
  String (Ascii.Ascii false true false true false false false false) "".

(** [len(l)], printed *)
Definition len_str {A} (l : list A) : string := pretty (Z.of_nat (length l)).

(** The list [report] of [format_conflict_report], before it is joined. *)
Definition report_lines (c : Conflicts) : list string :=
  let total := count_conflicts c in
  let report := [] in
  let report := report ++ [nl +:+ "=== Conflict Detection Report ==="] in
  let report := report ++ ["Total conflicts found: " +:+ pretty total +:+ nl] in
  let report :=
    match teacher_conflicts c with
    | [] => report
    | _ =>
      foldl (fun report e =>
               report ++
               ["  - " +:+ tc_teacher e +:+ " has overlapping classes at " +:+
                tc_time_slot e] ++
               ["    Courses: " +:+ join ", " (tc_courses e)])
            (report ++ ["Teacher Conflicts (" +:+ len_str (teacher_conflicts c)
                        +:+ "):"])
            (teacher_conflicts c)
    end in
  let report :=
    match room_conflicts c with
    | [] => report
    | _ =>
      foldl (fun report e =>
               report ++
               ["  - " +:+ rc_room e +:+ " is double-booked at " +:+
                rc_time_slot e] ++
               ["    Courses: " +:+ join ", " (rc_courses e)])
            (report ++ [nl +:+ "Room Conflicts (" +:+ len_str (room_conflicts c)
                        +:+ "):"])
            (room_conflicts c)
    end in
  let report :=
    match section_conflicts c with
    | [] => report
    | _ =>
      foldl (fun report e =>
               report ++
               ["  - " +:+ sc_section e +:+ " has overlapping classes at " +:+
                sc_time_slot e] ++
               ["    Courses: " +:+ join ", " (sc_courses e)])
            (report ++ [nl +:+ "Section Conflicts (" +:+
                        len_str (section_conflicts c) +:+ "):"])
            (section_conflicts c)
    end in
  let report :=
    match capacity_issues c with
    | [] => report
    | _ =>
      foldl (fun report e =>
               report ++
               ["  - Room " +:+ ci_room e +:+ " (capacity: " +:+
                pretty (ci_capacity e) +:+ ") is too small for section " +:+
                ci_section e +:+ " (" +:+ pretty (ci_student_count e) +:+
                " students)"])
            (report ++ [nl +:+ "Capacity Issues (" +:+
                        len_str (capacity_issues c) +:+ "):"])
            (capacity_issues c)
    end in
  let report :=
    match availability_issues c with
    | [] => report
    | _ =>
      foldl (fun report e =>
               report ++
               ["  - " +:+ ai_teacher e +:+ " is not available at " +:+
                ai_time_slot e])
            (report ++ [nl +:+ "Availability Issues (" +:+
                        len_str (availability_issues c) +:+ "):"])
            (availability_issues c)
    end in
  let report :=
    match room_type_issues c with
    | [] => report
    | _ =>
      foldl (fun report e =>
               report ++
               ["  - Course " +:+ ri_course e +:+ " requires " +:+
                ri_required_type e +:+ " but assigned " +:+ ri_room e +:+
                " (" +:+ ri_room_type e +:+ ")"])
            (report ++ [nl +:+ "Room Type Issues (" +:+
                        len_str (room_type_issues c) +:+ "):"])
            (room_type_issues c)
    end in
  if bool_decide (total = 0)
  then report ++ ["No conflicts detected! Timetable is valid."]
  else report.

Definition format_conflict_report (c : Conflicts) : string :=
  join nl (report_lines c).

(** ** config.py: the slot universe *)

Record TimetableConfig := mkTimetableConfig {
  days : list string;
  periods_per_day : Z;
  time_slots : gmap Z (string * string)
}.

(** The values set by [TimetableConfig.__init__]. *)
Definition default_config : TimetableConfig :=
  {| days := ["Monday"; "Tuesday"; "Wednesday"; "Thursday"; "Friday"];
     periods_per_day := 6;
     time_slots :=
       <[1 := ("09:00", "10:00")]> (<[2 := ("10:00", "11:00")]>
       (<[3 := ("11:00", "12:00")]> (<[4 := ("12:00", "13:00")]>
       (<[5 := ("14:00", "15:00")]> (<[6 := ("15:00", "16:00")]> ∅))))) |}.

(** Python's [range(lo, hi)] *)
Definition range (lo hi : Z) : list Z :=
  map (fun i => lo + Z.of_nat i) (seq 0 (Z.to_nat (hi - lo))).

Definition get_all_time_slots (config : TimetableConfig) : list TimeSlot :=
  foldl (fun slots d =>
    foldl (fun slots p =>
             match time_slots config !! p with
             | Some (start, end_) => slots ++ [mkTimeSlot d p start end_]
             | None => slots
             end)
          slots (range 1 (periods_per_day config + 1)))
    [] (days config).

(** ** The module [random]

    The generator draws from the global pseudo-random generator. Its state
    is the sequence of draws still to come: [randbelow n] reads the next
    draw and reduces it below [n]. The state after [random.seed(s)] is a
    function of [s]; the state of a process that never seeds is handed to it
    from outside and differs from one run to the next. *)

Record Rng := mkRng {
  draws : nat → nat;
  cursor : nat
}.

Definition randbelow (n : nat) (g : Rng) : nat * Rng :=
  ((draws g (cursor g) `mod` n)%nat, mkRng (draws g) (S (cursor g))).

(** [x[i], x[j] = x[j], x[i]] *)
Definition swap {A} (x : list A) (i j : nat) : list A :=
  match x !! i, x !! j with
  | Some xi, Some xj => <[j := xi]> (<[i := xj]> x)
  | _, _ => x
  end.

(** [random.shuffle]: for i in reversed(range(1, len(x))), draw
    j = randbelow(i + 1) and swap x[i] with x[j]. [shuffle_from i] runs the
    iterations i, i-1, ..., 1. *)
Fixpoint shuffle_from {A} (i : nat) (x : list A) (g : Rng) : list A * Rng :=
  match i with
  | O => (x, g)
  | S i' =>
      let '(j, g) := randbelow (S i) g in
      shuffle_from i' (swap x i j) g
  end.

Definition shuffle {A} (x : list A) (g : Rng) : list A * Rng :=
  shuffle_from (length x - 1) x g.

(** ** Python's stable sort

    [sorted(l, key=k)] and [l.sort(key=k)] are stable: elements are ordered
    by key, and elements of equal key keep their order. The result of a
    stable sort is determined by that, so insertion sort computes it. *)
Section StableSort.
Context {A K : Type} (key : A → K) (ltb : K → K → bool).

Fixpoint insert_sorted (x : A) (l : list A) : list A :=
  match l with
  | [] => [x]
  | y :: l' =>
      if ltb (key y) (key x) then y :: insert_sorted x l' else x :: y :: l'
  end.

Definition sorted_by (l : list A) : list A := foldr insert_sorted [] l.
End StableSort.

(** ** generator.py *)

Record Request := mkRequest {
  req_course : Course;
  req_section : Section;
  req_teacher : Teacher;
  instance : Z
}.

Record Stats := mkStats {
  attempts : Z;
  backtracks : Z;
  conflicts_resolved : Z
}.

(** What a [TimetableGenerator] holds and changes during a run, with the
    state of [random]. *)
Record GenState := mkGenState {
  assignments : list ClassAssignment;
  generation_stats : Stats;
  random_state : Rng
}.

(** [{c.course_id: c for c in courses}]: a later entry replaces an earlier
    one of the same id. *)
Definition dict_by_id {V} (id : V → string) (l : list V) : gmap string V :=
  foldl (fun d v => <[id v := v]> d) ∅ l.

(** One item of [course_assignments.items()]: ((course_id, section_id), teacher_id). *)
Definition MappingItem : Type := (string * string) * string.

(** The body of the loop of [_build_scheduling_requests]: the requests and
    the printed lines before the item, to those after it. *)
Definition build_item (course_dict : gmap string Course)
    (section_dict : gmap string Section) (teacher_dict : gmap string Teacher)
    (acc : list Request * list string) (item : MappingItem)
    : list Request * list string :=
  let '(requests, out) := acc in
  let '((cid, sid), tid) := item in
  match course_dict !! cid with
  | None => (requests, out ++ ["Warning: Course " +:+ cid +:+ " not found"])
  | Some c =>
    match section_dict !! sid with
    | None => (requests, out ++ ["Warning: Section " +:+ sid +:+ " not found"])
    | Some s =>
      match teacher_dict !! tid with
      | None => (requests, out ++ ["Warning: Teacher " +:+ tid +:+ " not found"])
      | Some t =>
          (foldl (fun requests i => requests ++ [mkRequest c s t (i + 1)])
                 requests (range 0 (hours_per_week c)),
           out)
      end
    end
  end.

Definition _build_scheduling_requests (courses : list Course)
    (sections : list Section) (teachers : list Teacher)
    (course_assignments : list MappingItem) : list Request * list string :=
  let course_dict := dict_by_id course_id courses in
  let section_dict := dict_by_id section_id sections in
  let teacher_dict := dict_by_id teacher_id teachers in
  foldl (build_item course_dict section_dict teacher_dict) ([], [])
        course_assignments.

(** Python's order on the tuples (lab_priority, -hours_priority, dept_priority). *)
Definition priority_key (req : Request) : Z * Z * string :=
  let lab_priority :=
    if bool_decide (course_type (req_course req) = "lab") then 0 else 1 in
  let hours_priority := hours_per_week (req_course req) in
  let dept_priority := section_department (req_section req) in
  (lab_priority, - hours_priority, dept_priority).

Definition priority_ltb (a b : Z * Z * string) : bool :=
  let '(a1, a2, a3) := a in
  let '(b1, b2, b3) := b in
  if bool_decide (a1 = b1)
  then if bool_decide (a2 = b2) then String.ltb a3 b3 else bool_decide (a2 < b2)
  else bool_decide (a1 < b1).

Definition _prioritize_requests (requests : list Request) : list Request :=
  sorted_by priority_key priority_ltb requests.

Definition _filter_suitable_rooms (c : Course) (s : Section) (rooms : list Room)
    : list Room :=
  let suitable :=
    foldl (fun suitable r =>
             if bool_decide (capacity r < student_count s) then suitable
             else if bool_decide (course_type c = "lab") &&
                     negb (bool_decide (room_type r = "lab")) then suitable
             else suitable ++ [r])
          [] rooms in
  sorted_by (fun r => capacity r - student_count s) Z.ltb suitable.

Definition _filter_available_slots (t : Teacher) (all_slots : list TimeSlot)
    : list TimeSlot :=
  filter (fun slot => is_available t slot = true) all_slots.

Definition _get_possible_assignments (request : Request) (rooms : list Room)
    (all_slots : list TimeSlot) (g : Rng) : list ClassAssignment * Rng :=
  let c := req_course request in
  let s := req_section request in
  let t := req_teacher request in
  let suitable_rooms := _filter_suitable_rooms c s rooms in
  let available_slots := _filter_available_slots t all_slots in
  let assignments :=
    foldl (fun assignments r =>
             foldl (fun assignments slot =>
                      assignments ++ [mkClassAssignment c s t r slot])
                   assignments available_slots)
          [] suitable_rooms in
  shuffle assignments g.

(** [self.generation_stats['attempts'] += 1] *)
Definition count_attempt (st : GenState) : GenState :=
  let s := generation_stats st in
  {| assignments := assignments st;
     generation_stats := {| attempts := attempts s + 1;
                            backtracks := backtracks s;
                            conflicts_resolved := conflicts_resolved s |};
     random_state := random_state st |}.

Definition set_random_state (g : Rng) (st : GenState) : GenState :=
  {| assignments := assignments st;
     generation_stats := generation_stats st;
     random_state := g |}.

(** [self.assignments.append(assignment)] *)
Definition commit (assignment : ClassAssignment) (st : GenState) : GenState :=
  {| assignments := assignments st ++ [assignment];
     generation_stats := generation_stats st;
     random_state := random_state st |}.

(** [self.assignments.pop()] followed by
    [self.generation_stats['backtracks'] += 1]. The list is never empty
    here: the call that failed in between leaves it as it found it, with
    the assignment appended before the call at its end
    (see [failed_call_keeps_commit]). *)
Definition undo (st : GenState) : GenState :=
  let s := generation_stats st in
  {| assignments := removelast (assignments st);
     generation_stats := {| attempts := attempts s;
                            backtracks := backtracks s + 1;
                            conflicts_resolved := conflicts_resolved s |};
     random_state := random_state st |}.

(** The loop [for assignment in possible_assignments] of
    [_backtrack_schedule]; [recurse] is the recursive call on index + 1. *)
Fixpoint try_candidates (recurse : GenState → bool * GenState)
    (possible_assignments : list ClassAssignment) (st : GenState)
    : bool * GenState :=
  match possible_assignments with
  | [] => (false, st)
  | assignment :: more =>
      let '(is_valid, _) := validate_assignment assignment (assignments st) in
      if is_valid then
        let '(ok, st') := recurse (commit assignment st) in
        if ok then (true, st')
        else try_candidates recurse more (undo st')
      else try_candidates recurse more st
  end.

(** [_backtrack_schedule], as a function of the requests still to
    schedule, [requests[index:]]: the call reads [requests] only at
    [index] and passes [index + 1] on, and [index >= len(requests)] says
    that nothing is left. *)
Fixpoint backtrack_pending (pending : list Request) (rooms : list Room)
    (all_slots : list TimeSlot) (max_attempts : Z) (st : GenState)
    : bool * GenState :=
  match pending with
  | [] => (true, st)
  | request :: rest =>
      if bool_decide (attempts (generation_stats st) >= max_attempts)
      then (false, st)
      else
        let st := count_attempt st in
        let '(possible_assignments, g) :=
          _get_possible_assignments request rooms all_slots (random_state st) in
        let st := set_random_state g st in
        try_candidates (backtrack_pending rest rooms all_slots max_attempts)
                       possible_assignments st
  end.

Definition _backtrack_schedule (requests : list Request) (index : nat)
    (rooms : list Room) (all_slots : list TimeSlot) (max_attempts : Z)
    (st : GenState) : bool * GenState :=
  backtrack_pending (drop index requests) rooms all_slots max_attempts st.

Definition _schedule_requests (requests : list Request) (rooms : list Room)
    (all_slots : list TimeSlot) (max_attempts : Z) (st : GenState)
    : bool * GenState :=
  _backtrack_schedule requests 0 rooms all_slots max_attempts st.

(** The default value of the parameter [max_attempts] of
    [_schedule_requests]; [generate] does not pass another one. *)
Definition default_max_attempts : Z := 10000.

(** The attributes [generate] resets before it starts: no assignment, all
    counters zero. *)
Definition initial_state (g : Rng) : GenState :=
  {| assignments := [];
     generation_stats := {| attempts := 0; backtracks := 0;
                            conflicts_resolved := 0 |};
     random_state := g |}.

(** What a call of [generate] leaves: the returned value ([None] on
    failure), the generator's attributes and the state of [random] after
    the call, and the warnings it printed. *)
Record Generation := mkGeneration {
  returned : option (list ClassAssignment);
  final_state : GenState;
  warnings : list string
}.

Definition generate (config : TimetableConfig) (courses : list Course)
    (sections : list Section) (teachers : list Teacher) (rooms : list Room)
    (course_assignments : list MappingItem) (g : Rng) : Generation :=
  let st := initial_state g in
  let '(requests, out) :=
    _build_scheduling_requests courses sections teachers course_assignments in
  let requests := _prioritize_requests requests in
  let all_slots := get_all_time_slots config in
  let '(success, st) :=
    _schedule_requests requests rooms all_slots default_max_attempts st in
  if success
  then {| returned := Some (assignments st); final_state := st; warnings := out |}
  else {| returned := None; final_state := st; warnings := out |}.

(** ** main.py: seeding

    [if args.seed: random.seed(args.seed)]. [args.seed] is [None] without
    the option [--seed]; [seeded s] is the state [random.seed(s)] sets, and
    [ambient] the state the process starts with. *)
Definition seed_random (seeded : Z → Rng) (args_seed : option Z) (ambient : Rng)
    : Rng :=
  match args_seed with
  | Some s => if bool_decide (s ≠ 0) then seeded s else ambient
  | None => ambient
  end.

(** A run of [main] up to the call of [generate]. *)
Definition main_generate (seeded : Z → Rng) (args_seed : option Z) (ambient : Rng)
    (config : TimetableConfig) (courses : list Course)
    (sections : list Section) (teachers : list Teacher) (rooms : list Room)
    (course_assignments : list MappingItem) : Generation :=
  generate config courses sections teachers rooms course_assignments
           (seed_random seeded args_seed ambient).

(** ** Python dicts that are iterated

    A dict keeps its keys in the order of their first insertion; storing
    under a key that is present replaces the value in place. *)
Fixpoint dict_setitem {K V} `{EqDecision K} (k : K) (v : V) (d : list (K * V))
    : list (K * V) :=
  match d with
  | [] => [(k, v)]
  | (k', v') :: d' =>
      if decide (k' = k) then (k', v) :: d' else (k', v') :: dict_setitem k v d'
  end.

Fixpoint dict_get {K V} `{EqDecision K} (k : K) (d : list (K * V)) : option V :=
  match d with
  | [] => None
  | (k', v') :: d' => if decide (k' = k) then Some v' else dict_get k d'
  end.

(** ** utils.py *)

(** An item of the course-assignment file, with the three fields
    [load_course_assignments_from_json] reads. *)
Record AssignmentItem := mkAssignmentItem {
  item_course_id : string;
  item_section_id : string;
  item_teacher_id : string
}.

Definition item_key (item : AssignmentItem) : string * string :=
  (item_course_id item, item_section_id item).

(** The loop of [load_course_assignments_from_json] over the parsed file;
    the result is the dict, as the list of its items. *)
Definition load_course_assignments (data : list AssignmentItem)
    : list MappingItem :=
  foldl (fun assignments item =>
           dict_setitem (item_key item) (item_teacher_id item) assignments)
        [] data.

(** [Section.__str__], [Teacher.__str__] and [Room.__str__] *)
Definition Section_str (s : Section) : string :=
  section_name s +:+ " (Sem " +:+ pretty (semester s) +:+ ")".
Definition Teacher_str (t : Teacher) : string :=
  teacher_name t +:+ " (" +:+ teacher_department t +:+ ")".
Definition Room_str (r : Room) : string :=
  room_name r +:+ " (Cap: " +:+ pretty (capacity r) +:+ ")".

(** The body shared by [_group_by_section], [_group_by_teacher] and
    [_group_by_room], which differ in the key only. *)
Definition group_step (key : ClassAssignment → string)
    (grouped : list (string * list ClassAssignment)) (assignment : ClassAssignment)
    : list (string * list ClassAssignment) :=
  let k := key assignment in
  let grouped :=
    match dict_get k grouped with
    | None => dict_setitem k [] grouped
    | Some _ => grouped
    end in
  dict_setitem k (default [] (dict_get k grouped) ++ [assignment]) grouped.

Definition _group_by_section (assignments : list ClassAssignment)
    : list (string * list ClassAssignment) :=
  foldl (group_step (fun a => Section_str (section a))) [] assignments.

Definition _group_by_teacher (assignments : list ClassAssignment)
    : list (string * list ClassAssignment) :=
  foldl (group_step (fun a => Teacher_str (teacher a))) [] assignments.

Definition _group_by_room (assignments : list ClassAssignment)
    : list (string * list ClassAssignment) :=
  foldl (group_step (fun a => Room_str (room a))) [] assignments.

(** ** utils.py: DataLoader

    The loaders read parsed JSON records; a record is modelled with the
    fields the loader reads, an optional field (read with [.get] or tested
    with [in]) as an option that is [None] when the key is absent. *)
Record SlotData := mkSlotData {
  sd_day : string;
  sd_period : Z;
  sd_start_time : option string;
  sd_end_time : option string
}.

Record TeacherItem := mkTeacherItem {
  ti_teacher_id : string;
  ti_name : string;
  ti_department : string;
  ti_specializations : option (list string);
  ti_unavailable_slots : option (list SlotData)
}.

(** [Teacher.__init__]: [specializations or []], no unavailable slot. *)
Definition Teacher_init (teacher_id name department : string)
    (specializations : option (list string)) : Teacher :=
  {| teacher_id := teacher_id; teacher_name := name;
     teacher_department := department;
     specializations := default [] specializations;
     unavailable_slots := ∅ |}.

(** The body of the loop of [load_teachers_from_json]. *)
Definition load_teacher (item : TeacherItem) : Teacher :=
  let teacher :=
    Teacher_init (ti_teacher_id item) (ti_name item) (ti_department item)
                 (Some (default [] (ti_specializations item))) in
  match ti_unavailable_slots item with
  | Some slots =>
      foldl (fun teacher slot_data =>
               add_unavailable_slot teacher
                 (mkTimeSlot (sd_day slot_data) (sd_period slot_data)
                             (default "" (sd_start_time slot_data))
                             (default "" (sd_end_time slot_data))))
            teacher slots
  | None => teacher
  end.

Definition load_teachers (data : list TeacherItem) : list Teacher :=
  foldl (fun teachers item => teachers ++ [load_teacher item]) [] data.

(** The key [export_to_csv] sorts by, with Python's order on the pairs. *)
Definition day_period (a : ClassAssignment) : string * Z :=
  (day (time_slot a), period (time_slot a)).

Definition day_period_ltb (a b : string * Z) : bool :=
  if bool_decide (a.1 = b.1) then bool_decide (a.2 < b.2)
  else String.ltb a.1 b.1.

(** The rows [export_to_csv] hands to the CSV writer: the heading, then one
    row for each assignment, sorted by day and period. *)
Definition csv_row (assignment : ClassAssignment) : list string :=
  [day (time_slot assignment); pretty (period (time_slot assignment));
   start_time (time_slot assignment); end_time (time_slot assignment);
   course_id (course assignment); course_name (course assignment);
   section_name (section assignment); teacher_name (teacher assignment);
   room_name (room assignment)].

Definition export_to_csv (assignments : list ClassAssignment)
    : list (list string) :=
  ["Day"; "Period"; "Start Time"; "End Time"; "Course ID"; "Course Name";
   "Section"; "Teacher"; "Room"] ::
  foldl (fun rows assignment => rows ++ [csv_row assignment]) []
        (sorted_by day_period day_period_ltb assignments).

(** ** The search of a run of [generate] *)

(** The requests [generate] hands to the search. *)
Definition requests_for (courses : list Course) (sections : list Section)
    (teachers : list Teacher) (course_assignments : list MappingItem)
    : list Request :=
  _prioritize_requests
    (_build_scheduling_requests courses sections teachers course_assignments).1.

(** The search [generate] runs, from its fresh state. *)
Definition search_of (config : TimetableConfig) (courses : list Course)
    (sections : list Section) (teachers : list Teacher) (rooms : list Room)
    (course_assignments : list MappingItem) (g : Rng) : bool * GenState :=
  _schedule_requests
    (requests_for courses sections teachers course_assignments)
    rooms (get_all_time_slots config) default_max_attempts (initial_state g).

(** ** The properties, in the terms of the specification *)

(** Two assignments share a teacher, a room or a section when the ids
    agree, and a time slot when day and period agree. *)
Definition share_teacher_slot (a b : ClassAssignment) : Prop :=
  teacher_id (teacher a) = teacher_id (teacher b) ∧
  slot_key (time_slot a) = slot_key (time_slot b).
Definition share_room_slot (a b : ClassAssignment) : Prop :=
  room_id (room a) = room_id (room b) ∧
  slot_key (time_slot a) = slot_key (time_slot b).
Definition share_section_slot (a b : ClassAssignment) : Prop :=
  section_id (section a) = section_id (section b) ∧
  slot_key (time_slot a) = slot_key (time_slot b).

(** No two assignments of [l], at different positions, are related by [R]. *)
Definition pairwise_not (R : ClassAssignment → ClassAssignment → Prop)
    (l : list ClassAssignment) : Prop :=
  ∀ i j a b, i ≠ j → l !! i = Some a → l !! j = Some b → ¬ R a b.

(** Invariants 4 to 6, on one assignment. *)
Definition fits_room (a : ClassAssignment) : Prop :=
  capacity (room a) >= student_count (section a).
Definition teacher_free (a : ClassAssignment) : Prop :=
  is_available (teacher a) (time_slot a) = true.
Definition lab_in_lab (a : ClassAssignment) : Prop :=
  course_type (course a) = "lab" → room_type (room a) = "lab".

(** The six hard invariants of an assignment list. *)
Definition hard_invariants (l : list ClassAssignment) : Prop :=
  pairwise_not share_teacher_slot l ∧
  pairwise_not share_room_slot l ∧
  pairwise_not share_section_slot l ∧
  Forall fits_room l ∧
  Forall teacher_free l ∧
  Forall lab_in_lab l.

(** The messages written by one check, starting from an empty list. *)
Definition teacher_msgs a l := _check_teacher_conflict a l [].
Definition room_msgs a l := _check_room_conflict a l [].
Definition section_msgs a l := _check_section_conflict a l [].
Definition capacity_msgs a := _check_room_capacity a [].
Definition availability_msgs a := _check_teacher_availability a [].
Definition room_type_msgs a := _check_room_type_compatibility a [].

(** ** What the conflict detector reports

    A booking is a (resource id, day, period) triple; [who] picks the
    resource of an assignment. *)
Definition booking (who : ClassAssignment → string) (a : ClassAssignment)
    : string * (string * Z) :=
  (who a, slot_key (time_slot a)).

Definition teacher_of (a : ClassAssignment) : string := teacher_id (teacher a).
Definition room_of (a : ClassAssignment) : string := room_id (room a).
Definition section_of (a : ClassAssignment) : string := section_id (section a).

(** The assignment of [seen] that holds the booking [b]: the last one made. *)
Definition occupant (who : ClassAssignment → string)
    (seen : list ClassAssignment) (b : string * (string * Z))
    : option ClassAssignment :=
  last (filter (fun e => booking who e = b) seen).

(** The assignments of [l] that land on a booking already held, by an
    assignment of [seen] or by an earlier one of [l], each with the holder
    at that moment: (occupant, current). *)
Fixpoint double_bookings (who : ClassAssignment → string)
    (seen l : list ClassAssignment) : list (ClassAssignment * ClassAssignment) :=
  match l with
  | [] => []
  | a :: l' =>
      match occupant who seen (booking who a) with
      | Some o => [(o, a)]
      | None => []
      end ++ double_bookings who (seen ++ [a]) l'
  end.

Definition teacher_entry (p : ClassAssignment * ClassAssignment) : TeacherConflict :=
  {| tc_teacher := teacher_name (teacher p.2);
     tc_time_slot := TimeSlot_str (time_slot p.2);
     tc_courses := [course_name (course p.1); course_name (course p.2)] |}.
Definition room_entry (p : ClassAssignment * ClassAssignment) : RoomConflict :=
  {| rc_room := room_name (room p.2);
     rc_time_slot := TimeSlot_str (time_slot p.2);
     rc_courses := [course_name (course p.1); course_name (course p.2)] |}.
Definition section_entry (p : ClassAssignment * ClassAssignment) : SectionConflict :=
  {| sc_section := section_name (section p.2);
     sc_time_slot := TimeSlot_str (time_slot p.2);
     sc_courses := [course_name (course p.1); course_name (course p.2)] |}.
Definition capacity_entry (a : ClassAssignment) : CapacityIssue :=
  {| ci_room := room_name (room a); ci_capacity := capacity (room a);
     ci_section := section_name (section a);
     ci_student_count := student_count (section a);
     ci_time_slot := TimeSlot_str (time_slot a) |}.
Definition availability_entry (a : ClassAssignment) : AvailabilityIssue :=
  {| ai_teacher := teacher_name (teacher a);
     ai_time_slot := TimeSlot_str (time_slot a) |}.
Definition room_type_entry (a : ClassAssignment) : RoomTypeIssue :=
  {| ri_course := course_name (course a); ri_room := room_name (room a);
     ri_room_type := room_type (room a); ri_required_type := "lab" |}.

(** The report on [l], for a detector that has already seen [seen]. *)
Definition report_of (seen l : list ClassAssignment) : Conflicts :=
  {| teacher_conflicts := teacher_entry <$> double_bookings teacher_of seen l;
     room_conflicts := room_entry <$> double_bookings room_of seen l;
     section_conflicts := section_entry <$> double_bookings section_of seen l;
     capacity_issues :=
       capacity_entry <$> filter (fun a => capacity_too_small a = true) l;
     availability_issues :=
       availability_entry <$> filter (fun a => teacher_unavailable a = true) l;
     room_type_issues :=
       room_type_entry <$> filter (fun a => room_type_mismatch a = true) l |}.

(** Appending two reports, list by list. *)
Definition conflicts_app (c1 c2 : Conflicts) : Conflicts :=
  {| teacher_conflicts := teacher_conflicts c1 ++ teacher_conflicts c2;
     room_conflicts := room_conflicts c1 ++ room_conflicts c2;
     section_conflicts := section_conflicts c1 ++ section_conflicts c2;
     capacity_issues := capacity_issues c1 ++ capacity_issues c2;
     availability_issues := availability_issues c1 ++ availability_issues c2;
     room_type_issues := room_type_issues c1 ++ room_type_issues c2 |}.

(** A lookup dict holds, for every booking, the occupant among [seen]. *)
Definition schedule_models (who : ClassAssignment → string)
    (schedule : Schedule) (seen : list ClassAssignment) : Prop :=
  ∀ w k, entry_of w schedule !! k = occupant who seen (w, k).

Definition detector_models (st : DetectorState) (seen : list ClassAssignment)
    : Prop :=
  schedule_models teacher_of (teacher_schedule st) seen ∧
  schedule_models room_of (room_schedule st) seen ∧
  schedule_models section_of (section_schedule st) seen.

(** The lists the search can hold: built from the empty list by appending
    candidates the validator accepted against the list so far. *)
Inductive accepted_list : list ClassAssignment → Prop :=
  | accepted_nil : accepted_list []
  | accepted_snoc l a :
      accepted_list l →
      (validate_assignment a l).1 = true →
      accepted_list (l ++ [a]).

(** ** What every search call guarantees

    [f] maps the state at entry of a call to its result and the state it
    leaves; [max_attempts] is the budget. *)
Record search_sound (max_attempts : Z) (f : GenState → bool * GenState) : Prop := {
  (* a failed call leaves the committed list as it found it *)
  sound_restores : ∀ st, (f st).1 = false → assignments (f st).2 = assignments st;
  (* a call only ever adds assignments the validator accepted *)
  sound_accepted : ∀ st,
    accepted_list (assignments st) → accepted_list (assignments (f st).2);
  (* the attempt counter never goes down ... *)
  sound_attempts_mono : ∀ st,
    attempts (generation_stats st) <= attempts (generation_stats (f st).2);
  (* ... and never passes the budget, unless it was beyond it at entry *)
  sound_attempts_bound : ∀ st,
    attempts (generation_stats (f st).2) <=
    Z.max (attempts (generation_stats st)) max_attempts
}.

(** ** Candidates, in the terms of the specification *)

(** The room filter of the code: large enough, and a lab if the course is one. *)
Definition room_suitable (c : Course) (s : Section) (r : Room) : Prop :=
  student_count s <= capacity r ∧
  (course_type c = "lab" → room_type r = "lab").

(** The room filter as the specification words it: large enough, and a lab
    if and only if the course is one. *)
Definition room_suitable_stated (c : Course) (s : Section) (r : Room) : Prop :=
  student_count s <= capacity r ∧
  (room_type r = "lab" ↔ course_type c = "lab").

#[global] Instance room_suitable_dec c s r : Decision (room_suitable c s r).
Proof. unfold room_suitable. apply _. Defined.

#[global] Instance room_suitable_stated_dec c s r :
  Decision (room_suitable_stated c s r).
Proof. unfold room_suitable_stated, iff. apply _. Defined.

(** The cross product rooms x slots, as assignments for a request. *)
Definition cross_product (request : Request) (rooms : list Room)
    (slots : list TimeSlot) : list ClassAssignment :=
  flat_map (fun r =>
              map (mkClassAssignment (req_course request) (req_section request)
                                     (req_teacher request) r)
                  slots)
           rooms.

Definition available_slots_of (t : Teacher) (all_slots : list TimeSlot)
    : list TimeSlot :=
  filter (fun slot => is_available t slot = true) all_slots.

(** ** Request building, in the terms of the specification *)

(** The entity an id resolves to in a collection: the last one of that id. *)
Definition find_by_id {V} (id : V → string) (l : list V) (k : string) : option V :=
  last (filter (fun v => id v = k) l).

(** The three ids of a mapping item all resolve. *)
Definition resolves (courses : list Course) (sections : list Section)
    (teachers : list Teacher) (item : MappingItem) : Prop :=
  (∃ c, c ∈ courses ∧ course_id c = item.1.1) ∧
  (∃ s, s ∈ sections ∧ section_id s = item.1.2) ∧
  (∃ t, t ∈ teachers ∧ teacher_id t = item.2).

(** The requests for a (course, section, teacher) triple: instances 1..N. *)
Definition instances (c : Course) (s : Section) (t : Teacher) : list Request :=
  (fun i => mkRequest c s t (Z.of_nat i)) <$> seq 1 (Z.to_nat (hours_per_week c)).

(** The requests a mapping item contributes. *)
Definition requests_of (courses : list Course) (sections : list Section)
    (teachers : list Teacher) (item : MappingItem) : list Request :=
  match find_by_id course_id courses item.1.1,
        find_by_id section_id sections item.1.2,
        find_by_id teacher_id teachers item.2 with
  | Some c, Some s, Some t => instances c s t
  | _, _, _ => []
  end.

(** The warning a mapping item causes: for the first id that does not
    resolve, in the order course, section, teacher. *)
Definition warning_of (courses : list Course) (sections : list Section)
    (teachers : list Teacher) (item : MappingItem) : list string :=
  match find_by_id course_id courses item.1.1 with
  | None => ["Warning: Course " +:+ item.1.1 +:+ " not found"]
  | Some _ =>
    match find_by_id section_id sections item.1.2 with
    | None => ["Warning: Section " +:+ item.1.2 +:+ " not found"]
    | Some _ =>
      match find_by_id teacher_id teachers item.2 with
      | None => ["Warning: Teacher " +:+ item.2 +:+ " not found"]
      | Some _ => []
      end
    end
  end.

(** ** The order of the prioritized requests

    [x] is not after [y] in the priority order: a lab request before one
    that is not, then more weekly hours first, then the smaller department
    of the section (strings compared code point by code point). *)
Definition lab_rank (req : Request) : Z :=
  if bool_decide (course_type (req_course req) = "lab") then 0 else 1.

Definition priority_le (x y : Request) : Prop :=
  lab_rank x < lab_rank y ∨
  (lab_rank x = lab_rank y ∧
   (hours_per_week (req_course x) > hours_per_week (req_course y) ∨
    (hours_per_week (req_course x) = hours_per_week (req_course y) ∧
     String.leb (section_department (req_section x))
                (section_department (req_section y)) = true))).

(** ** The slot universe, in the terms of the configuration *)

(** The periods of a day that have times: those of 1..periods_per_day that
    are keys of [time_slots]. *)
Definition valid_periods (config : TimetableConfig) : list Z :=
  filter (fun p => is_Some (time_slots config !! p))
         (range 1 (periods_per_day config + 1)).

(** ** Sample data

    Entities in the style of [create_sample_data] of [main.py], used to run
    the definitions on concrete inputs. *)
Definition monday1 : TimeSlot := mkTimeSlot "Monday" 1 "09:00" "10:00".
Definition monday2 : TimeSlot := mkTimeSlot "Monday" 2 "10:00" "11:00".
Definition sharma : Teacher :=
  mkTeacher "T001" "Dr. Sharma" "Computer Science" ["Data Structures"; "Algorithms"] ∅.
Definition patel : Teacher :=
  mkTeacher "T002" "Dr. Patel" "Computer Science" ["Database"; "Programming"] ∅.
Definition cs101 : Course :=
  mkCourse "CS101" "Data Structures" "Computer Science" 1 "theory".
Definition cs102 : Course :=
  mkCourse "CS102" "Algorithms" "Computer Science" 1 "theory".
Definition cs104 : Course :=
  mkCourse "CS104" "Programming Lab" "Computer Science" 2 "lab".
Definition cs_a : Section := mkSection "S001" "CS-A" "Computer Science" 3 55.
Definition cs_b : Section := mkSection "S002" "CS-B" "Computer Science" 3 50.
Definition room101 : Room := mkRoom "R001" "Room 101" 60 "classroom".
Definition room105 : Room := mkRoom "R005" "Room 105" 40 "classroom".
Definition lab201 : Room := mkRoom "L001" "Lab 201" 60 "lab".

(** A generator state that always draws [n]. *)
Definition constant_draws (n : nat) : Rng := mkRng (fun _ => n) 0.

(** A slot universe of one slot, and of two. *)
Definition one_slot_config : TimetableConfig :=
  {| days := ["Monday"]; periods_per_day := 1;
     time_slots := <[1 := ("09:00", "10:00")]> ∅ |}.
Definition two_slot_config : TimetableConfig :=
  {| days := ["Monday"]; periods_per_day := 2;
     time_slots := <[1 := ("09:00", "10:00")]> (<[2 := ("10:00", "11:00")]> ∅) |}.

(** Sample assignments: two on Dr. Sharma's Monday first period, the first
    of them in a room too small for its section, and one elsewhere. *)
Definition sharma_cs101_monday1 : ClassAssignment :=
  mkClassAssignment cs101 cs_a sharma room105 monday1.
Definition sharma_cs102_monday1 : ClassAssignment :=
  mkClassAssignment cs102 cs_b sharma room101 monday1.
Definition patel_cs102_monday2 : ClassAssignment :=
  mkClassAssignment cs102 cs_b patel room101 monday2.
Definition sharma_cs101_monday1_lab : ClassAssignment :=
  mkClassAssignment cs101 cs_a sharma lab201 monday1.

Definition sharma_cs104_monday1 : ClassAssignment :=
  mkClassAssignment cs104 cs_a sharma room105 monday1.

(** Three assignments on Dr. Sharma's Monday first period, two of them in
    Room 105 and with section CS-A, among assignments on other bookings. *)
Definition crowded_monday : list ClassAssignment :=
  [sharma_cs101_monday1; sharma_cs102_monday1; patel_cs102_monday2;
   sharma_cs104_monday1].

(** Sample requests. *)
Definition cs101_request : Request := mkRequest cs101 cs_a sharma 1.
Definition cs102_request : Request := mkRequest cs102 cs_a patel 1.

(** CS-A taught Data Structures by Dr. Sharma and Algorithms by Dr. Patel. *)
Definition two_courses_one_section : list MappingItem :=
  [(("CS101", "S001"), "T001"); (("CS102", "S001"), "T002")].

(** The state of a search that has committed CS101 for CS-A to the only
    slot, in the only room. *)
Definition sharma_cs101_room101 : ClassAssignment :=
  mkClassAssignment cs101 cs_a sharma room101 monday1.
Definition one_committed : GenState :=
  {| assignments := [sharma_cs101_room101];
     generation_stats := {| attempts := 1; backtracks := 0;
                            conflicts_resolved := 0 |};
     random_state := constant_draws 0 |}.

(** A mapping with an item whose course id is unknown between two that
    resolve. *)
Definition mapping_with_unknown_course : list MappingItem :=
  [(("CS104", "S001"), "T001"); (("XX999", "S001"), "T001");
   (("CS101", "S002"), "T002")].

(** One weekly hour of CS101 for CS-A with Dr. Sharma. *)
Definition one_course_one_section : list MappingItem :=
  [(("CS101", "S001"), "T001")].

(** The bookings held by the assignments of a list, as a set. *)
Definition bookings (who : ClassAssignment → string) (l : list ClassAssignment)
    : gset (string * (string * Z)) :=
  list_to_set (booking who <$> l).

(** ** What a search can and cannot find *)

(** [a] is a candidate for [request]: an assignment of its course, section
    and teacher to a room of [rooms] that passes the room filter and a slot
    of [all_slots] at which the teacher is available. *)
Definition candidate_for (rooms : list Room) (all_slots : list TimeSlot)
    (request : Request) (a : ClassAssignment) : Prop :=
  course a = req_course request ∧ section a = req_section request ∧
  teacher a = req_teacher request ∧
  room a ∈ rooms ∧
  room_suitable (req_course request) (req_section request) (room a) ∧
  time_slot a ∈ all_slots ∧
  is_available (req_teacher request) (time_slot a) = true.

(** [new] schedules [pending] on top of [committed]: one candidate for each
    request, in order, and the hard invariants hold of the whole list. *)
Definition schedules (rooms : list Room) (all_slots : list TimeSlot)
    (committed : list ClassAssignment) (pending : list Request)
    (new : list ClassAssignment) : Prop :=
  Forall2 (candidate_for rooms all_slots) pending new ∧
  hard_invariants (committed ++ new).

(** ** The statistics of a search call

    [f] maps the state at entry of a call to its result and the state it
    leaves, [n] is the number of requests the call has to schedule. *)
Definition attempts_of (st : GenState) : Z := attempts (generation_stats st).
Definition backtracks_of (st : GenState) : Z := backtracks (generation_stats st).

Record stats_sound (n : nat) (max_attempts : Z)
    (f : GenState → bool * GenState) : Prop := {
  (* a successful call: one attempt for each request, and one more for each
     backtrack *)
  stats_success : ∀ st,
    (f st).1 = true →
    attempts_of (f st).2 - attempts_of st =
    Z.of_nat n + (backtracks_of (f st).2 - backtracks_of st);
  (* a failed call: the budget is used up, or one attempt for the call and
     one more for each backtrack *)
  stats_failure : ∀ st,
    (f st).1 = false →
    attempts_of (f st).2 >= max_attempts ∨
    attempts_of (f st).2 - attempts_of st =
    1 + (backtracks_of (f st).2 - backtracks_of st);
  stats_backtracks_mono : ∀ st, backtracks_of st <= backtracks_of (f st).2;
  stats_conflicts_resolved : ∀ st,
    conflicts_resolved (generation_stats (f st).2) =
    conflicts_resolved (generation_stats st)
}.

(** The same for the candidate loop of a call, whose recursive calls have [n]
    requests to schedule. *)
Record loop_stats_sound (n : nat) (max_attempts : Z)
    (f : GenState → bool * GenState) : Prop := {
  loop_success : ∀ st,
    (f st).1 = true →
    attempts_of (f st).2 - attempts_of st =
    Z.of_nat n + (backtracks_of (f st).2 - backtracks_of st);
  loop_failure : ∀ st,
    (f st).1 = false →
    attempts_of (f st).2 >= max_attempts ∨
    attempts_of (f st).2 - attempts_of st =
    backtracks_of (f st).2 - backtracks_of st;
  loop_backtracks_mono : ∀ st, backtracks_of st <= backtracks_of (f st).2;
  loop_conflicts_resolved : ∀ st,
    conflicts_resolved (generation_stats (f st).2) =
    conflicts_resolved (generation_stats st)
}.


(** A lab request for CS-B. *)
Definition cs104_request : Request := mkRequest cs104 cs_b patel 1.

(** * Proofs *)

(** ** The equality tests *)

Lemma same_teacher_slot_spec e a :
  same_teacher_slot e a = true ↔ share_teacher_slot e a.
Proof.
  unfold same_teacher_slot, share_teacher_slot, Teacher_eq, TimeSlot_eq, slot_key.
  rewrite !andb_true_iff, !bool_decide_eq_true.
  split; [intros [? [? ?]]; split; [done | by f_equal] | intros [? [= ? ?]]; done].
Qed.

Lemma same_room_slot_spec e a :
  same_room_slot e a = true ↔ share_room_slot e a.
Proof.
  unfold same_room_slot, share_room_slot, Room_eq, TimeSlot_eq, slot_key.
  rewrite !andb_true_iff, !bool_decide_eq_true.
  split; [intros [? [? ?]]; split; [done | by f_equal] | intros [? [= ? ?]]; done].
Qed.

Lemma same_section_slot_spec e a :
  same_section_slot e a = true ↔ share_section_slot e a.
Proof.
  unfold same_section_slot, share_section_slot, Section_eq, TimeSlot_eq, slot_key.
  rewrite !andb_true_iff, !bool_decide_eq_true.
  split; [intros [? [? ?]]; split; [done | by f_equal] | intros [? [= ? ?]]; done].
Qed.

(** ** The validator *)

(** A loop that appends the same message for every element passing a test. *)
Lemma foldl_append_if {A B} (p : B → bool) (m : A) (l : list B) (acc : list A) :
  foldl (fun cs e => if p e then cs ++ [m] else cs) acc l =
  acc ++ replicate (length (filter (fun e => p e = true) l)) m.
Proof.
  revert acc. induction l as [|e l IH]; intros acc; simpl.
  - by rewrite app_nil_r.
  - rewrite IH, filter_cons. destruct (p e) eqn:E.
    + rewrite decide_True by done. simpl. by rewrite <- app_assoc.
    + rewrite decide_False by (by intros ?). done.
Qed.

Lemma replicate_filter_nonempty {A B} (p : B → bool) (m : A) (l : list B) :
  replicate (length (filter (fun e => p e = true) l)) m ≠ [] ↔
  ∃ e, e ∈ l ∧ p e = true.
Proof.
  split.
  - intros H. destruct (filter (fun e => p e = true) l) as [|e l'] eqn:E; [done|].
    assert (e ∈ filter (fun e => p e = true) l) as Hf by (rewrite E; left).
    apply list_elem_of_filter in Hf. exists e. tauto.
  - intros (e & Hin & Hp) H.
    assert (e ∈ filter (fun e => p e = true) l) as Hf
      by (by apply list_elem_of_filter).
    destruct (filter (fun e => p e = true) l); [by inversion Hf | done].
Qed.

Lemma elem_of_replicate_filter {A B} (p : B → bool) (m x : A) (l : list B) :
  x ∈ replicate (length (filter (fun e => p e = true) l)) m ↔
  x = m ∧ ∃ e, e ∈ l ∧ p e = true.
Proof.
  rewrite elem_of_replicate, <- (replicate_filter_nonempty p m l).
  destruct (filter (fun e => p e = true) l); simpl; intuition (lia || done).
Qed.

Lemma validate_assignment_conflicts a l :
  (validate_assignment a l).2 =
  teacher_msgs a l ++ room_msgs a l ++ section_msgs a l ++
  capacity_msgs a ++ availability_msgs a ++ room_type_msgs a.
Proof.
  unfold validate_assignment, teacher_msgs, room_msgs, section_msgs,
    capacity_msgs, availability_msgs, room_type_msgs.
  unfold _check_teacher_conflict, _check_room_conflict, _check_section_conflict,
    _check_room_capacity, _check_teacher_availability,
    _check_room_type_compatibility.
  cbn [snd]. rewrite !foldl_append_if.
  destruct (capacity_too_small a), (teacher_unavailable a), (room_type_mismatch a);
    cbn [app]; rewrite ?app_nil_r, <- ?app_assoc; reflexivity.
Qed.

Lemma validate_assignment_ok a l :
  (validate_assignment a l).1 = true ↔ (validate_assignment a l).2 = [].
Proof.
  unfold validate_assignment. cbn [fst snd].
  rewrite bool_decide_eq_true. apply length_zero_iff_nil.
Qed.

Lemma elem_of_teacher_msgs x a l :
  x ∈ teacher_msgs a l ↔
  x = teacher_conflict_msg a ∧ ∃ e, e ∈ l ∧ share_teacher_slot e a.
Proof.
  unfold teacher_msgs, _check_teacher_conflict.
  rewrite (foldl_append_if (fun e => same_teacher_slot e a)), app_nil_l.
  rewrite elem_of_replicate_filter.
  by setoid_rewrite same_teacher_slot_spec.
Qed.

Lemma elem_of_room_msgs x a l :
  x ∈ room_msgs a l ↔
  x = room_conflict_msg a ∧ ∃ e, e ∈ l ∧ share_room_slot e a.
Proof.
  unfold room_msgs, _check_room_conflict.
  rewrite (foldl_append_if (fun e => same_room_slot e a)), app_nil_l.
  rewrite elem_of_replicate_filter.
  by setoid_rewrite same_room_slot_spec.
Qed.

Lemma elem_of_section_msgs x a l :
  x ∈ section_msgs a l ↔
  x = section_conflict_msg a ∧ ∃ e, e ∈ l ∧ share_section_slot e a.
Proof.
  unfold section_msgs, _check_section_conflict.
  rewrite (foldl_append_if (fun e => same_section_slot e a)), app_nil_l.
  rewrite elem_of_replicate_filter.
  by setoid_rewrite same_section_slot_spec.
Qed.

Lemma elem_of_capacity_msgs x a :
  x ∈ capacity_msgs a ↔
  x = capacity_conflict_msg a ∧ capacity (room a) < student_count (section a).
Proof.
  unfold capacity_msgs, _check_room_capacity, capacity_too_small.
  case_bool_decide; simpl.
  - rewrite list_elem_of_singleton. tauto.
  - rewrite elem_of_nil. tauto.
Qed.

Lemma elem_of_availability_msgs x a :
  x ∈ availability_msgs a ↔
  x = availability_conflict_msg a ∧ is_available (teacher a) (time_slot a) = false.
Proof.
  unfold availability_msgs, _check_teacher_availability, teacher_unavailable.
  destruct (is_available _ _); simpl.
  - rewrite elem_of_nil. intuition discriminate.
  - rewrite list_elem_of_singleton. tauto.
Qed.

Lemma elem_of_room_type_msgs x a :
  x ∈ room_type_msgs a ↔
  x = room_type_conflict_msg a ∧
  course_type (course a) = "lab" ∧ room_type (room a) ≠ "lab".
Proof.
  unfold room_type_msgs, _check_room_type_compatibility, room_type_mismatch.
  do 2 case_bool_decide; simpl;
    rewrite ?elem_of_nil, ?list_elem_of_singleton; tauto.
Qed.

(** Messages of different checks differ: they start differently. *)
Ltac distinct_msgs :=
  unfold teacher_conflict_msg, room_conflict_msg, section_conflict_msg,
    capacity_conflict_msg, availability_conflict_msg, room_type_conflict_msg;
  simpl; congruence.

Ltac split_violations :=
  rewrite validate_assignment_conflicts, !elem_of_app,
    elem_of_teacher_msgs, elem_of_room_msgs, elem_of_section_msgs,
    elem_of_capacity_msgs, elem_of_availability_msgs, elem_of_room_type_msgs.

Lemma teacher_msg_reported a l :
  teacher_conflict_msg a ∈ (validate_assignment a l).2 ↔
  ∃ e, e ∈ l ∧ share_teacher_slot e a.
Proof.
  split_violations. split; [|tauto].
  intros [[_ ?]|[[? _]|[[? _]|[[? _]|[[? _]|[? _]]]]]];
    first [ done | exfalso; distinct_msgs ].
Qed.

Lemma room_msg_reported a l :
  room_conflict_msg a ∈ (validate_assignment a l).2 ↔
  ∃ e, e ∈ l ∧ share_room_slot e a.
Proof.
  split_violations. split; [|tauto].
  intros [[? _]|[[_ ?]|[[? _]|[[? _]|[[? _]|[? _]]]]]];
    first [ done | exfalso; distinct_msgs ].
Qed.

Lemma section_msg_reported a l :
  section_conflict_msg a ∈ (validate_assignment a l).2 ↔
  ∃ e, e ∈ l ∧ share_section_slot e a.
Proof.
  split_violations. split; [|tauto].
  intros [[? _]|[[? _]|[[_ ?]|[[? _]|[[? _]|[? _]]]]]];
    first [ done | exfalso; distinct_msgs ].
Qed.

Lemma capacity_msg_reported a l :
  capacity_conflict_msg a ∈ (validate_assignment a l).2 ↔
  capacity (room a) < student_count (section a).
Proof.
  split_violations. split; [|tauto].
  intros [[? _]|[[? _]|[[? _]|[[_ ?]|[[? _]|[? _]]]]]];
    first [ done | exfalso; distinct_msgs ].
Qed.

Lemma availability_msg_reported a l :
  availability_conflict_msg a ∈ (validate_assignment a l).2 ↔
  is_available (teacher a) (time_slot a) = false.
Proof.
  split_violations. split; [|tauto].
  intros [[? _]|[[? _]|[[? _]|[[? _]|[[_ ?]|[? _]]]]]];
    first [ done | exfalso; distinct_msgs ].
Qed.

Lemma room_type_msg_reported a l :
  room_type_conflict_msg a ∈ (validate_assignment a l).2 ↔
  course_type (course a) = "lab" ∧ room_type (room a) ≠ "lab".
Proof.
  split_violations. split; [|tauto].
  intros [[? _]|[[? _]|[[? _]|[[? _]|[[? _]|[_ ?]]]]]];
    first [ done | exfalso; distinct_msgs ].
Qed.

(** C3. [validate_assignment] runs the six checks one after the other, none
    of them skipped: the violations it returns are the messages of the six
    checks, each run on its own, in order; [ok] is true exactly when that
    list is empty; the message of each check is in the list exactly when its
    constraint is violated, whatever the other checks found. There is a
    candidate whose room is too small and whose teacher is already booked at
    its slot, and both messages are returned for it. *)
Theorem validate_assignment_reports_every_violation :
  (∀ a l,
     (validate_assignment a l).2 =
       teacher_msgs a l ++ room_msgs a l ++ section_msgs a l ++
       capacity_msgs a ++ availability_msgs a ++ room_type_msgs a ∧
     ((validate_assignment a l).1 = true ↔ (validate_assignment a l).2 = []) ∧
     (teacher_conflict_msg a ∈ (validate_assignment a l).2 ↔
        ∃ e, e ∈ l ∧ share_teacher_slot e a) ∧
     (room_conflict_msg a ∈ (validate_assignment a l).2 ↔
        ∃ e, e ∈ l ∧ share_room_slot e a) ∧
     (section_conflict_msg a ∈ (validate_assignment a l).2 ↔
        ∃ e, e ∈ l ∧ share_section_slot e a) ∧
     (capacity_conflict_msg a ∈ (validate_assignment a l).2 ↔
        capacity (room a) < student_count (section a)) ∧
     (availability_conflict_msg a ∈ (validate_assignment a l).2 ↔
        is_available (teacher a) (time_slot a) = false) ∧
     (room_type_conflict_msg a ∈ (validate_assignment a l).2 ↔
        course_type (course a) = "lab" ∧ room_type (room a) ≠ "lab")) ∧
  (∃ a l,
     capacity (room a) < student_count (section a) ∧
     (∃ e, e ∈ l ∧ share_teacher_slot e a) ∧
     validate_assignment a l =
       (false,
        ["Teacher conflict: Dr. Sharma is already scheduled at Monday Period 1 (09:00-10:00)";
         "Capacity conflict: Room Room 105 (capacity: 40) is too small for section CS-A (students: 55)"])).
Proof.
  split.
  - intros a l.
    split; [apply validate_assignment_conflicts|].
    split; [apply validate_assignment_ok|].
    split; [apply teacher_msg_reported|].
    split; [apply room_msg_reported|].
    split; [apply section_msg_reported|].
    split; [apply capacity_msg_reported|].
    split; [apply availability_msg_reported|apply room_type_msg_reported].
  - exists (mkClassAssignment cs101 cs_a sharma room105 monday1),
           [mkClassAssignment cs102 cs_b sharma room101 monday1].
    split; [simpl; lia|]. split.
    + eexists. split; [left|]. by split.
    + vm_compute. reflexivity.
Qed.

(** ** The conflict detector *)

Section Schedules.
Implicit Types (S : Schedule) (who w : string) (key k : string * Z).

Lemma entry_of_ensure_entry who w S :
  entry_of w (ensure_entry who S) = entry_of w S.
Proof.
  unfold entry_of, ensure_entry. destruct (S !! who) eqn:E; [done|].
  destruct (decide (who = w)) as [->|Hne].
  - by rewrite lookup_insert_eq, E.
  - by rewrite lookup_insert_ne.
Qed.

Lemma entry_of_store who key a w k S :
  entry_of w (store who key a S) !! k =
  if decide ((who, key) = (w, k)) then Some a else entry_of w S !! k.
Proof.
  unfold store. unfold entry_of at 1.
  destruct (decide (who = w)) as [->|Hne].
  - rewrite lookup_insert_eq. simpl.
    destruct (decide (key = k)) as [->|Hk].
    + rewrite lookup_insert_eq. by rewrite decide_True.
    + rewrite lookup_insert_ne by done. rewrite decide_False by congruence. done.
  - rewrite lookup_insert_ne by done. rewrite decide_False by congruence. done.
Qed.
End Schedules.

Lemma occupant_snoc who seen a b :
  occupant who (seen ++ [a]) b =
  if decide (booking who a = b) then Some a else occupant who seen b.
Proof.
  unfold occupant. rewrite filter_app, filter_cons, filter_nil.
  destruct (decide (booking who a = b)).
  - by rewrite last_snoc.
  - by rewrite app_nil_r.
Qed.

Lemma occupant_is_Some who seen b :
  is_Some (occupant who seen b) ↔ ∃ e, e ∈ seen ∧ booking who e = b.
Proof.
  unfold occupant. split.
  - intros [o Ho]. apply last_Some_elem_of in Ho.
    apply list_elem_of_filter in Ho. exists o. tauto.
  - intros (e & Hin & He).
    assert (e ∈ filter (fun e => booking who e = b) seen) as Hf
      by (by apply list_elem_of_filter).
    destruct (filter (fun e => booking who e = b) seen) as [|x l'] eqn:E using rev_ind.
    + by inversion Hf.
    + rewrite last_snoc. by eexists.
Qed.

Lemma occupant_booking who seen b o :
  occupant who seen b = Some o → o ∈ seen ∧ booking who o = b.
Proof.
  unfold occupant. intros Ho. apply last_Some_elem_of in Ho.
  by apply list_elem_of_filter in Ho as [? ?].
Qed.

Lemma schedule_models_step who S seen a :
  schedule_models who S seen →
  entry_of (who a) (ensure_entry (who a) S) !! slot_key (time_slot a) =
    occupant who seen (booking who a) ∧
  schedule_models who
    (store (who a) (slot_key (time_slot a)) a (ensure_entry (who a) S))
    (seen ++ [a]).
Proof.
  intros HS. split.
  - rewrite entry_of_ensure_entry. apply HS.
  - intros w k. rewrite entry_of_store, occupant_snoc, entry_of_ensure_entry.
    unfold booking. rewrite HS. done.
Qed.

Lemma conflicts_app_assoc c1 c2 c3 :
  conflicts_app (conflicts_app c1 c2) c3 = conflicts_app c1 (conflicts_app c2 c3).
Proof. unfold conflicts_app. simpl. by rewrite <- !app_assoc. Qed.

Lemma conflicts_app_nil_r c seen : conflicts_app c (report_of seen []) = c.
Proof. destruct c. unfold conflicts_app. simpl. by rewrite !app_nil_r. Qed.

Lemma report_of_cons seen a l :
  report_of seen (a :: l) =
  conflicts_app (report_of seen [a]) (report_of (seen ++ [a]) l).
Proof.
  unfold report_of, conflicts_app. simpl.
  rewrite !app_nil_r, !fmap_app, !filter_cons, !filter_nil.
  repeat case_decide; reflexivity.
Qed.

Lemma detector_step_report st seen a :
  detector_models st seen →
  conflicts (detector_step st a) = conflicts_app (conflicts st) (report_of seen [a]) ∧
  detector_models (detector_step st a) (seen ++ [a]).
Proof.
  intros (Ht & Hr & Hs).
  destruct (schedule_models_step teacher_of _ _ a Ht) as [Et Ht'].
  destruct (schedule_models_step room_of _ _ a Hr) as [Er Hr'].
  destruct (schedule_models_step section_of _ _ a Hs) as [Es Hs'].
  unfold teacher_of in Et. unfold room_of in Er. unfold section_of in Es.
  split; [|by split].
  unfold detector_step, conflicts_app, report_of. cbn [conflicts].
  rewrite Et, Er, Es. cbn [double_bookings].
  rewrite !filter_cons, !filter_nil, !app_nil_r.
  unfold teacher_of, room_of, section_of.
  cbn [teacher_conflicts room_conflicts section_conflicts capacity_issues
       availability_issues room_type_issues].
  f_equal.
  - destruct (occupant (fun a0 => teacher_id (teacher a0)) seen _); simpl; by rewrite ?app_nil_r.
  - destruct (occupant (fun a0 => room_id (room a0)) seen _); simpl; by rewrite ?app_nil_r.
  - destruct (occupant (fun a0 => section_id (section a0)) seen _); simpl; by rewrite ?app_nil_r.
  - destruct (capacity_too_small a); simpl; by rewrite ?app_nil_r.
  - destruct (teacher_unavailable a); simpl; by rewrite ?app_nil_r.
  - destruct (room_type_mismatch a); simpl; by rewrite ?app_nil_r.
Qed.

Lemma detector_run_report st seen l :
  detector_models st seen →
  conflicts (foldl detector_step st l) = conflicts_app (conflicts st) (report_of seen l).
Proof.
  revert st seen. induction l as [|a l IH]; intros st seen Hm; simpl.
  - by rewrite conflicts_app_nil_r.
  - destruct (detector_step_report st seen a Hm) as [E Hm'].
    rewrite (IH _ _ Hm'), E, (report_of_cons seen a l). apply conflicts_app_assoc.
Qed.

Lemma detector_init_models : detector_models detector_init [].
Proof. repeat split; intros w k; unfold entry_of; simpl; by rewrite lookup_empty. Qed.

(** The report of the detector is the report of the specification. *)
Lemma find_all_conflicts_report l : find_all_conflicts l = report_of [] l.
Proof.
  unfold find_all_conflicts, detector_run.
  rewrite (detector_run_report _ [] l detector_init_models).
  unfold conflicts_app, report_of. reflexivity.
Qed.

Lemma double_bookings_app who seen l1 l2 :
  double_bookings who seen (l1 ++ l2) =
  double_bookings who seen l1 ++ double_bookings who (seen ++ l1) l2.
Proof.
  revert seen. induction l1 as [|a l1 IH]; intros seen; simpl.
  - by rewrite app_nil_r.
  - rewrite IH, <- !app_assoc. reflexivity.
Qed.

Lemma report_of_app seen l1 l2 :
  report_of seen (l1 ++ l2) =
  conflicts_app (report_of seen l1) (report_of (seen ++ l1) l2).
Proof.
  unfold report_of, conflicts_app. simpl.
  by rewrite !double_bookings_app, !filter_app, !fmap_app.
Qed.

Lemma count_conflicts_app c1 c2 :
  count_conflicts (conflicts_app c1 c2) = count_conflicts c1 + count_conflicts c2.
Proof.
  unfold count_conflicts, conflicts_app. simpl. rewrite !length_app. lia.
Qed.

Lemma count_conflicts_nonneg c : 0 <= count_conflicts c.
Proof. unfold count_conflicts. lia. Qed.

(** How many assignments of [l] land on a held booking, when the bookings
    other than [b] are all different: those on [b], but for the first one
    if [b] was free. *)
Lemma double_bookings_length who b seen l :
  NoDup (booking who <$> filter (fun e => booking who e ≠ b) (seen ++ l)) →
  length (double_bookings who seen l) =
  (length (filter (fun e => booking who e = b) l) -
   match occupant who seen b with Some _ => 0 | None => 1 end)%nat.
Proof.
  revert seen. induction l as [|a l IH]; intros seen Hnd.
  - simpl. lia.
  - cbn [double_bookings]. rewrite length_app, filter_cons.
    rewrite (IH (seen ++ [a])) by (by rewrite <- app_assoc).
    rewrite occupant_snoc.
    destruct (decide (booking who a = b)) as [Hb|Hb].
    + rewrite Hb. destruct (occupant who seen b); simpl; lia.
    + assert (occupant who seen (booking who a) = None) as ->.
      { destruct (occupant who seen (booking who a)) as [o|] eqn:Ho; [|done].
        apply occupant_booking in Ho as [Hin Ho].
        rewrite filter_app, filter_cons, decide_True, fmap_app, fmap_cons in Hnd
          by done.
        apply NoDup_app in Hnd as (_ & Hnd & _).
        exfalso. apply (Hnd (booking who a)); [|left].
        rewrite <- Ho. apply list_elem_of_fmap_2.
        apply list_elem_of_filter. split; [congruence | done]. }
      simpl. done.
Qed.

Lemma no_msgs_iff {A} (l : list A) : l = [] ↔ ∀ x, x ∉ l.
Proof.
  split; [intros -> x; apply not_elem_of_nil | apply elem_of_nil_inv].
Qed.

Lemma occupant_None who seen b :
  occupant who seen b = None ↔ ¬ ∃ e, e ∈ seen ∧ booking who e = b.
Proof.
  rewrite <- occupant_is_Some, <- eq_None_not_Some. done.
Qed.

Lemma teacher_msgs_nil a l :
  teacher_msgs a l = [] ↔ occupant teacher_of l (booking teacher_of a) = None.
Proof.
  rewrite no_msgs_iff, occupant_None. setoid_rewrite elem_of_teacher_msgs.
  unfold share_teacher_slot, booking, teacher_of. split.
  - intros H (e & Hin & [= ? ? ?]). apply (H (teacher_conflict_msg a)).
    split; [done|]. exists e. split; [done|].
    split; [done | unfold slot_key; congruence].
  - intros H x (_ & e & Hin & ? & ?). apply H. exists e.
    split; [done|]. by f_equal.
Qed.

Lemma room_msgs_nil a l :
  room_msgs a l = [] ↔ occupant room_of l (booking room_of a) = None.
Proof.
  rewrite no_msgs_iff, occupant_None. setoid_rewrite elem_of_room_msgs.
  unfold share_room_slot, booking, room_of. split.
  - intros H (e & Hin & [= ? ? ?]). apply (H (room_conflict_msg a)).
    split; [done|]. exists e. split; [done|].
    split; [done | unfold slot_key; congruence].
  - intros H x (_ & e & Hin & ? & ?). apply H. exists e.
    split; [done|]. by f_equal.
Qed.

Lemma section_msgs_nil a l :
  section_msgs a l = [] ↔ occupant section_of l (booking section_of a) = None.
Proof.
  rewrite no_msgs_iff, occupant_None. setoid_rewrite elem_of_section_msgs.
  unfold share_section_slot, booking, section_of. split.
  - intros H (e & Hin & [= ? ? ?]). apply (H (section_conflict_msg a)).
    split; [done|]. exists e. split; [done|].
    split; [done | unfold slot_key; congruence].
  - intros H x (_ & e & Hin & ? & ?). apply H. exists e.
    split; [done|]. by f_equal.
Qed.

(** The validator accepts a candidate against [l] exactly when the detector,
    having seen [l], has nothing to report on it. *)
Lemma validate_iff_no_report a l :
  (validate_assignment a l).1 = true ↔ count_conflicts (report_of l [a]) = 0.
Proof.
  rewrite validate_assignment_ok, validate_assignment_conflicts.
  rewrite !app_nil, teacher_msgs_nil, room_msgs_nil, section_msgs_nil.
  unfold capacity_msgs, availability_msgs, room_type_msgs,
    _check_room_capacity, _check_teacher_availability,
    _check_room_type_compatibility.
  unfold count_conflicts, report_of. cbn [teacher_conflicts room_conflicts
    section_conflicts capacity_issues availability_issues room_type_issues
    double_bookings].
  rewrite !filter_cons, !filter_nil, !app_nil_r.
  destruct (occupant teacher_of l _), (occupant room_of l _),
    (occupant section_of l _), (capacity_too_small a),
    (teacher_unavailable a), (room_type_mismatch a);
    simpl; split; intros H; try lia; try done;
    try (destruct H as (?&?&?&?&?&?); discriminate).
Qed.

Lemma rejected_candidate_counted l a :
  (validate_assignment a l).1 = false →
  count_conflicts (find_all_conflicts (l ++ [a])) > 0.
Proof.
  intros Hrej.
  rewrite find_all_conflicts_report, report_of_app, count_conflicts_app.
  rewrite app_nil_l.
  pose proof (count_conflicts_nonneg (report_of [] l)).
  pose proof (count_conflicts_nonneg (report_of l [a])).
  assert (count_conflicts (report_of l [a]) ≠ 0); [|lia].
  rewrite <- validate_iff_no_report. by rewrite Hrej.
Qed.

Lemma accepted_list_no_conflicts l :
  accepted_list l → count_conflicts (find_all_conflicts l) = 0.
Proof.
  induction 1 as [|l a _ IH Hok].
  - reflexivity.
  - rewrite find_all_conflicts_report, report_of_app, count_conflicts_app.
    rewrite app_nil_l, <- find_all_conflicts_report, IH.
    by apply validate_iff_no_report in Hok as ->.
Qed.

(** C4. The validator and the conflict detector agree. A candidate the
    validator rejects against a list makes the detector count at least one
    conflict in the list with the candidate appended; a list built from the
    empty list by appending only candidates the validator accepted has a
    conflict count of zero. *)
Theorem validator_and_detector_agree :
  (∀ l a,
     (validate_assignment a l).1 = false →
     count_conflicts (find_all_conflicts (l ++ [a])) > 0) ∧
  (∀ l,
     accepted_list l →
     count_conflicts (find_all_conflicts l) = 0).
Proof.
  split; [apply rejected_candidate_counted | apply accepted_list_no_conflicts].
Qed.

Lemma validator_and_detector_agree_witness :
  count_conflicts
    (find_all_conflicts ([sharma_cs102_monday1] ++ [sharma_cs101_monday1])) > 0 ∧
  count_conflicts
    (find_all_conflicts ([sharma_cs102_monday1] ++ [patel_cs102_monday2])) = 0.
Proof.
  split.
  - apply (proj1 validator_and_detector_agree). vm_compute. reflexivity.
  - apply (proj2 validator_and_detector_agree).
    apply accepted_snoc; [apply (accepted_snoc []); [apply accepted_nil|]|];
      vm_compute; reflexivity.
Defined.

(** The pairs of [double_bookings], by position: the assignment at position
    [i] with the holder of its booking among [seen] and the assignments
    before [i]. *)
Lemma elem_of_double_bookings who seen l o a :
  (o, a) ∈ double_bookings who seen l ↔
  ∃ i, l !! i = Some a ∧
       occupant who (seen ++ take i l) (booking who a) = Some o.
Proof.
  revert seen. induction l as [|x l IH]; intros seen.
  - simpl. rewrite elem_of_nil. split; [done|].
    intros (i & Hi & _). by rewrite lookup_nil in Hi.
  - cbn [double_bookings]. rewrite elem_of_app, IH. split.
    + intros [Hhere|(i & Hi & Ho)].
      * exists 0%nat. simpl. rewrite app_nil_r.
        destruct (occupant who seen (booking who x)) as [o'|] eqn:E;
          [|by apply elem_of_nil in Hhere].
        apply list_elem_of_singleton in Hhere as [= -> ->]. done.
      * exists (S i). simpl. by rewrite cons_middle, app_assoc.
    + intros ([|i] & Hi & Ho); simpl in Hi, Ho.
      * left. injection Hi as ->. rewrite app_nil_r in Ho. rewrite Ho. left.
      * right. exists i. by rewrite cons_middle, app_assoc in Ho.
Qed.

(** C10. [find_all_conflicts] is one pass over the list. In each of the three
    double-booking categories its report has one entry for every assignment
    that lands on a booking already held, with the course names of the
    holder stored last and of the current assignment: the pairs
    [double_bookings] lists are those of an assignment with the last
    assignment before it that has the same resource and time slot. So in a list where
    exactly k >= 1 assignments are on one (teacher, time_slot) and the others
    are on different ones, there are exactly k - 1 teacher conflicts; the
    same for rooms and for sections. *)
Theorem find_all_conflicts_double_bookings :
  (∀ l,
     find_all_conflicts l = conflicts (foldl detector_step detector_init l) ∧
     teacher_conflicts (find_all_conflicts l) =
       teacher_entry <$> double_bookings teacher_of [] l ∧
     room_conflicts (find_all_conflicts l) =
       room_entry <$> double_bookings room_of [] l ∧
     section_conflicts (find_all_conflicts l) =
       section_entry <$> double_bookings section_of [] l) ∧
  (∀ who l o a,
     (o, a) ∈ double_bookings who [] l ↔
     ∃ i, l !! i = Some a ∧
          last (filter (fun e => who e = who a ∧
                                 slot_key (time_slot e) = slot_key (time_slot a))
                       (take i l)) = Some o) ∧
  (∀ l b k,
     (k >= 1)%nat →
     length (filter (fun e => booking teacher_of e = b) l) = k →
     NoDup (booking teacher_of <$> filter (fun e => booking teacher_of e ≠ b) l) →
     length (teacher_conflicts (find_all_conflicts l)) = (k - 1)%nat) ∧
  (∀ l b k,
     (k >= 1)%nat →
     length (filter (fun e => booking room_of e = b) l) = k →
     NoDup (booking room_of <$> filter (fun e => booking room_of e ≠ b) l) →
     length (room_conflicts (find_all_conflicts l)) = (k - 1)%nat) ∧
  (∀ l b k,
     (k >= 1)%nat →
     length (filter (fun e => booking section_of e = b) l) = k →
     NoDup (booking section_of <$> filter (fun e => booking section_of e ≠ b) l) →
     length (section_conflicts (find_all_conflicts l)) = (k - 1)%nat).
Proof.
  split; [|split; [|split; [|split]]].
  - intros l. split; [reflexivity|]. by rewrite find_all_conflicts_report.
  - intros who l o a. rewrite elem_of_double_bookings.
    unfold occupant, booking. setoid_rewrite app_nil_l.
    assert (∀ i, filter (fun e => (who e, slot_key (time_slot e)) =
                                  (who a, slot_key (time_slot a))) (take i l) =
                 filter (fun e => who e = who a ∧
                                  slot_key (time_slot e) = slot_key (time_slot a))
                        (take i l)) as Hf.
    { intros i. apply list_filter_iff. intros e. split.
      - intros [= ? ?]. split; [done | unfold slot_key; congruence].
      - intros [? ?]. by f_equal. }
    by setoid_rewrite Hf.
  - intros l b k _ Hk Hnd. rewrite find_all_conflicts_report. simpl.
    rewrite length_fmap, (double_bookings_length _ b) by done. by rewrite Hk.
  - intros l b k _ Hk Hnd. rewrite find_all_conflicts_report. simpl.
    rewrite length_fmap, (double_bookings_length _ b) by done. by rewrite Hk.
  - intros l b k _ Hk Hnd. rewrite find_all_conflicts_report. simpl.
    rewrite length_fmap, (double_bookings_length _ b) by done. by rewrite Hk.
Qed.

Lemma find_all_conflicts_double_bookings_witness :
  length (teacher_conflicts (find_all_conflicts crowded_monday)) = (3 - 1)%nat ∧
  length (room_conflicts (find_all_conflicts crowded_monday)) = (2 - 1)%nat ∧
  length (section_conflicts (find_all_conflicts crowded_monday)) = (2 - 1)%nat.
Proof.
  destruct find_all_conflicts_double_bookings as (_ & _ & Ht & Hr & Hs).
  split; [|split].
  - apply (Ht crowded_monday ("T001", ("Monday", 1)) 3%nat);
      [lia | vm_compute; reflexivity |].
    apply (bool_decide_unpack _). vm_compute. exact I.
  - apply (Hr crowded_monday ("R005", ("Monday", 1)) 2%nat);
      [lia | vm_compute; reflexivity |].
    apply (bool_decide_unpack _). vm_compute. exact I.
  - apply (Hs crowded_monday ("S001", ("Monday", 1)) 2%nat);
      [lia | vm_compute; reflexivity |].
    apply (bool_decide_unpack _). vm_compute. exact I.
Defined.

Example crowded_monday_teacher_conflicts :
  teacher_conflicts (find_all_conflicts crowded_monday) =
  [ {| tc_teacher := "Dr. Sharma";
       tc_time_slot := "Monday Period 1 (09:00-10:00)";
       tc_courses := ["Data Structures"; "Algorithms"] |};
    {| tc_teacher := "Dr. Sharma";
       tc_time_slot := "Monday Period 1 (09:00-10:00)";
       tc_courses := ["Algorithms"; "Programming Lab"] |} ].
Proof. vm_compute. reflexivity. Qed.

(** ** Lists of accepted candidates satisfy the hard invariants *)

Lemma pairwise_not_snoc R l a :
  (∀ x y, R x y → R y x) →
  pairwise_not R l →
  (∀ e, e ∈ l → ¬ R e a) →
  pairwise_not R (l ++ [a]).
Proof.
  intros Hsym Hl Ha i j x y Hij Hi Hj.
  apply lookup_snoc_Some in Hi as [[Hil Hi]|[-> <-]];
    apply lookup_snoc_Some in Hj as [[Hjl Hj]|[-> <-]].
  - by apply (Hl i j).
  - apply Ha. by eapply list_elem_of_lookup_2.
  - intros HR. apply Hsym in HR. revert HR. apply Ha.
    by eapply list_elem_of_lookup_2.
  - done.
Qed.

Lemma pairwise_not_nil R : pairwise_not R [].
Proof. intros i j x y _ Hi. by rewrite lookup_nil in Hi. Qed.

Lemma accepted_candidate a l :
  (validate_assignment a l).1 = true →
  (∀ e, e ∈ l → ¬ share_teacher_slot e a) ∧
  (∀ e, e ∈ l → ¬ share_room_slot e a) ∧
  (∀ e, e ∈ l → ¬ share_section_slot e a) ∧
  fits_room a ∧ teacher_free a ∧ lab_in_lab a.
Proof.
  intros Hok. apply validate_assignment_ok in Hok.
  pose proof (teacher_msg_reported a l) as Ht.
  pose proof (room_msg_reported a l) as Hr.
  pose proof (section_msg_reported a l) as Hs.
  pose proof (capacity_msg_reported a l) as Hc.
  pose proof (availability_msg_reported a l) as Ha.
  pose proof (room_type_msg_reported a l) as Hy.
  rewrite Hok, elem_of_nil in Ht, Hr, Hs, Hc, Ha, Hy.
  repeat split.
  - intros e Hin Hsh. apply Ht. eauto.
  - intros e Hin Hsh. apply Hr. eauto.
  - intros e Hin Hsh. apply Hs. eauto.
  - unfold fits_room. lia.
  - unfold teacher_free. destruct (is_available _ _); tauto.
  - intros Hlab. destruct (decide (room_type (room a) = "lab")); tauto.
Qed.

Lemma accepted_list_invariants l : accepted_list l → hard_invariants l.
Proof.
  induction 1 as [|l a _ (Ht & Hr & Hs & Hc & Ha & Hy) Hok].
  - repeat split; auto using pairwise_not_nil.
  - apply accepted_candidate in Hok as (Ht' & Hr' & Hs' & Hc' & Ha' & Hy').
    repeat split; try (apply Forall_app; split; [done | by constructor]).
    + apply pairwise_not_snoc; [|done..].
      unfold share_teacher_slot. intros x y [? ?]. by split.
    + apply pairwise_not_snoc; [|done..].
      unfold share_room_slot. intros x y [? ?]. by split.
    + apply pairwise_not_snoc; [|done..].
      unfold share_section_slot. intros x y [? ?]. by split.
Qed.

(** ** The backtracking search *)

Lemma try_candidates_cons recurse a more st :
  try_candidates recurse (a :: more) st =
  if (validate_assignment a (assignments st)).1
  then if (recurse (commit a st)).1
       then (true, (recurse (commit a st)).2)
       else try_candidates recurse more (undo (recurse (commit a st)).2)
  else try_candidates recurse more st.
Proof.
  cbn [try_candidates].
  destruct (validate_assignment a (assignments st)) as [[] ?]; [|done].
  by destruct (recurse (commit a st)) as [[] ?].
Qed.

(** [pop] after a failed recursive call removes the candidate committed
    before the call: the list it is applied to ends with that candidate. *)
Lemma failed_call_keeps_commit max_attempts recurse a st :
  search_sound max_attempts recurse →
  (recurse (commit a st)).1 = false →
  assignments (recurse (commit a st)).2 = assignments st ++ [a] ∧
  assignments (undo (recurse (commit a st)).2) = assignments st.
Proof.
  intros [Hres _ _ _] Hf. simpl. rewrite (Hres _ Hf). simpl.
  split; [done | apply removelast_last].
Qed.

Lemma try_candidates_sound max_attempts recurse candidates :
  search_sound max_attempts recurse →
  search_sound max_attempts (try_candidates recurse candidates).
Proof.
  intros [Hres Hacc Hmono Hbound].
  assert (∀ st a, (recurse (commit a st)).1 = false →
            assignments (undo (recurse (commit a st)).2) = assignments st) as Hundo.
  { intros st a Hf. simpl. rewrite (Hres _ Hf). simpl. apply removelast_last. }
  induction candidates as [|a more [IHres IHacc IHmono IHbound]].
  { split; intros st; simpl; try done; lia. }
  split; intros st; rewrite try_candidates_cons;
    destruct (validate_assignment a (assignments st)).1 eqn:V; auto;
    destruct (recurse (commit a st)).1 eqn:E; cbn [fst snd].
  - done.
  - intros Hf. rewrite (IHres _ Hf). by apply Hundo.
  - intros Hl. apply Hacc. simpl. by apply accepted_snoc.
  - intros Hl. apply IHacc. by rewrite Hundo.
  - apply (Hmono (commit a st)).
  - specialize (Hmono (commit a st)).
    specialize (IHmono (undo (recurse (commit a st)).2)).
    simpl in *. lia.
  - apply (Hbound (commit a st)).
  - specialize (Hbound (commit a st)).
    specialize (IHbound (undo (recurse (commit a st)).2)).
    simpl in *. lia.
Qed.

Lemma backtrack_pending_sound pending rooms all_slots max_attempts :
  search_sound max_attempts (backtrack_pending pending rooms all_slots max_attempts).
Proof.
  induction pending as [|request rest IH].
  - split; intros st; simpl; try done; lia.
  - pose proof (fun cs => try_candidates_sound max_attempts _ cs IH) as Htry.
    split; intros st; simpl; case_bool_decide; simpl; try done; try lia;
      destruct (_get_possible_assignments _ _ _ _) as [cs g];
      destruct (Htry cs) as [Hres Hacc Hmono Hbound].
    + intros Hf. by rewrite (Hres _ Hf).
    + intros Hl. by apply Hacc.
    + specialize (Hmono (set_random_state g (count_attempt st))).
      simpl in Hmono. lia.
    + specialize (Hbound (set_random_state g (count_attempt st))).
      simpl in Hbound. lia.
Qed.

(** ** Shuffling, sorting and candidate generation *)

Lemma swap_Permutation {A} (x : list A) i j : swap x i j ≡ₚ x.
Proof.
  unfold swap. destruct (x !! i) as [xi|] eqn:Hi; [|done].
  destruct (x !! j) as [xj|] eqn:Hj; [|done].
  by apply Permutation_insert_swap.
Qed.

Lemma shuffle_from_Permutation {A} i (x : list A) g :
  (shuffle_from i x g).1 ≡ₚ x.
Proof.
  revert x g. induction i as [|i IH]; intros x g; [done|].
  cbn [shuffle_from]. destruct (randbelow (S (S i)) g) as [j g'].
  rewrite IH. apply swap_Permutation.
Qed.

Lemma shuffle_Permutation {A} (x : list A) g : (shuffle x g).1 ≡ₚ x.
Proof. apply shuffle_from_Permutation. Qed.

Lemma insert_sorted_Permutation {A K} (key : A → K) ltb x l :
  insert_sorted key ltb x l ≡ₚ x :: l.
Proof.
  induction l as [|y l IH]; simpl; [done|].
  destruct (ltb (key y) (key x)); [|done].
  rewrite IH. apply Permutation_swap.
Qed.

Lemma sorted_by_Permutation {A K} (key : A → K) ltb l :
  sorted_by key ltb l ≡ₚ l.
Proof.
  induction l as [|x l IH]; simpl; [done|].
  by rewrite insert_sorted_Permutation, IH.
Qed.

(** A loop that appends the elements passing a test is a filter. *)
Lemma foldl_append_filter {A} (P : A → Prop) `{∀ x, Decision (P x)}
    (step : list A → A → list A) (l acc : list A) :
  (∀ acc x, step acc x = if decide (P x) then acc ++ [x] else acc) →
  foldl step acc l = acc ++ filter P l.
Proof.
  intros Hstep. revert acc. induction l as [|x l IH]; intros acc; simpl.
  - by rewrite app_nil_r.
  - rewrite IH, Hstep, filter_cons.
    destruct (decide (P x)); [by rewrite <- app_assoc | done].
Qed.

Lemma _filter_suitable_rooms_Permutation c s rooms :
  _filter_suitable_rooms c s rooms ≡ₚ filter (room_suitable c s) rooms.
Proof.
  unfold _filter_suitable_rooms. rewrite sorted_by_Permutation.
  rewrite (foldl_append_filter (room_suitable c s)); [done|].
  intros acc r. unfold room_suitable.
  destruct (decide (_ ∧ _)) as [[Hcap Hlab]|Hno];
    repeat case_bool_decide; simpl; try done; try lia; exfalso;
    first [ tauto | apply Hno; split; [lia | intros; congruence] ].
Qed.

(** The nested loops of [_get_possible_assignments] build the cross product. *)
Lemma candidate_loops request rooms slots acc :
  foldl (fun assignments r =>
           foldl (fun assignments slot =>
                    assignments ++
                    [mkClassAssignment (req_course request) (req_section request)
                                       (req_teacher request) r slot])
                 assignments slots)
        acc rooms =
  acc ++ cross_product request rooms slots.
Proof.
  unfold cross_product.
  assert (∀ r acc,
    foldl (fun assignments slot =>
             assignments ++
             [mkClassAssignment (req_course request) (req_section request)
                                (req_teacher request) r slot]) acc slots =
    acc ++ map (mkClassAssignment (req_course request) (req_section request)
                                  (req_teacher request) r) slots) as Hinner.
  { intros r. induction slots as [|slot slots IH]; intros acc'; simpl.
    - by rewrite app_nil_r.
    - by rewrite IH, <- app_assoc. }
  revert acc. induction rooms as [|r rooms IH]; intros acc; simpl.
  - by rewrite app_nil_r.
  - by rewrite Hinner, IH, <- app_assoc.
Qed.

Lemma elem_of_cross_product a request rooms slots :
  a ∈ cross_product request rooms slots ↔
  course a = req_course request ∧ section a = req_section request ∧
  teacher a = req_teacher request ∧ room a ∈ rooms ∧ time_slot a ∈ slots.
Proof.
  unfold cross_product. rewrite list_elem_of_In, in_flat_map. split.
  - intros (r & Hr & Ha). apply in_map_iff in Ha as (slot & <- & Hslot).
    simpl. by rewrite !list_elem_of_In.
  - intros (Hc & Hs & Ht & Hr & Hslot). exists (room a).
    rewrite <- list_elem_of_In. split; [done|].
    apply in_map_iff. exists (time_slot a).
    rewrite <- list_elem_of_In. split; [|done].
    destruct a; simpl in *. by subst.
Qed.

Lemma _get_possible_assignments_Permutation request rooms all_slots g :
  (_get_possible_assignments request rooms all_slots g).1 ≡ₚ
  cross_product request
    (filter (room_suitable (req_course request) (req_section request)) rooms)
    (available_slots_of (req_teacher request) all_slots).
Proof.
  unfold _get_possible_assignments. rewrite shuffle_Permutation.
  rewrite candidate_loops, app_nil_l. unfold cross_product.
  rewrite _filter_suitable_rooms_Permutation. done.
Qed.

(** C2, as the code has it. The candidates of a request are a permutation of
    the cross product of the rooms that are large enough for the section
    and, if the course is a lab, are labs, with the slots of the slot
    universe at which the teacher is available. The filter asks nothing of
    the room of a course that is not a lab: a lab that is large enough is a
    candidate for it. *)
Theorem candidates_are_cross_product request rooms all_slots g :
  (_get_possible_assignments request rooms all_slots g).1 ≡ₚ
    cross_product request
      (filter (room_suitable (req_course request) (req_section request)) rooms)
      (available_slots_of (req_teacher request) all_slots) ∧
  (∀ a,
     a ∈ (_get_possible_assignments request rooms all_slots g).1 ↔
     course a = req_course request ∧ section a = req_section request ∧
     teacher a = req_teacher request ∧
     (room a ∈ rooms ∧
      student_count (req_section request) <= capacity (room a) ∧
      (course_type (req_course request) = "lab" → room_type (room a) = "lab")) ∧
     (time_slot a ∈ all_slots ∧
      is_available (req_teacher request) (time_slot a) = true)).
Proof.
  split; [apply _get_possible_assignments_Permutation|].
  intros a. rewrite _get_possible_assignments_Permutation.
  rewrite elem_of_cross_product. unfold available_slots_of.
  rewrite !list_elem_of_filter. unfold room_suitable. tauto.
Qed.

(** C2 as stated fails: Lab 201 is the candidate room offered to the theory
    course CS101, where the stated filter leaves no room at all. *)
Lemma lab_room_offered_to_theory_course :
  (_get_possible_assignments cs101_request [lab201] [monday1] (constant_draws 0)).1 =
    [sharma_cs101_monday1_lab] ∧
  room_type (room sharma_cs101_monday1_lab) = "lab" ∧
  course_type (course sharma_cs101_monday1_lab) ≠ "lab" ∧
  cross_product cs101_request
    (filter (room_suitable_stated cs101 cs_a) [lab201])
    (available_slots_of sharma [monday1]) = [] ∧
  ¬ (_get_possible_assignments cs101_request [lab201] [monday1] (constant_draws 0)).1 ≡ₚ
    cross_product cs101_request
      (filter (room_suitable_stated (req_course cs101_request)
                                    (req_section cs101_request)) [lab201])
      (available_slots_of (req_teacher cs101_request) [monday1]).
Proof.
  split; [vm_compute; reflexivity|].
  split; [reflexivity|].
  split; [discriminate|].
  split; [vm_compute; reflexivity|].
  intros Hp. apply Permutation_length in Hp. vm_compute in Hp. discriminate.
Qed.

(** ** [generate] *)

Lemma generate_unfold config courses sections teachers rooms course_assignments g :
  generate config courses sections teachers rooms course_assignments g =
  let s := search_of config courses sections teachers rooms course_assignments g in
  {| returned := if s.1 then Some (assignments s.2) else None;
     final_state := s.2;
     warnings :=
       (_build_scheduling_requests courses sections teachers course_assignments).2 |}.
Proof.
  unfold generate, search_of, requests_for, initial_state.
  destruct (_build_scheduling_requests _ _ _ _) as [requests out]. cbn [fst snd].
  destruct (_schedule_requests _ _ _ _ _) as [[] st]; reflexivity.
Qed.

Lemma _backtrack_schedule_sound requests index rooms all_slots max_attempts :
  search_sound max_attempts
    (_backtrack_schedule requests index rooms all_slots max_attempts).
Proof. apply backtrack_pending_sound. Qed.

Lemma search_of_accepted config courses sections teachers rooms course_assignments g :
  accepted_list
    (assignments
       (search_of config courses sections teachers rooms course_assignments g).2).
Proof.
  unfold search_of, _schedule_requests.
  apply (sound_accepted _ _ (_backtrack_schedule_sound _ _ _ _ _)).
  apply accepted_nil.
Qed.

(** C1. Whenever [generate] returns an assignment list, the list satisfies
    the six hard invariants: no two of its assignments share a teacher and
    a time slot, a room and a time slot, or a section and a time slot, and
    in each of them the room holds the section, the teacher is available at
    the slot, and a lab course is in a lab. *)
Theorem generate_satisfies_hard_invariants
    config courses sections teachers rooms course_assignments g l :
  returned (generate config courses sections teachers rooms course_assignments g)
    = Some l →
  hard_invariants l.
Proof.
  rewrite generate_unfold. cbn [returned].
  pose proof (search_of_accepted config courses sections teachers rooms
                course_assignments g) as Hacc.
  destruct (search_of _ _ _ _ _ _ _) as [[] st]; [|done].
  intros [= <-]. by apply accepted_list_invariants.
Qed.

Lemma generate_satisfies_hard_invariants_witness :
  hard_invariants
    [mkClassAssignment cs104 cs_b patel lab201 (mkTimeSlot "Tuesday" 1 "09:00" "10:00");
     mkClassAssignment cs104 cs_b patel lab201 (mkTimeSlot "Monday" 5 "14:00" "15:00");
     mkClassAssignment cs101 cs_a sharma room101 (mkTimeSlot "Tuesday" 1 "09:00" "10:00");
     mkClassAssignment cs101 cs_b patel room101 (mkTimeSlot "Monday" 6 "15:00" "16:00")].
Proof.
  apply (generate_satisfies_hard_invariants default_config
           [cs101; cs104] [cs_a; cs_b] [sharma; patel] [room101; lab201; room105]
           [(("CS101", "S001"), "T001"); (("CS104", "S002"), "T002");
            (("CS101", "S002"), "T002")]
           (constant_draws 7)).
  vm_compute. reflexivity.
Defined.

(** C8. A search call that fails leaves the committed list exactly as it
    was at its entry. [generate] returns [None] when the search fails, and
    then nothing is left committed; when the search succeeds it returns the
    committed list, which satisfies the hard invariants and in which the
    conflict detector counts no conflict. *)
Theorem failure_is_atomic :
  (∀ requests index rooms all_slots max_attempts st,
     (_backtrack_schedule requests index rooms all_slots max_attempts st).1 = false →
     assignments
       (_backtrack_schedule requests index rooms all_slots max_attempts st).2 =
     assignments st) ∧
  (∀ config courses sections teachers rooms course_assignments g,
     let search :=
       search_of config courses sections teachers rooms course_assignments g in
     let run :=
       generate config courses sections teachers rooms course_assignments g in
     (search.1 = false →
        returned run = None ∧ assignments (final_state run) = []) ∧
     (search.1 = true →
        returned run = Some (assignments (final_state run)) ∧
        hard_invariants (assignments (final_state run)) ∧
        count_conflicts (find_all_conflicts (assignments (final_state run))) = 0)).
Proof.
  split.
  - intros requests index rooms all_slots max_attempts st.
    apply (sound_restores _ _ (_backtrack_schedule_sound _ _ _ _ _)).
  - intros config courses sections teachers rooms course_assignments g search run.
    subst run. rewrite generate_unfold. fold search. cbn [returned final_state].
    pose proof (search_of_accepted config courses sections teachers rooms
                  course_assignments g) as Hacc. fold search in Hacc.
    split; intros Hs; rewrite Hs.
    + split; [done|].
      apply (sound_restores _ _ (_backtrack_schedule_sound _ 0 _ _ _)) in Hs.
      exact Hs.
    + split; [done|]. split; [by apply accepted_list_invariants|].
      by apply accepted_list_no_conflicts.
Qed.

Lemma failure_is_atomic_witness :
  assignments
    (_backtrack_schedule [cs101_request; cs102_request] 1 [room101] [monday1]
       default_max_attempts one_committed).2 = assignments one_committed ∧
  (returned
     (generate one_slot_config [cs101; cs102] [cs_a] [sharma; patel] [room101]
        two_courses_one_section (constant_draws 0)) = None ∧
   assignments
     (final_state
        (generate one_slot_config [cs101; cs102] [cs_a] [sharma; patel] [room101]
           two_courses_one_section (constant_draws 0))) = []) ∧
  (returned
     (generate two_slot_config [cs101; cs102] [cs_a] [sharma; patel] [room101]
        two_courses_one_section (constant_draws 0)) =
   Some (assignments
     (final_state
        (generate two_slot_config [cs101; cs102] [cs_a] [sharma; patel] [room101]
           two_courses_one_section (constant_draws 0)))) ∧
   hard_invariants (assignments
     (final_state
        (generate two_slot_config [cs101; cs102] [cs_a] [sharma; patel] [room101]
           two_courses_one_section (constant_draws 0)))) ∧
   count_conflicts (find_all_conflicts (assignments
     (final_state
        (generate two_slot_config [cs101; cs102] [cs_a] [sharma; patel] [room101]
           two_courses_one_section (constant_draws 0))))) = 0).
Proof.
  destruct failure_is_atomic as [Hcall Hrun].
  split; [|split].
  - apply Hcall. vm_compute. reflexivity.
  - apply (Hrun one_slot_config). vm_compute. reflexivity.
  - apply (Hrun two_slot_config). vm_compute. reflexivity.
Defined.

Example second_course_for_the_section_fails :
  let run := generate one_slot_config [cs101; cs102] [cs_a] [sharma; patel]
               [room101] two_courses_one_section (constant_draws 0) in
  returned run = None ∧
  generation_stats (final_state run) =
    {| attempts := 2; backtracks := 1; conflicts_resolved := 0 |}.
Proof. vm_compute. done. Qed.

(** ** The attempt budget *)

Lemma _backtrack_schedule_done requests index rooms all_slots max_attempts st :
  (length requests <= index)%nat →
  _backtrack_schedule requests index rooms all_slots max_attempts st = (true, st).
Proof. intros Hlen. unfold _backtrack_schedule. by rewrite drop_ge. Qed.

Lemma _backtrack_schedule_refused
    requests index request rooms all_slots max_attempts st :
  requests !! index = Some request →
  attempts (generation_stats st) >= max_attempts →
  _backtrack_schedule requests index rooms all_slots max_attempts st = (false, st).
Proof.
  intros Hreq Hmax. unfold _backtrack_schedule.
  rewrite (drop_S _ _ _ Hreq). simpl. by rewrite bool_decide_eq_true_2.
Qed.

Lemma _backtrack_schedule_visit
    requests index request rooms all_slots max_attempts st :
  requests !! index = Some request →
  attempts (generation_stats st) < max_attempts →
  _backtrack_schedule requests index rooms all_slots max_attempts st =
  try_candidates
    (_backtrack_schedule requests (S index) rooms all_slots max_attempts)
    (_get_possible_assignments request rooms all_slots (random_state st)).1
    (set_random_state
       (_get_possible_assignments request rooms all_slots (random_state st)).2
       (count_attempt st)).
Proof.
  intros Hreq Hmax. unfold _backtrack_schedule.
  rewrite (drop_S _ _ _ Hreq). cbn [backtrack_pending].
  rewrite bool_decide_eq_false_2 by lia. cbn [count_attempt random_state].
  by destruct (_get_possible_assignments _ _ _ _).
Qed.

(** The candidate loop consumes nothing itself. *)
Lemma try_candidates_attempts recurse candidates st :
  (∀ s, attempts (generation_stats (recurse s).2) = attempts (generation_stats s)) →
  attempts (generation_stats (try_candidates recurse candidates st).2) =
  attempts (generation_stats st).
Proof.
  intros Hrec. revert st. induction candidates as [|a more IH]; intros st; [done|].
  rewrite try_candidates_cons.
  destruct (validate_assignment a (assignments st)).1; [|apply IH].
  destruct (recurse (commit a st)).1; cbn [snd].
  - apply (Hrec (commit a st)).
  - rewrite IH. simpl. apply (Hrec (commit a st)).
Qed.

(** With the budget used up and a request left for the recursive call, the
    candidate loop fails. *)
Lemma try_candidates_exhausted
    requests index rooms all_slots max_attempts candidates st :
  (S index < length requests)%nat →
  attempts (generation_stats st) >= max_attempts →
  (try_candidates
     (_backtrack_schedule requests (S index) rooms all_slots max_attempts)
     candidates st).1 = false ∧
  attempts (generation_stats
    (try_candidates
       (_backtrack_schedule requests (S index) rooms all_slots max_attempts)
       candidates st).2) = attempts (generation_stats st).
Proof.
  intros Hlen. apply lookup_lt_is_Some in Hlen as [request Hreq].
  revert st. induction candidates as [|a more IH]; intros st Hmax; [done|].
  rewrite try_candidates_cons.
  destruct (validate_assignment a (assignments st)).1; [|by apply IH].
  rewrite (_backtrack_schedule_refused _ _ _ _ _ _ (commit a st) Hreq) by done.
  cbn [fst snd]. apply (IH (undo (commit a st))). simpl. done.
Qed.

(** C6, as the code has it. The attempt counter is one counter for the whole
    recursion, zero when [generate] starts the search. A call with no
    request left returns success whatever the counter is. A call with a
    request at its index returns failure, changing nothing, once the
    counter has reached [max_attempts]; otherwise it adds one to the counter
    and passes the state on to the candidate loop, which consumes nothing
    itself and hands the counter to the recursive calls. The counter never
    goes down and never passes the larger of its value at entry and
    [max_attempts]; in a run of [generate] it stays within
    [default_max_attempts]. With the counter at [max_attempts] and a request
    left below it, the candidate loop fails. *)
Theorem attempt_budget_is_shared :
  (∀ config courses sections teachers rooms course_assignments g,
     final_state
       (generate config courses sections teachers rooms course_assignments g) =
     (_schedule_requests
        (requests_for courses sections teachers course_assignments)
        rooms (get_all_time_slots config) default_max_attempts
        (initial_state g)).2 ∧
     attempts (generation_stats (initial_state g)) = 0 ∧
     0 <= attempts (generation_stats (final_state
            (generate config courses sections teachers rooms course_assignments g)))
       <= default_max_attempts) ∧
  (∀ requests index rooms all_slots max_attempts st,
     ((length requests <= index)%nat →
      _backtrack_schedule requests index rooms all_slots max_attempts st =
        (true, st)) ∧
     (∀ request,
        requests !! index = Some request →
        (attempts (generation_stats st) >= max_attempts →
         _backtrack_schedule requests index rooms all_slots max_attempts st =
           (false, st)) ∧
        (attempts (generation_stats st) < max_attempts →
         _backtrack_schedule requests index rooms all_slots max_attempts st =
           try_candidates
             (_backtrack_schedule requests (S index) rooms all_slots max_attempts)
             (_get_possible_assignments request rooms all_slots (random_state st)).1
             (set_random_state
                (_get_possible_assignments request rooms all_slots
                   (random_state st)).2
                (count_attempt st)) ∧
         attempts (generation_stats (count_attempt st)) =
           attempts (generation_stats st) + 1)) ∧
     attempts (generation_stats st) <=
       attempts (generation_stats
         (_backtrack_schedule requests index rooms all_slots max_attempts st).2)
       <= Z.max (attempts (generation_stats st)) max_attempts) ∧
  (∀ recurse candidates st,
     (∀ s, attempts (generation_stats (recurse s).2) =
           attempts (generation_stats s)) →
     attempts (generation_stats (try_candidates recurse candidates st).2) =
       attempts (generation_stats st)) ∧
  (∀ requests index rooms all_slots max_attempts candidates st,
     (S index < length requests)%nat →
     attempts (generation_stats st) >= max_attempts →
     (try_candidates
        (_backtrack_schedule requests (S index) rooms all_slots max_attempts)
        candidates st).1 = false ∧
     attempts (generation_stats
       (try_candidates
          (_backtrack_schedule requests (S index) rooms all_slots max_attempts)
          candidates st).2) = attempts (generation_stats st)).
Proof.
  split; [|split; [|split]].
  - intros config courses sections teachers rooms course_assignments g.
    rewrite generate_unfold. cbn [final_state]. unfold search_of.
    split; [done|]. split; [done|].
    pose proof (_backtrack_schedule_sound
      (requests_for courses sections teachers course_assignments) 0 rooms
      (get_all_time_slots config) default_max_attempts) as [_ _ Hmono Hbound].
    specialize (Hmono (initial_state g)). specialize (Hbound (initial_state g)).
    unfold _schedule_requests. unfold default_max_attempts in *. simpl in *. lia.
  - intros requests index rooms all_slots max_attempts st.
    split; [apply _backtrack_schedule_done|]. split.
    + intros request Hreq. split.
      * by apply (_backtrack_schedule_refused _ _ request).
      * intros Hlt. split; [by apply _backtrack_schedule_visit | done].
    + pose proof (_backtrack_schedule_sound requests index rooms all_slots
        max_attempts) as [_ _ Hmono Hbound].
      split; [apply Hmono | apply Hbound].
  - apply try_candidates_attempts.
  - apply try_candidates_exhausted.
Qed.

Lemma attempt_budget_is_shared_witness :
  _backtrack_schedule [cs101_request; cs102_request] 2 [room101] [monday1] 1
    one_committed = (true, one_committed) ∧
  _backtrack_schedule [cs101_request; cs102_request] 1 [room101] [monday1] 1
    one_committed = (false, one_committed) ∧
  attempts (generation_stats (count_attempt one_committed)) =
    attempts (generation_stats one_committed) + 1 ∧
  attempts (generation_stats
    (try_candidates (fun s => (false, s)) [sharma_cs101_room101]
       (initial_state (constant_draws 0))).2) = 0 ∧
  (try_candidates
     (_backtrack_schedule [cs101_request; cs102_request] 1 [room101] [monday1] 1)
     [sharma_cs102_monday1] one_committed).1 = false.
Proof.
  destruct attempt_budget_is_shared as (_ & Hcall & Hloop & Hout).
  split; [|split; [|split; [|split]]].
  - exact (proj1 (Hcall [cs101_request; cs102_request] 2%nat [room101] [monday1]
                    1 one_committed) ltac:(simpl; lia)).
  - exact (proj1 (proj1 (proj2 (Hcall [cs101_request; cs102_request] 1%nat
                    [room101] [monday1] 1 one_committed)) cs102_request eq_refl)
             ltac:(simpl; lia)).
  - exact (proj2 (proj2 (proj1 (proj2 (Hcall [cs101_request; cs102_request] 1%nat
                    [room101] [monday1] 2 one_committed)) cs102_request eq_refl)
             ltac:(simpl; lia))).
  - apply (Hloop (fun s => (false, s)) [sharma_cs101_room101]
             (initial_state (constant_draws 0))). reflexivity.
  - apply (Hout [cs101_request; cs102_request] 0%nat [room101] [monday1] 1
             [sharma_cs102_monday1] one_committed); simpl; lia.
Defined.

(** C6 as stated fails: with a budget of one, the visit of the only request
    brings the counter to the budget; the call made then, with no request
    left, returns success, and so does the whole search. *)
Lemma budget_reached_and_search_succeeds :
  (_schedule_requests [cs101_request] [room101] [monday1] 1
     (initial_state (constant_draws 0))).1 = true ∧
  attempts (generation_stats
    (_schedule_requests [cs101_request] [room101] [monday1] 1
       (initial_state (constant_draws 0))).2) = 1 ∧
  attempts (generation_stats one_committed) >= 1 ∧
  (_backtrack_schedule [cs101_request] 1 [room101] [monday1] 1 one_committed).1
    = true.
Proof. vm_compute. repeat split; congruence. Qed.

(** ** Request building *)

Lemma find_by_id_snoc {V} (id : V → string) l v k :
  find_by_id id (l ++ [v]) k =
  if decide (id v = k) then Some v else find_by_id id l k.
Proof.
  unfold find_by_id. rewrite filter_app, filter_cons, filter_nil.
  destruct (decide (id v = k)); [by rewrite last_snoc | by rewrite app_nil_r].
Qed.

Lemma dict_by_id_lookup {V} (id : V → string) l k :
  dict_by_id id l !! k = find_by_id id l k.
Proof.
  unfold dict_by_id. induction l as [|v l IH] using rev_ind.
  - simpl. by rewrite lookup_empty.
  - rewrite foldl_snoc, find_by_id_snoc, lookup_insert.
    by destruct (decide (id v = k)).
Qed.

Lemma find_by_id_Some {V} (id : V → string) l k v :
  find_by_id id l k = Some v → v ∈ l ∧ id v = k.
Proof.
  unfold find_by_id. intros H. apply last_Some_elem_of in H.
  by apply list_elem_of_filter in H as [? ?].
Qed.

Lemma find_by_id_is_Some {V} (id : V → string) l k :
  is_Some (find_by_id id l k) ↔ ∃ v, v ∈ l ∧ id v = k.
Proof.
  split.
  - intros [v Hv]. exists v. by apply find_by_id_Some in Hv.
  - intros (v & Hin & Hv). unfold find_by_id.
    assert (v ∈ filter (fun v => id v = k) l) as Hf
      by (by apply list_elem_of_filter).
    destruct (filter (fun v => id v = k) l) as [|x l' _] using rev_ind.
    + by inversion Hf.
    + rewrite last_snoc. by eexists.
Qed.

Lemma range_from_zero n :
  range 0 n = Z.of_nat <$> seq 0 (Z.to_nat n).
Proof. unfold range. rewrite Z.sub_0_r. reflexivity. Qed.

(** The inner loop of [_build_scheduling_requests]. *)
Lemma expand_loop c s t requests :
  foldl (fun requests i => requests ++ [mkRequest c s t (i + 1)])
        requests (range 0 (hours_per_week c)) =
  requests ++ instances c s t.
Proof.
  unfold instances. rewrite range_from_zero.
  generalize (Z.to_nat (hours_per_week c)) as n. intros n.
  assert (∀ start requests,
    foldl (fun requests i => requests ++ [mkRequest c s t (i + 1)])
          requests (Z.of_nat <$> seq start n) =
    requests ++ ((fun i => mkRequest c s t (Z.of_nat i)) <$> seq (S start) n)) as H.
  { induction n as [|n IH]; intros start acc; simpl.
    - by rewrite app_nil_r.
    - rewrite IH, <- app_assoc. simpl. do 3 f_equal. f_equal. lia. }
  apply H.
Qed.

Lemma build_item_spec courses sections teachers acc item :
  build_item (dict_by_id course_id courses) (dict_by_id section_id sections)
             (dict_by_id teacher_id teachers) acc item =
  (acc.1 ++ requests_of courses sections teachers item,
   acc.2 ++ warning_of courses sections teachers item).
Proof.
  destruct acc as [requests out], item as [[cid sid] tid].
  unfold build_item, requests_of, warning_of. cbn [fst snd].
  rewrite !dict_by_id_lookup.
  destruct (find_by_id course_id courses cid) as [c|];
    [|by rewrite app_nil_r].
  destruct (find_by_id section_id sections sid) as [s|];
    [|by rewrite app_nil_r].
  destruct (find_by_id teacher_id teachers tid) as [t|];
    [|by rewrite app_nil_r].
  by rewrite expand_loop, app_nil_r.
Qed.

Lemma _build_scheduling_requests_spec courses sections teachers items :
  _build_scheduling_requests courses sections teachers items =
  (flat_map (requests_of courses sections teachers) items,
   flat_map (warning_of courses sections teachers) items).
Proof.
  unfold _build_scheduling_requests.
  assert (∀ acc,
    foldl (build_item (dict_by_id course_id courses)
             (dict_by_id section_id sections) (dict_by_id teacher_id teachers))
          acc items =
    (acc.1 ++ flat_map (requests_of courses sections teachers) items,
     acc.2 ++ flat_map (warning_of courses sections teachers) items)) as H.
  { induction items as [|item items IH]; intros acc; simpl.
    - rewrite !app_nil_r. by destruct acc.
    - rewrite IH, build_item_spec. cbn [fst snd]. by rewrite <- !app_assoc. }
  by rewrite H.
Qed.

Lemma requests_of_resolved courses sections teachers item :
  resolves courses sections teachers item →
  ∃ c s t,
    c ∈ courses ∧ course_id c = item.1.1 ∧
    s ∈ sections ∧ section_id s = item.1.2 ∧
    t ∈ teachers ∧ teacher_id t = item.2 ∧
    requests_of courses sections teachers item = instances c s t ∧
    warning_of courses sections teachers item = [].
Proof.
  intros (Hc & Hs & Ht).
  apply find_by_id_is_Some in Hc as [c Hc].
  apply find_by_id_is_Some in Hs as [s Hs].
  apply find_by_id_is_Some in Ht as [t Ht].
  exists c, s, t. unfold requests_of, warning_of. rewrite Hc, Hs, Ht.
  apply find_by_id_Some in Hc as [? ?].
  apply find_by_id_Some in Hs as [? ?].
  apply find_by_id_Some in Ht as [? ?]. done.
Qed.

Lemma requests_of_unresolved courses sections teachers item :
  ¬ resolves courses sections teachers item →
  requests_of courses sections teachers item = [] ∧
  ∃ w, warning_of courses sections teachers item = [w].
Proof.
  intros Hno. unfold requests_of, warning_of.
  destruct (find_by_id course_id courses item.1.1) as [c|] eqn:Hc;
    [|split; [done | by eexists]].
  destruct (find_by_id section_id sections item.1.2) as [s|] eqn:Hs;
    [|split; [done | by eexists]].
  destruct (find_by_id teacher_id teachers item.2) as [t|] eqn:Ht;
    [|split; [done | by eexists]].
  exfalso. apply Hno. unfold resolves.
  rewrite <- !find_by_id_is_Some, Hc, Hs, Ht. by repeat split.
Qed.

Lemma instances_length c s t :
  length (instances c s t) = Z.to_nat (hours_per_week c).
Proof. unfold instances. by rewrite length_fmap, length_seq. Qed.

(** C5. Request building goes through all mapping items in order. An item
    whose three ids resolve contributes the requests for its (course,
    section, teacher) with the instance indices 1, ..., hours_per_week, that
    is hours_per_week requests, and no warning. An item with an id that
    does not resolve contributes no request and one warning; the items
    after it are still processed. *)
Theorem build_requests_expands_resolved_items courses sections teachers items :
  _build_scheduling_requests courses sections teachers items =
    (flat_map (requests_of courses sections teachers) items,
     flat_map (warning_of courses sections teachers) items) ∧
  ∀ item,
    (resolves courses sections teachers item →
     ∃ c s t,
       c ∈ courses ∧ course_id c = item.1.1 ∧
       s ∈ sections ∧ section_id s = item.1.2 ∧
       t ∈ teachers ∧ teacher_id t = item.2 ∧
       requests_of courses sections teachers item =
         (fun i => mkRequest c s t (Z.of_nat i)) <$>
           seq 1 (Z.to_nat (hours_per_week c)) ∧
       (0 <= hours_per_week c →
        Z.of_nat (length (requests_of courses sections teachers item)) =
          hours_per_week c) ∧
       warning_of courses sections teachers item = []) ∧
    (¬ resolves courses sections teachers item →
     requests_of courses sections teachers item = [] ∧
     ∃ w, warning_of courses sections teachers item = [w]).
Proof.
  split; [apply _build_scheduling_requests_spec|].
  intros item. split; [|apply requests_of_unresolved].
  intros Hres.
  destruct (requests_of_resolved _ _ _ _ Hres)
    as (c & s & t & ? & ? & ? & ? & ? & ? & Hreq & Hwarn).
  exists c, s, t. repeat split; try done.
  rewrite Hreq, instances_length. lia.
Qed.

Lemma build_requests_expands_resolved_items_witness :
  (∃ c s t,
     c ∈ [cs101; cs104] ∧ course_id c = "CS104" ∧
     s ∈ [cs_a; cs_b] ∧ section_id s = "S001" ∧
     t ∈ [sharma; patel] ∧ teacher_id t = "T001" ∧
     requests_of [cs101; cs104] [cs_a; cs_b] [sharma; patel]
       (("CS104", "S001"), "T001") =
       (fun i => mkRequest c s t (Z.of_nat i)) <$>
         seq 1 (Z.to_nat (hours_per_week c)) ∧
     (0 <= hours_per_week c →
      Z.of_nat (length (requests_of [cs101; cs104] [cs_a; cs_b] [sharma; patel]
                          (("CS104", "S001"), "T001"))) = hours_per_week c) ∧
     warning_of [cs101; cs104] [cs_a; cs_b] [sharma; patel]
       (("CS104", "S001"), "T001") = []) ∧
  (requests_of [cs101; cs104] [cs_a; cs_b] [sharma; patel]
     (("XX999", "S001"), "T001") = [] ∧
   ∃ w, warning_of [cs101; cs104] [cs_a; cs_b] [sharma; patel]
          (("XX999", "S001"), "T001") = [w]).
Proof.
  destruct (build_requests_expands_resolved_items [cs101; cs104] [cs_a; cs_b]
              [sharma; patel] mapping_with_unknown_course) as [_ Hitem].
  split.
  - apply (proj1 (Hitem (("CS104", "S001"), "T001"))).
    unfold resolves. simpl. repeat split.
    + exists cs104. split; [right; left | reflexivity].
    + exists cs_a. split; [left | reflexivity].
    + exists sharma. split; [left | reflexivity].
  - apply (proj2 (Hitem (("XX999", "S001"), "T001"))).
    unfold resolves. simpl. intros [[c [Hin Hid]] _].
    apply list_elem_of_In in Hin. simpl in Hin.
    destruct Hin as [<-|[<-|[]]]; discriminate.
Defined.

Example build_with_unknown_course :
  _build_scheduling_requests [cs101; cs104] [cs_a; cs_b] [sharma; patel]
    mapping_with_unknown_course =
  ([mkRequest cs104 cs_a sharma 1; mkRequest cs104 cs_a sharma 2;
    mkRequest cs101 cs_b patel 1],
   ["Warning: Course XX999 not found"]).
Proof. vm_compute. reflexivity. Qed.

(** ** Exhaustion *)

Lemma built_request_section courses sections teachers items req :
  req ∈ (_build_scheduling_requests courses sections teachers items).1 →
  req_section req ∈ sections.
Proof.
  rewrite _build_scheduling_requests_spec. cbn [fst].
  rewrite list_elem_of_In, in_flat_map. intros (item & _ & Hreq).
  unfold requests_of in Hreq.
  destruct (find_by_id course_id courses item.1.1) as [c|]; [|done].
  destruct (find_by_id section_id sections item.1.2) as [s|] eqn:Hs; [|done].
  destruct (find_by_id teacher_id teachers item.2) as [t|]; [|done].
  apply find_by_id_Some in Hs as [Hs _].
  apply list_elem_of_In, list_elem_of_fmap in Hreq as (i & -> & _). done.
Qed.

Lemma no_room_no_candidate request rooms all_slots g :
  (∀ r, r ∈ rooms → capacity r < student_count (req_section request)) →
  (_get_possible_assignments request rooms all_slots g).1 = [].
Proof.
  intros Hsmall. apply Permutation_nil_r.
  rewrite _get_possible_assignments_Permutation.
  assert (filter (room_suitable (req_course request) (req_section request)) rooms
          = []) as ->; [|done].
  apply no_msgs_iff. intros r [[Hfit _] Hin]%list_elem_of_filter.
  specialize (Hsmall r Hin). lia.
Qed.

(** C7. When there is at least one scheduling request and every room is
    smaller than every section, [generate] returns [None], nothing is
    committed, and the attempt counter is exactly 1: the first request is
    visited and has no candidate. *)
Theorem no_usable_room_fails_after_one_attempt
    config courses sections teachers rooms course_assignments g :
  (_build_scheduling_requests courses sections teachers course_assignments).1 ≠ [] →
  (∀ r s, r ∈ rooms → s ∈ sections → capacity r < student_count s) →
  returned (generate config courses sections teachers rooms course_assignments g)
    = None ∧
  assignments (final_state
    (generate config courses sections teachers rooms course_assignments g)) = [] ∧
  attempts (generation_stats (final_state
    (generate config courses sections teachers rooms course_assignments g))) = 1.
Proof.
  intros Hreqs Hsmall. rewrite generate_unfold. cbn [returned final_state].
  unfold search_of, _schedule_requests, _backtrack_schedule, requests_for.
  rewrite drop_0.
  pose proof (sorted_by_Permutation priority_key priority_ltb
    (_build_scheduling_requests courses sections teachers course_assignments).1)
    as Hperm.
  fold (_prioritize_requests
    (_build_scheduling_requests courses sections teachers course_assignments).1)
    in Hperm.
  destruct (_prioritize_requests _) as [|request rest].
  { apply Permutation_nil_l in Hperm. by rewrite <- Hperm in Hreqs. }
  assert (req_section request ∈ sections) as Hsec.
  { apply (built_request_section courses sections teachers course_assignments).
    rewrite <- Hperm. left. }
  cbn [backtrack_pending]. unfold default_max_attempts.
  rewrite bool_decide_eq_false_2 by (simpl; lia).
  pose proof (no_room_no_candidate request rooms (get_all_time_slots config) g
                (fun r Hr => Hsmall r _ Hr Hsec)) as Hnone.
  cbn [count_attempt random_state initial_state].
  destruct (_get_possible_assignments _ _ _ _) as [cands g'].
  cbn [fst] in Hnone. subst cands. simpl. done.
Qed.

Lemma no_usable_room_fails_after_one_attempt_witness :
  returned (generate default_config [cs101; cs104] [cs_a; cs_b] [sharma; patel]
              [room105] mapping_with_unknown_course (constant_draws 3)) = None ∧
  assignments (final_state
    (generate default_config [cs101; cs104] [cs_a; cs_b] [sharma; patel]
       [room105] mapping_with_unknown_course (constant_draws 3))) = [] ∧
  attempts (generation_stats (final_state
    (generate default_config [cs101; cs104] [cs_a; cs_b] [sharma; patel]
       [room105] mapping_with_unknown_course (constant_draws 3)))) = 1.
Proof.
  apply no_usable_room_fails_after_one_attempt.
  - vm_compute. discriminate.
  - intros r s Hr Hs.
    apply list_elem_of_In in Hr, Hs. simpl in Hr, Hs.
    destruct Hr as [<-|[]]. destruct Hs as [<-|[<-|[]]]; simpl; lia.
Defined.

(** ** Seeding *)

(** With a seed other than zero, the state the process starts with plays no
    part: two runs on the same inputs give the same result. *)
Lemma nonzero_seed_fixes_the_run
    seeded s ambient1 ambient2 config courses sections teachers rooms
    course_assignments :
  s ≠ 0 →
  main_generate seeded (Some s) ambient1 config courses sections teachers rooms
    course_assignments =
  main_generate seeded (Some s) ambient2 config courses sections teachers rooms
    course_assignments.
Proof.
  intros Hs. unfold main_generate, seed_random.
  by rewrite bool_decide_eq_true_2.
Qed.

(** Without a seed the results of two runs can differ ... *)
Lemma unseeded_runs_can_differ seeded :
  returned (main_generate seeded None (constant_draws 0) two_slot_config
              [cs101] [cs_a] [sharma] [room101] one_course_one_section) ≠
  returned (main_generate seeded None (constant_draws 1) two_slot_config
              [cs101] [cs_a] [sharma] [room101] one_course_one_section).
Proof. vm_compute. discriminate. Qed.

(** ... and need not: with a single candidate there is nothing to shuffle. *)
Lemma unseeded_runs_can_agree seeded ambient1 ambient2 :
  returned (main_generate seeded None ambient1 one_slot_config
              [cs101] [cs_a] [sharma] [room101] one_course_one_section) =
  returned (main_generate seeded None ambient2 one_slot_config
              [cs101] [cs_a] [sharma] [room101] one_course_one_section).
Proof. vm_compute. reflexivity. Qed.

(** C9 at the seed 0. [if args.seed:] takes the seed 0 for no seed:
    [random.seed] is not called, the shuffle draws from the state the
    process started with, and two runs with [--seed 0] on the same inputs
    return different assignment lists (Monday period 2 in one, Monday
    period 1 in the other). *)
Theorem seed_zero_does_not_fix_the_run seeded :
  seed_random seeded (Some 0) (constant_draws 0) = constant_draws 0 ∧
  seed_random seeded (Some 0) (constant_draws 1) = constant_draws 1 ∧
  returned (main_generate seeded (Some 0) (constant_draws 0) two_slot_config
              [cs101] [cs_a] [sharma] [room101] one_course_one_section) =
    Some [mkClassAssignment cs101 cs_a sharma room101 monday2] ∧
  returned (main_generate seeded (Some 0) (constant_draws 1) two_slot_config
              [cs101] [cs_a] [sharma] [room101] one_course_one_section) =
    Some [mkClassAssignment cs101 cs_a sharma room101 monday1].
Proof. repeat split; vm_compute; reflexivity. Qed.

(** * Further properties of the code *)

(** ** The validator decides the hard invariants of the extended list *)

Lemma validate_assignment_accepts a l :
  (validate_assignment a l).1 = true ↔
  (∀ e, e ∈ l → ¬ share_teacher_slot e a) ∧
  (∀ e, e ∈ l → ¬ share_room_slot e a) ∧
  (∀ e, e ∈ l → ¬ share_section_slot e a) ∧
  fits_room a ∧ teacher_free a ∧ lab_in_lab a.
Proof.
  split; [apply accepted_candidate|].
  intros (Ht & Hr & Hs & Hc & Ha & Hy).
  apply validate_assignment_ok, no_msgs_iff. intros x.
  rewrite validate_assignment_conflicts, !elem_of_app,
    elem_of_teacher_msgs, elem_of_room_msgs, elem_of_section_msgs,
    elem_of_capacity_msgs, elem_of_availability_msgs, elem_of_room_type_msgs.
  unfold fits_room, teacher_free, lab_in_lab in *.
  intros [(_ & e & Hin & Hsh)|[(_ & e & Hin & Hsh)|[(_ & e & Hin & Hsh)|
          [[_ Hsmall]|[[_ Hbusy]|(_ & Hlab & Hno)]]]]].
  - by apply (Ht e).
  - by apply (Hr e).
  - by apply (Hs e).
  - lia.
  - congruence.
  - tauto.
Qed.

Lemma pairwise_not_snoc_inv R l a :
  pairwise_not R (l ++ [a]) →
  pairwise_not R l ∧ ∀ e, e ∈ l → ¬ R e a.
Proof.
  intros H. split.
  - intros i j x y Hij Hi Hj. apply (H i j); [done|..];
      by apply lookup_app_l_Some.
  - intros e [i Hi]%list_elem_of_lookup.
    apply (H i (length l)).
    + apply lookup_lt_Some in Hi. lia.
    + by apply lookup_app_l_Some.
    + by rewrite list_lookup_middle.
Qed.

Lemma hard_invariants_accepted l : hard_invariants l → accepted_list l.
Proof.
  induction l as [|a l IH] using rev_ind; [intros _; apply accepted_nil|].
  intros (Ht & Hr & Hs & Hc & Ha & Hy).
  apply pairwise_not_snoc_inv in Ht as [Ht Ht'].
  apply pairwise_not_snoc_inv in Hr as [Hr Hr'].
  apply pairwise_not_snoc_inv in Hs as [Hs Hs'].
  apply Forall_app in Hc as [Hc Hc']. apply Forall_app in Ha as [Ha Ha'].
  apply Forall_app in Hy as [Hy Hy'].
  apply accepted_snoc.
  - apply IH. by repeat split.
  - apply validate_assignment_accepts.
    repeat split; try done; by eapply Forall_inv.
Qed.

Lemma no_conflicts_accepted l :
  count_conflicts (find_all_conflicts l) = 0 → accepted_list l.
Proof.
  induction l as [|a l IH] using rev_ind; [intros _; apply accepted_nil|].
  rewrite find_all_conflicts_report, report_of_app, count_conflicts_app, app_nil_l.
  intros Hsum.
  pose proof (count_conflicts_nonneg (report_of [] l)).
  pose proof (count_conflicts_nonneg (report_of l [a])).
  apply accepted_snoc.
  - apply IH. rewrite find_all_conflicts_report. lia.
  - apply validate_iff_no_report. lia.
Qed.

(** X1. The conflict detector is an exact audit of the hard invariants: it
    counts no conflict in a list exactly when the list satisfies the six
    of them. *)
Theorem audit_decides_hard_invariants l :
  count_conflicts (find_all_conflicts l) = 0 ↔ hard_invariants l.
Proof.
  split.
  - intros H. by apply accepted_list_invariants, no_conflicts_accepted.
  - intros H. by apply accepted_list_no_conflicts, hard_invariants_accepted.
Qed.

(** ** Counting double bookings *)

Lemma occupant_bookings who seen b :
  is_Some (occupant who seen b) ↔ b ∈ bookings who seen.
Proof.
  rewrite occupant_is_Some. unfold bookings.
  rewrite elem_of_list_to_set, list_elem_of_fmap. split.
  - intros (e & Hin & He). by exists e.
  - intros (e & He & Hin). by exists e.
Qed.

Lemma bookings_snoc who seen a :
  bookings who (seen ++ [a]) = bookings who seen ∪ {[ booking who a ]}.
Proof.
  unfold bookings. rewrite fmap_app, list_to_set_app_L. simpl.
  by rewrite union_empty_r_L.
Qed.

Lemma double_bookings_count who seen l :
  (length (double_bookings who seen l) + size (bookings who (seen ++ l)) =
   length l + size (bookings who seen))%nat.
Proof.
  revert seen. induction l as [|a l IH]; intros seen.
  - rewrite app_nil_r. simpl. lia.
  - cbn [double_bookings]. rewrite length_app.
    specialize (IH (seen ++ [a])). rewrite <- app_assoc in IH. simpl in IH.
    rewrite bookings_snoc in IH.
    destruct (occupant who seen (booking who a)) as [o|] eqn:Ho.
    + assert (booking who a ∈ bookings who seen) as Hin
        by (apply occupant_bookings; by rewrite Ho).
      rewrite (comm_L (∪)), subseteq_union_1_L in IH
        by (by apply singleton_subseteq_l).
      simpl. lia.
    + assert (booking who a ∉ bookings who seen) as Hin.
      { rewrite <- occupant_bookings, Ho. by intros [? ?]. }
      rewrite size_union, size_singleton in IH
        by (by apply disjoint_singleton_r).
      simpl. lia.
Qed.

Lemma double_bookings_total who l :
  length (double_bookings who [] l) =
  (length l - size (bookings who l))%nat.
Proof.
  pose proof (double_bookings_count who [] l) as H.
  rewrite app_nil_l in H.
  change (bookings who []) with (∅ : gset (string * (string * Z))) in H.
  rewrite size_empty in H. lia.
Qed.

Lemma bookings_Permutation who l l' :
  l ≡ₚ l' → bookings who l = bookings who l'.
Proof.
  intros Hp. unfold bookings. apply set_eq. intros b.
  rewrite !elem_of_list_to_set. by rewrite Hp.
Qed.

(** X2. In each double-booking category the detector reports as many
    conflicts as there are assignments beyond the distinct (resource, time
    slot) pairs they occupy. The total it counts therefore does not depend
    on the order of the assignments. *)
Theorem conflict_count_ignores_order :
  (∀ l,
     length (teacher_conflicts (find_all_conflicts l)) =
       (length l - size (bookings teacher_of l))%nat ∧
     length (room_conflicts (find_all_conflicts l)) =
       (length l - size (bookings room_of l))%nat ∧
     length (section_conflicts (find_all_conflicts l)) =
       (length l - size (bookings section_of l))%nat) ∧
  (∀ l l',
     l ≡ₚ l' →
     count_conflicts (find_all_conflicts l) =
     count_conflicts (find_all_conflicts l')).
Proof.
  split.
  - intros l. rewrite find_all_conflicts_report. simpl.
    by rewrite !length_fmap, !double_bookings_total.
  - intros l l' Hp. rewrite !find_all_conflicts_report.
    unfold count_conflicts, report_of. simpl.
    rewrite !length_fmap, !double_bookings_total.
    rewrite !(bookings_Permutation _ l l' Hp).
    by rewrite !Hp.
Qed.

Lemma conflict_count_ignores_order_witness :
  count_conflicts (find_all_conflicts crowded_monday) =
  count_conflicts (find_all_conflicts (reverse crowded_monday)).
Proof.
  apply (proj2 conflict_count_ignores_order).
  symmetry. apply reverse_Permutation.
Defined.

(** ** What the search finds, and what its failure means *)

Lemma candidate_for_elem_of request rooms all_slots g a :
  a ∈ (_get_possible_assignments request rooms all_slots g).1 ↔
  candidate_for rooms all_slots request a.
Proof.
  rewrite _get_possible_assignments_Permutation, elem_of_cross_product.
  unfold available_slots_of, candidate_for.
  rewrite !list_elem_of_filter. tauto.
Qed.

Lemma accepted_list_app_inv l new :
  accepted_list (l ++ new) → accepted_list l.
Proof.
  induction new as [|a new IH] using rev_ind; [by rewrite app_nil_r|].
  rewrite app_assoc. intros H. inversion H as [Hnil|l0 a0 Hl Hok Heq].
  - by destruct (l ++ new).
  - apply app_inj_tail in Heq as [-> ->]. by apply IH.
Qed.

Lemma accepted_list_snoc_inv l a :
  accepted_list (l ++ [a]) →
  accepted_list l ∧ (validate_assignment a l).1 = true.
Proof.
  intros H. inversion H as [Hnil|l0 a0 Hl Hok Heq].
  - by destruct l.
  - by apply app_inj_tail in Heq as [-> ->].
Qed.

(** When the candidate loop fails, every candidate the validator accepts
    was committed and the recursive call on it failed. *)
Lemma try_candidates_failure max_attempts recurse candidates st a :
  search_sound max_attempts recurse →
  (try_candidates recurse candidates st).1 = false →
  a ∈ candidates →
  (validate_assignment a (assignments st)).1 = true →
  ∃ st',
    assignments st' = assignments st ∧
    (recurse (commit a st')).1 = false ∧
    attempts (generation_stats (recurse (commit a st')).2) <=
      attempts (generation_stats (try_candidates recurse candidates st).2).
Proof.
  intros Hsound.
  pose proof (fun cs => sound_attempts_mono _ _
                (try_candidates_sound max_attempts recurse cs Hsound)) as Hmono.
  revert st. induction candidates as [|c more IH]; intros st Hfail Hin Hok.
  { by apply elem_of_nil in Hin. }
  rewrite try_candidates_cons in Hfail |- *.
  destruct (validate_assignment c (assignments st)).1 eqn:Hc.
  - destruct (recurse (commit c st)).1 eqn:Hrec; [done|].
    destruct (failed_call_keeps_commit max_attempts recurse c st Hsound Hrec)
      as [_ Hundo].
    apply elem_of_cons in Hin as [->|Hin].
    + exists st. split; [done|]. split; [done|].
      etrans; [|apply Hmono]. done.
    + destruct (IH (undo (recurse (commit c st)).2)) as (st' & Hst' & ? & ?);
        [done | done | by rewrite Hundo |].
      exists st'. split; [congruence | done].
  - apply elem_of_cons in Hin as [->|Hin]; [congruence|].
    by apply IH.
Qed.

Lemma backtrack_pending_exhaustive pending rooms all_slots max_attempts st new :
  (backtrack_pending pending rooms all_slots max_attempts st).1 = false →
  attempts (generation_stats
    (backtrack_pending pending rooms all_slots max_attempts st).2) < max_attempts →
  Forall2 (candidate_for rooms all_slots) pending new →
  accepted_list (assignments st ++ new) →
  False.
Proof.
  revert st new. induction pending as [|request rest IH];
    intros st new Hfail Hbudget Hnew Hacc; [done|].
  apply Forall2_cons_inv_l in Hnew as (a & new' & Ha & Hnew' & ->).
  rewrite cons_middle, app_assoc in Hacc.
  pose proof (accepted_list_app_inv _ _ Hacc) as Hok.
  apply accepted_list_snoc_inv in Hok as [_ Hok].
  cbn [backtrack_pending] in Hfail, Hbudget.
  case_bool_decide as Hmax; [simpl in Hbudget; lia|].
  destruct (_get_possible_assignments request rooms all_slots
              (random_state (count_attempt st))) as [cs g] eqn:Hcs.
  assert (a ∈ cs) as Hin.
  { apply (candidate_for_elem_of request rooms all_slots
             (random_state (count_attempt st))) in Ha. by rewrite Hcs in Ha. }
  destruct (try_candidates_failure max_attempts _ cs
              (set_random_state g (count_attempt st)) a
              (backtrack_pending_sound rest rooms all_slots max_attempts)
              Hfail Hin Hok) as (st' & Hst' & Hrec & Hle).
  apply (IH (commit a st') new'); [done | lia | done |].
  simpl. by rewrite Hst'.
Qed.

(** When the candidate loop succeeds, one candidate stays committed and the
    recursive call on it succeeded. *)
Lemma try_candidates_success max_attempts recurse candidates st :
  search_sound max_attempts recurse →
  (try_candidates recurse candidates st).1 = true →
  ∃ a st',
    a ∈ candidates ∧ assignments st' = assignments st ∧
    (recurse (commit a st')).1 = true ∧
    try_candidates recurse candidates st = (true, (recurse (commit a st')).2).
Proof.
  intros Hsound. revert st.
  induction candidates as [|c more IH]; intros st Hsucc; [done|].
  rewrite try_candidates_cons in Hsucc |- *.
  destruct (validate_assignment c (assignments st)).1 eqn:Hc.
  - destruct (recurse (commit c st)).1 eqn:Hrec.
    + exists c, st. split; [left|]. by rewrite Hrec.
    + destruct (failed_call_keeps_commit max_attempts recurse c st Hsound Hrec)
        as [_ Hundo].
      destruct (IH _ Hsucc) as (a & st' & ? & Hst' & ? & ?).
      exists a, st'. split; [by right|]. split; [congruence | done].
  - destruct (IH _ Hsucc) as (a & st' & ? & ? & ? & ?).
    exists a, st'. split; [by right | done].
Qed.

Lemma backtrack_pending_covers pending rooms all_slots max_attempts st :
  (backtrack_pending pending rooms all_slots max_attempts st).1 = true →
  ∃ new,
    assignments (backtrack_pending pending rooms all_slots max_attempts st).2 =
      assignments st ++ new ∧
    Forall2 (candidate_for rooms all_slots) pending new.
Proof.
  revert st. induction pending as [|request rest IH]; intros st Hsucc.
  { exists []. simpl. by rewrite app_nil_r. }
  cbn [backtrack_pending] in Hsucc |- *.
  case_bool_decide as Hmax; [done|].
  destruct (_get_possible_assignments request rooms all_slots
              (random_state (count_attempt st))) as [cs g] eqn:Hcs.
  destruct (try_candidates_success max_attempts _ cs _
              (backtrack_pending_sound rest rooms all_slots max_attempts) Hsucc)
    as (a & st' & Hin & Hst' & Hrec & ->).
  destruct (IH _ Hrec) as (new & Hnew & Hall).
  exists (a :: new). cbn [snd]. split.
  - rewrite Hnew. simpl. rewrite Hst'. simpl. by rewrite <- app_assoc.
  - constructor; [|done].
    apply (candidate_for_elem_of request rooms all_slots
             (random_state (count_attempt st))). by rewrite Hcs.
Qed.

(** A returned list has one assignment for each request. *)
Lemma generate_returned_length
    config courses sections teachers rooms course_assignments g l :
  returned (generate config courses sections teachers rooms course_assignments g)
    = Some l →
  length l =
    length (requests_for courses sections teachers course_assignments).
Proof.
  rewrite generate_unfold. cbn [returned].
  unfold search_of, _schedule_requests, _backtrack_schedule.
  rewrite drop_0.
  pose proof (backtrack_pending_covers
    (requests_for courses sections teachers course_assignments) rooms
    (get_all_time_slots config) default_max_attempts (initial_state g)) as Hcov.
  destruct (backtrack_pending _ _ _ _ _) as [[] st] eqn:E; [|done].
  intros [= <-].
  destruct (Hcov eq_refl) as (new & Hnew & Hall).
  simpl in Hnew. subst new.
  symmetry. by eapply Forall2_length.
Qed.

(** X3. The list [generate] returns schedules every request: it has one
    assignment for each request, in the order of the prioritized requests,
    each for the request's own course, section and teacher, in a room of
    [rooms] that passes the room filter and at a slot of the slot universe
    at which the teacher is available; and the list satisfies the hard
    invariants. *)
Theorem generate_schedules_every_request
    config courses sections teachers rooms course_assignments g l :
  returned (generate config courses sections teachers rooms course_assignments g)
    = Some l →
  schedules rooms (get_all_time_slots config) []
    (requests_for courses sections teachers course_assignments) l ∧
  length l =
    length (requests_for courses sections teachers course_assignments).
Proof.
  rewrite generate_unfold. cbn [returned].
  pose proof (search_of_accepted config courses sections teachers rooms
                course_assignments g) as Hacc.
  unfold search_of, _schedule_requests, _backtrack_schedule in *.
  rewrite drop_0 in *.
  destruct (backtrack_pending _ _ _ _ _) as [[] st] eqn:E; [|done].
  intros [= <-].
  pose proof (backtrack_pending_covers
    (requests_for courses sections teachers course_assignments) rooms
    (get_all_time_slots config) default_max_attempts (initial_state g)) as Hcov.
  rewrite E in Hcov. destruct (Hcov eq_refl) as (new & Hnew & Hall).
  simpl in Hnew. subst new.
  split; [split; [done | by apply accepted_list_invariants]|].
  symmetry. by eapply Forall2_length.
Qed.

Lemma generate_schedules_every_request_witness :
  schedules [room101; lab201; room105] (get_all_time_slots default_config) []
    (requests_for [cs101; cs104] [cs_a; cs_b] [sharma; patel]
       mapping_with_unknown_course)
    [mkClassAssignment cs104 cs_a sharma lab201 (mkTimeSlot "Tuesday" 1 "09:00" "10:00");
     mkClassAssignment cs104 cs_a sharma lab201 (mkTimeSlot "Monday" 5 "14:00" "15:00");
     mkClassAssignment cs101 cs_b patel room101 (mkTimeSlot "Tuesday" 1 "09:00" "10:00")] ∧
  length
    [mkClassAssignment cs104 cs_a sharma lab201 (mkTimeSlot "Tuesday" 1 "09:00" "10:00");
     mkClassAssignment cs104 cs_a sharma lab201 (mkTimeSlot "Monday" 5 "14:00" "15:00");
     mkClassAssignment cs101 cs_b patel room101 (mkTimeSlot "Tuesday" 1 "09:00" "10:00")] =
  length (requests_for [cs101; cs104] [cs_a; cs_b] [sharma; patel]
            mapping_with_unknown_course).
Proof.
  apply (generate_schedules_every_request default_config
           [cs101; cs104] [cs_a; cs_b] [sharma; patel] [room101; lab201; room105]
           mapping_with_unknown_course (constant_draws 7)).
  vm_compute. reflexivity.
Defined.

(** X4. The search is exhaustive. When [generate] fails with the attempt
    counter below the budget, no list schedules the requests: there is no
    way to give every request a candidate of its own such that the hard
    invariants hold. *)
Theorem failure_below_budget_means_infeasible
    config courses sections teachers rooms course_assignments g :
  returned (generate config courses sections teachers rooms course_assignments g)
    = None →
  attempts (generation_stats (final_state
    (generate config courses sections teachers rooms course_assignments g)))
    < default_max_attempts →
  ¬ ∃ l, schedules rooms (get_all_time_slots config) []
           (requests_for courses sections teachers course_assignments) l.
Proof.
  rewrite generate_unfold. cbn [returned final_state].
  unfold search_of, _schedule_requests, _backtrack_schedule. rewrite drop_0.
  intros Hnone Hbudget (l & Hall & Hinv).
  apply (backtrack_pending_exhaustive
           (requests_for courses sections teachers course_assignments) rooms
           (get_all_time_slots config) default_max_attempts (initial_state g) l);
    [|done|done|].
  - by destruct (backtrack_pending _ _ _ _ _).1.
  - simpl. by apply hard_invariants_accepted.
Qed.

Lemma failure_below_budget_means_infeasible_witness :
  ¬ ∃ l, schedules [room101] (get_all_time_slots one_slot_config) []
           (requests_for [cs101; cs102] [cs_a] [sharma; patel]
              two_courses_one_section) l.
Proof.
  apply (failure_below_budget_means_infeasible one_slot_config
           [cs101; cs102] [cs_a] [sharma; patel] [room101]
           two_courses_one_section (constant_draws 0)).
  - vm_compute. reflexivity.
  - vm_compute. reflexivity.
Defined.

(** ** Attempts and backtracks *)

(** With the budget used up and recursive calls that refuse, the candidate
    loop fails and leaves the attempt counter alone. *)
Lemma try_candidates_refused max_attempts recurse candidates st :
  (∀ s, attempts_of s >= max_attempts → recurse s = (false, s)) →
  attempts_of st >= max_attempts →
  (try_candidates recurse candidates st).1 = false ∧
  attempts_of (try_candidates recurse candidates st).2 = attempts_of st.
Proof.
  intros Hrefuse. revert st.
  induction candidates as [|c more IH]; intros st Hmax; [done|].
  rewrite try_candidates_cons.
  destruct (validate_assignment c (assignments st)).1; [|by apply IH].
  rewrite (Hrefuse (commit c st)) by done. cbn [fst snd].
  apply (IH (undo (commit c st))). done.
Qed.

Lemma try_candidates_stats n max_attempts recurse candidates :
  stats_sound n max_attempts recurse →
  (n = 0%nat → ∀ s, (recurse s).1 = true) →
  (n ≠ 0%nat → ∀ s, attempts_of s >= max_attempts → recurse s = (false, s)) →
  loop_stats_sound n max_attempts (try_candidates recurse candidates).
Proof.
  intros [Hsucc Hfail Hmono Hres] Hzero Hrefuse.
  induction candidates as [|c more [IHsucc IHfail IHmono IHres]].
  { split; intros st; simpl; try done; try lia. }
  assert (∀ st, (recurse (commit c st)).1 = false →
            attempts_of (recurse (commit c st)).2 >= max_attempts →
            (try_candidates recurse more (undo (recurse (commit c st)).2)).1 = false ∧
            attempts_of (try_candidates recurse more
                           (undo (recurse (commit c st)).2)).2 >= max_attempts)
    as Hspent.
  { intros st Hrec Hmax.
    assert (n ≠ 0%nat) as Hn.
    { intros ->. by rewrite (Hzero eq_refl) in Hrec. }
    destruct (try_candidates_refused max_attempts recurse more
                (undo (recurse (commit c st)).2) (Hrefuse Hn)) as [? Heq];
      [done|].
    split; [done|]. rewrite Heq. done. }
  split; intros st; rewrite try_candidates_cons;
    destruct (validate_assignment c (assignments st)).1; auto;
    destruct (recurse (commit c st)).1 eqn:Hrec; cbn [fst snd].
  - intros _. apply (Hsucc (commit c st) Hrec).
  - intros Hloop.
    destruct (Hfail (commit c st) Hrec) as [Hmax|Hone].
    + destruct (Hspent st Hrec Hmax) as [Hno _]. congruence.
    + specialize (IHsucc _ Hloop).
      unfold attempts_of, backtracks_of in *. simpl in *. lia.
  - done.
  - intros Hloop.
    destruct (Hfail (commit c st) Hrec) as [Hmax|Hone].
    + left. by apply (Hspent st Hrec Hmax).
    + destruct (IHfail _ Hloop) as [?|Hrest]; [by left | right].
      unfold attempts_of, backtracks_of in *. simpl in *. lia.
  - apply (Hmono (commit c st)).
  - specialize (Hmono (commit c st)).
    specialize (IHmono (undo (recurse (commit c st)).2)).
    unfold backtracks_of in *. simpl in *. lia.
  - apply (Hres (commit c st)).
  - rewrite IHres. simpl. apply (Hres (commit c st)).
Qed.

Lemma backtrack_pending_stats pending rooms all_slots max_attempts :
  stats_sound (length pending) max_attempts
    (backtrack_pending pending rooms all_slots max_attempts).
Proof.
  induction pending as [|request rest IH].
  { split; intros st; simpl; try done; lia. }
  assert (∀ cs, loop_stats_sound (length rest) max_attempts
            (try_candidates
               (backtrack_pending rest rooms all_slots max_attempts) cs))
    as Hloop.
  { intros cs. apply try_candidates_stats; [done|..].
    - intros Hlen s. by destruct rest.
    - intros Hlen s Hmax. destruct rest as [|r rest']; [done|].
      simpl. by rewrite bool_decide_eq_true_2. }
  assert (∀ st,
    backtrack_pending (request :: rest) rooms all_slots max_attempts st =
    if bool_decide (attempts (generation_stats st) >= max_attempts)
    then (false, st)
    else try_candidates
           (backtrack_pending rest rooms all_slots max_attempts)
           (_get_possible_assignments request rooms all_slots
              (random_state (count_attempt st))).1
           (set_random_state
              (_get_possible_assignments request rooms all_slots
                 (random_state (count_attempt st))).2
              (count_attempt st))) as Hstep.
  { intros st. cbn [backtrack_pending].
    by destruct (_get_possible_assignments _ _ _ _). }
  split; intros st; rewrite Hstep; case_bool_decide as Hmax; cbn [fst snd];
    try done;
    destruct (Hloop (_get_possible_assignments request rooms all_slots
                       (random_state (count_attempt st))).1)
      as [Lsucc Lfail Lmono Lres];
    set (st1 := set_random_state
                  (_get_possible_assignments request rooms all_slots
                     (random_state (count_attempt st))).2
                  (count_attempt st)).
  - intros Hs. specialize (Lsucc st1 Hs).
    unfold attempts_of, backtracks_of in *. simpl in *. lia.
  - intros _. left. unfold attempts_of. lia.
  - intros Hf. destruct (Lfail st1 Hf) as [?|Hrest]; [by left | right].
    unfold attempts_of, backtracks_of in *. simpl in *. lia.
  - specialize (Lmono st1). unfold backtracks_of in *. simpl in *. lia.
  - rewrite (Lres st1). done.
Qed.

Lemma search_of_stats config courses sections teachers rooms course_assignments g :
  let search :=
    search_of config courses sections teachers rooms course_assignments g in
  let n := length (requests_for courses sections teachers course_assignments) in
  (search.1 = true →
   attempts_of search.2 = Z.of_nat n + backtracks_of search.2) ∧
  (search.1 = false →
   attempts_of search.2 = default_max_attempts ∨
   attempts_of search.2 = backtracks_of search.2 + 1) ∧
  0 <= backtracks_of search.2 ∧
  attempts_of search.2 <= default_max_attempts ∧
  conflicts_resolved (generation_stats search.2) = 0.
Proof.
  intros search n. subst search n.
  unfold search_of, _schedule_requests, _backtrack_schedule. rewrite drop_0.
  pose proof (backtrack_pending_stats
    (requests_for courses sections teachers course_assignments) rooms
    (get_all_time_slots config) default_max_attempts) as [Hs Hf Hm Hr].
  pose proof (backtrack_pending_sound
    (requests_for courses sections teachers course_assignments) rooms
    (get_all_time_slots config) default_max_attempts) as [_ _ _ Hbound].
  specialize (Hs (initial_state g)). specialize (Hf (initial_state g)).
  specialize (Hm (initial_state g)). specialize (Hr (initial_state g)).
  specialize (Hbound (initial_state g)).
  unfold attempts_of, backtracks_of, default_max_attempts in *. simpl in *.
  repeat split; try lia; try done.
  - intros H. specialize (Hs H). lia.
  - intros H. destruct (Hf H); [left | right]; lia.
Qed.

(** X5. The statistics of a run of [generate]. On success the attempt count
    is the number of returned assignments plus the number of backtracks. On
    failure the attempt count is the whole budget, or it is the number of
    backtracks plus one. The counter [conflicts_resolved] is never touched:
    it is zero after every run. *)
Theorem generate_statistics
    config courses sections teachers rooms course_assignments g :
  (∀ l,
     returned (generate config courses sections teachers rooms
                 course_assignments g) = Some l →
     attempts (generation_stats (final_state
       (generate config courses sections teachers rooms course_assignments g))) =
     Z.of_nat (length l) +
     backtracks (generation_stats (final_state
       (generate config courses sections teachers rooms course_assignments g)))) ∧
  (returned (generate config courses sections teachers rooms
               course_assignments g) = None →
   attempts (generation_stats (final_state
     (generate config courses sections teachers rooms course_assignments g))) =
     default_max_attempts ∨
   attempts (generation_stats (final_state
     (generate config courses sections teachers rooms course_assignments g))) =
   backtracks (generation_stats (final_state
     (generate config courses sections teachers rooms course_assignments g))) + 1) ∧
  0 <= backtracks (generation_stats (final_state
         (generate config courses sections teachers rooms course_assignments g))) ∧
  conflicts_resolved (generation_stats (final_state
    (generate config courses sections teachers rooms course_assignments g))) = 0.
Proof.
  pose proof (search_of_stats config courses sections teachers rooms
                course_assignments g) as (Hs & Hf & Hb & _ & Hr).
  pose proof (generate_returned_length config courses sections teachers
                rooms course_assignments g) as Hlen.
  rewrite generate_unfold in *. cbn [returned final_state] in *.
  unfold attempts_of, backtracks_of in *.
  destruct (search_of _ _ _ _ _ _ _).1; repeat split; try done.
  - intros l Hl. rewrite (Hlen l Hl). by apply Hs.
  - intros _. by apply Hf.
Qed.

Lemma generate_statistics_witness :
  attempts (generation_stats (final_state
    (generate two_slot_config [cs101; cs102] [cs_a] [sharma; patel] [room101]
       two_courses_one_section (constant_draws 0)))) =
  Z.of_nat (length [mkClassAssignment cs101 cs_a sharma room101 monday2;
                    mkClassAssignment cs102 cs_a patel room101 monday1]) +
  backtracks (generation_stats (final_state
    (generate two_slot_config [cs101; cs102] [cs_a] [sharma; patel] [room101]
       two_courses_one_section (constant_draws 0)))) ∧
  (attempts (generation_stats (final_state
     (generate one_slot_config [cs101; cs102] [cs_a] [sharma; patel] [room101]
        two_courses_one_section (constant_draws 0)))) =
     default_max_attempts ∨
   attempts (generation_stats (final_state
     (generate one_slot_config [cs101; cs102] [cs_a] [sharma; patel] [room101]
        two_courses_one_section (constant_draws 0)))) =
   backtracks (generation_stats (final_state
     (generate one_slot_config [cs101; cs102] [cs_a] [sharma; patel] [room101]
        two_courses_one_section (constant_draws 0)))) + 1).
Proof.
  split.
  - apply (proj1 (generate_statistics two_slot_config [cs101; cs102] [cs_a]
             [sharma; patel] [room101] two_courses_one_section (constant_draws 0))).
    vm_compute. reflexivity.
  - apply (proj1 (proj2 (generate_statistics one_slot_config [cs101; cs102] [cs_a]
             [sharma; patel] [room101] two_courses_one_section (constant_draws 0)))).
    vm_compute. reflexivity.
Defined.



(** ** Python's stable sort, as insertion sort *)

Section SortedBy.
Context {A K : Type} `{EqDecision K} (key : A → K) (ltb : K → K → bool).
Hypothesis ltb_irrefl : ∀ k, ltb k k = false.
Hypothesis ltb_asym : ∀ a b, ltb a b = true → ltb b a = false.
Hypothesis ltb_le_trans :
  ∀ a b c, ltb b a = false → ltb c b = false → ltb c a = false.

(** [x] is not after [y]. *)
Let key_le (x y : A) : Prop := ltb (key y) (key x) = false.

Lemma insert_sorted_StronglySorted x l :
  StronglySorted key_le l → StronglySorted key_le (insert_sorted key ltb x l).
Proof.
  induction 1 as [|y l Hl IH Hy]; simpl.
  - repeat constructor.
  - destruct (ltb (key y) (key x)) eqn:Hyx.
    + constructor; [done|].
      rewrite (insert_sorted_Permutation key ltb x l).
      constructor; [by apply ltb_asym | done].
    + constructor; [by constructor|].
      constructor; [done|].
      eapply Forall_impl; [exact Hy|].
      intros z Hz. by apply (ltb_le_trans _ (key y)).
Qed.

Lemma sorted_by_StronglySorted l : StronglySorted key_le (sorted_by key ltb l).
Proof.
  induction l as [|x l IH]; simpl; [constructor|].
  by apply insert_sorted_StronglySorted.
Qed.

Lemma insert_sorted_stable k x l :
  filter (fun y => key y = k) (insert_sorted key ltb x l) =
  filter (fun y => key y = k) (x :: l).
Proof.
  induction l as [|y l IH]; simpl; [done|].
  destruct (ltb (key y) (key x)) eqn:Hyx; [|done].
  rewrite (filter_cons _ y), IH, !filter_cons.
  destruct (decide (key y = k)) as [Hy|Hy], (decide (key x = k)) as [Hx|Hx];
    try done.
  rewrite Hy, Hx, ltb_irrefl in Hyx. done.
Qed.

Lemma sorted_by_stable k l :
  filter (fun y => key y = k) (sorted_by key ltb l) =
  filter (fun y => key y = k) l.
Proof.
  induction l as [|x l IH]; simpl; [done|].
  by rewrite insert_sorted_stable, !filter_cons, IH.
Qed.
End SortedBy.

(** In a sorted list, an element that has to come first is at a smaller
    position. *)
Lemma StronglySorted_lookup {A} (R : A → A → Prop) l i j x y :
  StronglySorted R l →
  l !! i = Some x → l !! j = Some y → (i < j)%nat → R x y.
Proof.
  intros Hs. revert i j. induction Hs as [|z l Hl IH Hz]; intros i j Hi Hj Hij.
  - by rewrite lookup_nil in Hi.
  - destruct j as [|j]; [lia|]. simpl in Hj. destruct i as [|i].
    + injection Hi as ->. rewrite Forall_forall in Hz. apply Hz.
      by eapply list_elem_of_lookup_2.
    + simpl in Hi. apply (IH i j); [done | done | lia].
Qed.

(** ** The priority order *)

Lemma string_compare_OT a b : String.compare a b = String_as_OT.compare a b.
Proof. revert b. induction a; destruct b; simpl; reflexivity. Qed.

Lemma string_ltb_lt a b : String.ltb a b = true ↔ String_as_OT.lt a b.
Proof.
  unfold String.ltb, String_as_OT.lt. rewrite string_compare_OT.
  by destruct (String_as_OT.compare a b).
Qed.

Lemma string_ltb_false a b :
  String.ltb a b = false ↔ String.leb b a = true.
Proof.
  unfold String.ltb, String.leb. rewrite (String.compare_antisym a b).
  destruct (String.compare b a); simpl; intuition congruence.
Qed.

Lemma string_ltb_irrefl a : String.ltb a a = false.
Proof.
  destruct (String.ltb a a) eqn:E; [|done].
  apply string_ltb_lt in E. exfalso. by apply (irreflexivity String_as_OT.lt a).
Qed.

Lemma string_ltb_asym a b : String.ltb a b = true → String.ltb b a = false.
Proof.
  intros Hab. destruct (String.ltb b a) eqn:Hba; [|done].
  apply string_ltb_lt in Hab, Hba. exfalso.
  apply (irreflexivity String_as_OT.lt a). by etrans.
Qed.

Lemma string_ltb_le_trans a b c :
  String.ltb b a = false → String.ltb c b = false → String.ltb c a = false.
Proof.
  intros Hba Hcb. destruct (String.ltb c a) eqn:Hca; [|done].
  apply string_ltb_lt in Hca.
  destruct (String_as_OT.compare_spec a b) as [->|Hab|Hab].
  - apply string_ltb_lt in Hca. congruence.
  - assert (String_as_OT.lt c b) as H by (by etrans).
    apply string_ltb_lt in H. congruence.
  - apply string_ltb_lt in Hab. congruence.
Qed.

Lemma priority_ltb_irrefl k : priority_ltb k k = false.
Proof.
  destruct k as [[k1 k2] k3]. unfold priority_ltb.
  rewrite !bool_decide_eq_true_2 by done. apply string_ltb_irrefl.
Qed.

Lemma priority_ltb_asym a b : priority_ltb a b = true → priority_ltb b a = false.
Proof.
  destruct a as [[a1 a2] a3], b as [[b1 b2] b3]. unfold priority_ltb.
  repeat case_bool_decide; try done; try lia.
  apply string_ltb_asym.
Qed.

Lemma priority_ltb_le_trans a b c :
  priority_ltb b a = false → priority_ltb c b = false → priority_ltb c a = false.
Proof.
  destruct a as [[a1 a2] a3], b as [[b1 b2] b3], c as [[c1 c2] c3].
  unfold priority_ltb.
  repeat case_bool_decide; try done; try lia.
  apply string_ltb_le_trans.
Qed.

Lemma priority_ltb_le x y :
  priority_ltb (priority_key y) (priority_key x) = false ↔ priority_le x y.
Proof.
  unfold priority_ltb, priority_key, priority_le. fold (lab_rank x) (lab_rank y).
  rewrite <- string_ltb_false.
  repeat case_bool_decide; split; intros Hyp; try done; try lia;
    try (destruct Hyp as [?|[? [?|[? ?]]]]; first [lia | done]);
    first [ by left
          | right; split; [done|]; first [ left; lia | right; split; [lia | done] ] ].
Qed.

(** X7. [_prioritize_requests] returns the requests it was given, sorted by
    priority: a lab request is never after one that is not; among requests
    of the same kind, one with more weekly hours is never after one with
    fewer; among those, the departments of the sections are in ascending
    order. Requests that agree on all three keep the order they came in. *)
Theorem _prioritize_requests_sorts requests :
  _prioritize_requests requests ≡ₚ requests ∧
  (∀ i j x y,
     _prioritize_requests requests !! i = Some x →
     _prioritize_requests requests !! j = Some y →
     (i < j)%nat → priority_le x y) ∧
  (∀ i j x y,
     _prioritize_requests requests !! i = Some x →
     _prioritize_requests requests !! j = Some y →
     course_type (req_course x) = "lab" →
     course_type (req_course y) ≠ "lab" →
     (i < j)%nat) ∧
  (∀ k,
     filter (fun x => priority_key x = k) (_prioritize_requests requests) =
     filter (fun x => priority_key x = k) requests).
Proof.
  pose proof (sorted_by_StronglySorted priority_key priority_ltb
                priority_ltb_asym priority_ltb_le_trans requests) as Hsorted.
  fold (_prioritize_requests requests) in Hsorted.
  assert (∀ i j x y,
     _prioritize_requests requests !! i = Some x →
     _prioritize_requests requests !! j = Some y →
     (i < j)%nat → priority_le x y) as Hle.
  { intros i j x y Hi Hj Hij. apply priority_ltb_le.
    by apply (StronglySorted_lookup _ _ i j x y Hsorted). }
  split; [apply sorted_by_Permutation|]. split; [done|]. split.
  - intros i j x y Hi Hj Hx Hy.
    destruct (decide (i < j)%nat) as [|Hge]; [done|]. exfalso.
    assert (i = j ∨ (j < i)%nat) as [->|Hlt] by lia; [congruence|].
    specialize (Hle j i y x Hj Hi Hlt). unfold priority_le, lab_rank in Hle.
    rewrite (bool_decide_eq_true_2 _ Hx), (bool_decide_eq_false_2 _ Hy) in Hle.
    lia.
  - intros k. apply sorted_by_stable, priority_ltb_irrefl.
Qed.

Lemma _prioritize_requests_sorts_witness :
  priority_le cs104_request cs101_request ∧ (0 < 1)%nat.
Proof.
  destruct (_prioritize_requests_sorts [cs101_request; cs104_request])
    as (_ & Hle & Hlab & _).
  split.
  - apply (Hle 0%nat 1%nat); [vm_compute; reflexivity.. | lia].
  - apply (Hlab 0%nat 1%nat cs104_request cs101_request);
      [vm_compute; reflexivity.. | discriminate].
Defined.

(** X8. [_filter_suitable_rooms] returns exactly the rooms that are large
    enough for the section and, for a lab course, are labs, in ascending
    order of capacity (the tightest fit first); rooms of equal capacity
    keep the order they came in. *)
Theorem _filter_suitable_rooms_sorts c s rooms :
  (∀ r, r ∈ _filter_suitable_rooms c s rooms ↔
        r ∈ rooms ∧ student_count s <= capacity r ∧
        (course_type c = "lab" → room_type r = "lab")) ∧
  (∀ i j r1 r2,
     _filter_suitable_rooms c s rooms !! i = Some r1 →
     _filter_suitable_rooms c s rooms !! j = Some r2 →
     (i < j)%nat → capacity r1 <= capacity r2) ∧
  (∀ n,
     filter (fun r => capacity r = n) (_filter_suitable_rooms c s rooms) =
     filter (fun r => capacity r = n) (filter (room_suitable c s) rooms)).
Proof.
  assert (_filter_suitable_rooms c s rooms =
          sorted_by (fun r => capacity r - student_count s) Z.ltb
            (filter (room_suitable c s) rooms)) as Hdef.
  { unfold _filter_suitable_rooms.
    rewrite (foldl_append_filter (room_suitable c s)); [done|].
    intros acc r. unfold room_suitable.
    destruct (decide (_ ∧ _)) as [[Hcap Hlab]|Hno];
      repeat case_bool_decide; simpl; try done; try lia; exfalso;
      first [ tauto | apply Hno; split; [lia | intros; congruence] ]. }
  split; [|split].
  - intros r. rewrite _filter_suitable_rooms_Permutation, list_elem_of_filter.
    unfold room_suitable. tauto.
  - intros i j r1 r2 Hi Hj Hij. rewrite Hdef in Hi, Hj.
    pose proof (sorted_by_StronglySorted
      (fun r => capacity r - student_count s) Z.ltb
      (fun a b H => proj2 (Z.ltb_ge b a) (Z.lt_le_incl _ _ (proj1 (Z.ltb_lt a b) H)))
      (fun a b c Hba Hcb => proj2 (Z.ltb_ge c a)
         (Z.le_trans _ _ _ (proj1 (Z.ltb_ge b a) Hba) (proj1 (Z.ltb_ge c b) Hcb)))
      (filter (room_suitable c s) rooms)) as Hsorted.
    pose proof (StronglySorted_lookup _ _ i j r1 r2 Hsorted Hi Hj Hij) as Hle.
    simpl in Hle. apply Z.ltb_ge in Hle. lia.
  - intros n. rewrite Hdef.
    pose proof (sorted_by_stable (fun r => capacity r - student_count s) Z.ltb
                  Z.ltb_irrefl (n - student_count s)
                  (filter (room_suitable c s) rooms)) as Hstable.
    etrans; [|etrans; [exact Hstable|]]; apply list_filter_iff; intros r; lia.
Qed.

Lemma _filter_suitable_rooms_sorts_witness :
  capacity room105 <= capacity room101.
Proof.
  destruct (_filter_suitable_rooms_sorts cs101 (mkSection "S003" "MA-A" "Mathematics" 3 35)
              [room101; lab201; room105]) as (_ & Hle & _).
  apply (Hle 0%nat 1%nat); [vm_compute; reflexivity.. | lia].
Defined.

(** ** Nothing to schedule *)

(** X9. When no item of the mapping resolves (in particular when the
    mapping is empty), [generate] succeeds with the empty timetable: it
    returns the empty list, not [None], with no attempt and no backtrack
    made, and one warning for each item. *)
Theorem generate_without_requests
    config courses sections teachers rooms course_assignments g :
  (∀ item, item ∈ course_assignments →
           ¬ resolves courses sections teachers item) →
  returned (generate config courses sections teachers rooms course_assignments g)
    = Some [] ∧
  generation_stats (final_state
    (generate config courses sections teachers rooms course_assignments g)) =
    {| attempts := 0; backtracks := 0; conflicts_resolved := 0 |} ∧
  length (warnings
    (generate config courses sections teachers rooms course_assignments g)) =
    length course_assignments.
Proof.
  intros Hnone.
  assert (flat_map (requests_of courses sections teachers) course_assignments = [] ∧
          length (flat_map (warning_of courses sections teachers) course_assignments)
          = length course_assignments) as [Hreq Hwarn].
  { induction course_assignments as [|item items IH]; [done|].
    destruct (requests_of_unresolved courses sections teachers item)
      as [Hr [w Hw]]; [apply Hnone; left|].
    destruct IH as [IHr IHw]; [intros i Hi; apply Hnone; by right|].
    simpl. rewrite Hr, Hw, IHr. simpl. by rewrite IHw. }
  rewrite generate_unfold. unfold search_of, requests_for.
  rewrite _build_scheduling_requests_spec. cbn [fst snd]. rewrite Hreq.
  simpl. done.
Qed.

Lemma generate_without_requests_witness :
  returned (generate default_config [cs101] [cs_a] [sharma] [room101]
              [(("XX999", "S001"), "T001")] (constant_draws 0)) = Some [] ∧
  generation_stats (final_state
    (generate default_config [cs101] [cs_a] [sharma] [room101]
       [(("XX999", "S001"), "T001")] (constant_draws 0))) =
    {| attempts := 0; backtracks := 0; conflicts_resolved := 0 |} ∧
  length (warnings
    (generate default_config [cs101] [cs_a] [sharma] [room101]
       [(("XX999", "S001"), "T001")] (constant_draws 0))) =
    length [(("XX999", "S001"), "T001")].
Proof.
  apply generate_without_requests.
  intros item Hin. apply list_elem_of_In in Hin. simpl in Hin.
  destruct Hin as [<-|[]]. unfold resolves. simpl.
  intros [[c [Hc Hid]] _]. apply list_elem_of_In in Hc. simpl in Hc.
  destruct Hc as [<-|[]]. discriminate.
Defined.

(** ** The slot universe *)

Lemma elem_of_range lo hi p : p ∈ range lo hi ↔ lo <= p < hi.
Proof.
  unfold range. rewrite list_elem_of_fmap. split.
  - intros (i & -> & Hi). apply elem_of_seq in Hi. lia.
  - intros Hp. exists (Z.to_nat (p - lo)). split; [lia|].
    apply elem_of_seq. lia.
Qed.

Lemma NoDup_range lo hi : NoDup (range lo hi).
Proof.
  unfold range. apply NoDup_fmap_2; [|apply NoDup_seq].
  intros i j Hij. lia.
Qed.

(** The slots the inner loop of [get_all_time_slots] appends for a day. *)
Lemma day_loop config d (periods : list Z) (slots : list TimeSlot) :
  foldl (fun slots p =>
           match time_slots config !! p with
           | Some (start, end_) => slots ++ [mkTimeSlot d p start end_]
           | None => slots
           end) slots periods =
  slots ++ omap (fun p => (fun se => mkTimeSlot d p se.1 se.2) <$>
                          time_slots config !! p) periods.
Proof.
  revert slots. induction periods as [|p periods IH]; intros slots; simpl.
  - by rewrite app_nil_r.
  - rewrite IH. destruct (time_slots config !! p) as [[start end_]|]; simpl;
      [by rewrite <- app_assoc | done].
Qed.

Lemma get_all_time_slots_days config :
  get_all_time_slots config =
  flat_map (fun d =>
              omap (fun p => (fun se => mkTimeSlot d p se.1 se.2) <$>
                             time_slots config !! p)
                   (range 1 (periods_per_day config + 1)))
           (days config).
Proof.
  unfold get_all_time_slots.
  generalize (range 1 (periods_per_day config + 1)) as periods. intros periods.
  assert (∀ ds slots,
    foldl (fun slots d =>
             foldl (fun slots p =>
                      match time_slots config !! p with
                      | Some (start, end_) => slots ++ [mkTimeSlot d p start end_]
                      | None => slots
                      end) slots periods) slots ds =
    slots ++ flat_map (fun d =>
                omap (fun p => (fun se => mkTimeSlot d p se.1 se.2) <$>
                               time_slots config !! p) periods) ds) as H.
  { induction ds as [|d ds IH]; intros slots; simpl.
    - by rewrite app_nil_r.
    - by rewrite IH, day_loop, <- app_assoc. }
  apply H.
Qed.

Lemma day_slot_keys config d (periods : list Z) :
  slot_key <$> omap (fun p => (fun se => mkTimeSlot d p se.1 se.2) <$>
                              time_slots config !! p) periods =
  (fun p => (d, p)) <$> filter (fun p => is_Some (time_slots config !! p)) periods.
Proof.
  induction periods as [|p periods IH]; simpl; [done|].
  rewrite filter_cons. destruct (time_slots config !! p) as [se|] eqn:E;
    case_decide as Hsome; simpl.
  - f_equal. exact IH.
  - destruct Hsome. by eexists.
  - by destruct Hsome.
  - done.
Qed.

(** X10. The slot universe of a configuration. A slot is in it exactly when
    its day is a configured day, its period is between 1 and
    periods_per_day and has times in [time_slots], and its times are those.
    The universe has one slot for each day and valid period; with no period
    (periods_per_day below 1) it is empty. When the configured days are
    distinct, no two slots of the universe are equal (same day and same
    period). *)
Theorem get_all_time_slots_universe config :
  (∀ slot,
     slot ∈ get_all_time_slots config ↔
     day slot ∈ days config ∧
     1 <= period slot <= periods_per_day config ∧
     time_slots config !! period slot = Some (start_time slot, end_time slot)) ∧
  length (get_all_time_slots config) =
    (length (days config) * length (valid_periods config))%nat ∧
  (periods_per_day config < 1 → get_all_time_slots config = []) ∧
  (NoDup (days config) → NoDup (slot_key <$> get_all_time_slots config)).
Proof.
  rewrite get_all_time_slots_days. unfold valid_periods.
  generalize (elem_of_range 1 (periods_per_day config + 1)).
  generalize (NoDup_range 1 (periods_per_day config + 1)).
  generalize (range 1 (periods_per_day config + 1)) as periods.
  intros periods Hnd Hrange.
  split; [|split; [|split]].
  - intros slot. rewrite list_elem_of_In, in_flat_map. split.
    + intros (d & Hd & Hslot).
      apply list_elem_of_In, list_elem_of_omap in Hslot as (p & Hp & Hsome).
      destruct (time_slots config !! p) as [[start end_]|] eqn:E; [|done].
      injection Hsome as <-. simpl. apply Hrange in Hp.
      rewrite list_elem_of_In. split; [done|]. split; [lia | done].
    + intros (Hd & Hp & Htimes). exists (day slot).
      rewrite <- !list_elem_of_In. split; [done|].
      apply list_elem_of_omap. exists (period slot).
      split; [apply Hrange; lia|]. rewrite Htimes. simpl. by destruct slot.
  - induction (days config) as [|d ds IH]; simpl; [done|].
    rewrite length_app, IH. f_equal.
    rewrite <- (length_fmap slot_key), day_slot_keys. by rewrite length_fmap.
  - intros Hppd. destruct periods as [|p periods].
    + by induction (days config).
    + assert (1 <= p < periods_per_day config + 1) by (apply Hrange; left). lia.
  - intros Hdays. induction Hdays as [|d ds Hd Hds IH]; simpl; [constructor|].
    rewrite fmap_app. apply NoDup_app. split; [|split; [|done]].
    + rewrite day_slot_keys. apply NoDup_fmap_2; [by intros ?? [= ]|].
      by apply NoDup_filter.
    + intros k Hk Hk'. rewrite day_slot_keys in Hk.
      apply list_elem_of_fmap in Hk as (p & -> & _).
      apply list_elem_of_fmap in Hk' as (slot & Hkey & Hslot).
      apply list_elem_of_In, in_flat_map in Hslot as (d' & Hd' & Hslot).
      apply list_elem_of_In, list_elem_of_omap in Hslot as (p' & _ & Hsome).
      destruct (time_slots config !! p') as [se|]; [|done].
      injection Hsome as <-. injection Hkey as -> _.
      apply Hd. by apply list_elem_of_In.
Qed.

Lemma get_all_time_slots_universe_witness :
  get_all_time_slots
    {| days := ["Monday"]; periods_per_day := 0; time_slots := ∅ |} = [] ∧
  NoDup (slot_key <$> get_all_time_slots default_config).
Proof.
  split.
  - apply (proj1 (proj2 (proj2 (get_all_time_slots_universe
      {| days := ["Monday"]; periods_per_day := 0; time_slots := ∅ |})))).
    simpl. lia.
  - apply (proj2 (proj2 (proj2 (get_all_time_slots_universe default_config)))).
    apply (bool_decide_unpack _). vm_compute. exact I.
Defined.

(** ** Teacher availability *)

(** X11. Marking a slot unavailable makes the teacher unavailable at every
    slot of the same day and period, whatever its start and end times, and
    leaves the availability at all other slots as it was; the teacher stays
    the same teacher (same id), and marking the slot again changes
    nothing. *)
Theorem add_unavailable_slot_blocks t s :
  (∀ s', TimeSlot_eq s s' = true →
         is_available (add_unavailable_slot t s) s' = false) ∧
  (∀ s', TimeSlot_eq s s' = false →
         is_available (add_unavailable_slot t s) s' = is_available t s') ∧
  Teacher_eq (add_unavailable_slot t s) t = true ∧
  add_unavailable_slot (add_unavailable_slot t s) s = add_unavailable_slot t s.
Proof.
  assert (∀ s', TimeSlot_eq s s' = true ↔ slot_key s = slot_key s') as Heq.
  { intros s'. unfold TimeSlot_eq, slot_key.
    rewrite andb_true_iff, !bool_decide_eq_true. split.
    - intros [? ?]. by f_equal.
    - by intros [= ? ?]. }
  unfold is_available, add_unavailable_slot. simpl.
  split; [|split; [|split]].
  - intros s' Hs'. apply Heq in Hs'. apply bool_decide_eq_false. intros Hno.
    apply Hno, elem_of_union_l, elem_of_singleton. done.
  - intros s' Hs'. apply bool_decide_ext.
    rewrite not_elem_of_union, not_elem_of_singleton.
    split; [tauto|]. intros Hfree. split; [|done].
    intros Hk. rewrite (proj2 (Heq s')) in Hs' by done. done.
  - unfold Teacher_eq. simpl. by apply bool_decide_eq_true.
  - f_equal. rewrite (assoc_L (∪)), union_idemp_L. done.
Qed.

Lemma add_unavailable_slot_blocks_witness :
  is_available (add_unavailable_slot sharma monday1)
    (mkTimeSlot "Monday" 1 "" "") = false ∧
  is_available (add_unavailable_slot sharma monday1) monday2 =
    is_available sharma monday2.
Proof.
  destruct (add_unavailable_slot_blocks sharma monday1) as (Hb & Ho & _).
  split; [apply Hb | apply Ho]; reflexivity.
Defined.

(** ** Dicts as lists of items *)

Section Dict.
Context {K V : Type} `{EqDecision K}.
Implicit Types (k : K) (v : V) (d : list (K * V)).

Lemma dict_get_setitem k v d : dict_get k (dict_setitem k v d) = Some v.
Proof.
  induction d as [|[k' v'] d IH]; simpl.
  - by rewrite decide_True.
  - destruct (decide (k' = k)) as [->|Hne]; simpl.
    + by rewrite decide_True.
    + by rewrite decide_False.
Qed.

Lemma dict_get_setitem_ne k k' v d :
  k ≠ k' → dict_get k' (dict_setitem k v d) = dict_get k' d.
Proof.
  intros Hne. induction d as [|[k0 v0] d IH]; simpl.
  - by rewrite decide_False.
  - destruct (decide (k0 = k)) as [->|Hk0]; simpl.
    + by rewrite !decide_False.
    + by rewrite IH.
Qed.

Lemma dict_get_None k d : dict_get k d = None ↔ k ∉ d.*1.
Proof.
  induction d as [|[k' v'] d IH]; simpl.
  - split; [intros _; apply not_elem_of_nil | done].
  - rewrite not_elem_of_cons. destruct (decide (k' = k)) as [->|Hne].
    + split; [done | by intros [? _]].
    + rewrite IH. split; [by split | by intros [_ ?]].
Qed.

Lemma dict_setitem_fresh k v d :
  k ∉ d.*1 → dict_setitem k v d = d ++ [(k, v)].
Proof.
  induction d as [|[k' v'] d IH]; simpl; [done|].
  rewrite not_elem_of_cons. intros [Hne Hd].
  rewrite decide_False by done. by rewrite IH.
Qed.

Lemma dict_setitem_keys k v d :
  (dict_setitem k v d).*1 = if decide (k ∈ d.*1) then d.*1 else d.*1 ++ [k].
Proof.
  induction d as [|[k' v'] d IH].
  - case_decide as Hin; [by apply elem_of_nil in Hin | done].
  - cbn [dict_setitem]. rewrite fmap_cons. cbn [fst].
    destruct (decide (k' = k)) as [->|Hne]; rewrite fmap_cons; cbn [fst].
    + destruct (decide (k ∈ k :: d.*1)) as [|Hno]; [done|]. destruct Hno. left.
    + rewrite IH.
      destruct (decide (k ∈ d.*1)) as [Hin|Hout],
               (decide (k ∈ k' :: d.*1)) as [Hin'|Hout']; try done.
      * destruct Hout'. by right.
      * apply elem_of_cons in Hin' as [->|?]; done.
Qed.

Lemma dict_setitem_NoDup k v d : NoDup d.*1 → NoDup (dict_setitem k v d).*1.
Proof.
  intros Hd. rewrite dict_setitem_keys. case_decide as Hin; [done|].
  apply NoDup_app. split; [done|]. split; [|apply NoDup_singleton].
  intros x Hx Hx'. apply list_elem_of_singleton in Hx'. by subst.
Qed.

Lemma dict_get_elem_of k v d :
  NoDup d.*1 → (k, v) ∈ d ↔ dict_get k d = Some v.
Proof.
  induction d as [|[k' v'] d IH]; intros Hd.
  - simpl. split; [intros Hin; by apply elem_of_nil in Hin | done].
  - rewrite fmap_cons in Hd. cbn [fst] in Hd.
    apply NoDup_cons in Hd as [Hk' Hd]. rewrite elem_of_cons, (IH Hd).
    cbn [dict_get]. destruct (decide (k' = k)) as [->|Hne].
    + split.
      * intros [[= ->]|Hget]; [done|]. apply dict_get_None in Hk'. congruence.
      * intros [= ->]. by left.
    + split; [intros [[= ? ?]|?]; done | by right].
Qed.
End Dict.

(** ** Loading the course assignments *)

Lemma load_course_assignments_snoc data item :
  load_course_assignments (data ++ [item]) =
  dict_setitem (item_key item) (item_teacher_id item)
    (load_course_assignments data).
Proof. unfold load_course_assignments. by rewrite foldl_snoc. Qed.

Lemma load_course_assignments_NoDup data :
  NoDup (load_course_assignments data).*1.
Proof.
  induction data as [|item data IH] using rev_ind; [constructor|].
  rewrite load_course_assignments_snoc. by apply dict_setitem_NoDup.
Qed.

Lemma load_course_assignments_get data k :
  dict_get k (load_course_assignments data) =
  item_teacher_id <$> last (filter (fun item => item_key item = k) data).
Proof.
  induction data as [|item data IH] using rev_ind; [done|].
  rewrite load_course_assignments_snoc, filter_app, filter_cons, filter_nil.
  destruct (decide (item_key item = k)) as [<-|Hne].
  - by rewrite dict_get_setitem, last_snoc.
  - by rewrite dict_get_setitem_ne, app_nil_r.
Qed.

(** X12. The mapping [load_course_assignments_from_json] builds has every
    (course_id, section_id) pair once; the teacher of a pair is the one of
    the last item of the file with that pair; and when no pair occurs twice
    in the file, the mapping lists the items in the order of the file. *)
Theorem load_course_assignments_keeps_last data :
  NoDup (load_course_assignments data).*1 ∧
  (∀ k t,
     (k, t) ∈ load_course_assignments data ↔
     item_teacher_id <$> last (filter (fun item => item_key item = k) data)
       = Some t) ∧
  (NoDup (item_key <$> data) →
   load_course_assignments data =
   (fun item => (item_key item, item_teacher_id item)) <$> data).
Proof.
  split; [apply load_course_assignments_NoDup|]. split.
  - intros k t.
    rewrite (dict_get_elem_of _ _ _ (load_course_assignments_NoDup data)).
    by rewrite load_course_assignments_get.
  - induction data as [|item data IH] using rev_ind; [done|].
    rewrite fmap_app. intros [Hdata [Hfresh _]]%NoDup_app.
    rewrite load_course_assignments_snoc, fmap_app, IH by done.
    apply dict_setitem_fresh. rewrite <- list_fmap_compose.
    intros Hin. apply (Hfresh (item_key item)); [done | left].
Qed.

Lemma load_course_assignments_keeps_last_witness :
  load_course_assignments
    [mkAssignmentItem "CS101" "S001" "T001"; mkAssignmentItem "CS102" "S001" "T002"] =
  (fun item => (item_key item, item_teacher_id item)) <$>
    [mkAssignmentItem "CS101" "S001" "T001"; mkAssignmentItem "CS102" "S001" "T002"].
Proof.
  apply (proj2 (proj2 (load_course_assignments_keeps_last _))).
  apply (bool_decide_unpack _). vm_compute. exact I.
Defined.

Example load_course_assignments_repeated_pair :
  load_course_assignments
    [mkAssignmentItem "CS101" "S001" "T001"; mkAssignmentItem "CS102" "S001" "T002";
     mkAssignmentItem "CS101" "S001" "T003"] =
  [(("CS101", "S001"), "T003"); (("CS102", "S001"), "T002")].
Proof. reflexivity. Qed.

(** ** Grouping the timetable *)

Section Grouping.
Context (key : ClassAssignment → string).

(** The total number of assignments in the groups. *)
Let total (g : list (string * list ClassAssignment)) : nat :=
  length (concat g.*2).

Lemma total_setitem k v g :
  (total (dict_setitem k v g) + length (default [] (dict_get k g)) =
   total g + length v)%nat.
Proof.
  unfold total. induction g as [|[k' v'] g IH].
  - simpl. rewrite app_nil_r. lia.
  - cbn [dict_setitem dict_get].
    destruct (decide (k' = k)) as [->|Hne]; rewrite !fmap_cons;
      cbn [snd concat default]; unfold id in *; rewrite !length_app; lia.
Qed.

Lemma group_step_spec g a l :
  NoDup g.*1 →
  (∀ k, dict_get k g =
        match filter (fun x => key x = k) l with
        | [] => None
        | grp => Some grp
        end) →
  total g = length l →
  NoDup (group_step key g a).*1 ∧
  (∀ k, dict_get k (group_step key g a) =
        match filter (fun x => key x = k) (l ++ [a]) with
        | [] => None
        | grp => Some grp
        end) ∧
  total (group_step key g a) = length (l ++ [a]).
Proof.
  intros Hnd Hget Htotal. unfold group_step.
  set (g1 := match dict_get (key a) g with
             | None => dict_setitem (key a) [] g
             | Some _ => g
             end).
  assert (NoDup g1.*1) as Hnd1.
  { subst g1. destruct (dict_get (key a) g); [done | by apply dict_setitem_NoDup]. }
  assert (dict_get (key a) g1 = Some (filter (fun x => key x = key a) l)) as Hg1.
  { subst g1. specialize (Hget (key a)).
    destruct (dict_get (key a) g) as [grp|] eqn:E.
    - rewrite E. destruct (filter _ l); [done | congruence].
    - rewrite dict_get_setitem. by destruct (filter _ l). }
  assert (∀ k, k ≠ key a → dict_get k g1 = dict_get k g) as Hother.
  { intros k Hk. subst g1. destruct (dict_get (key a) g); [done|].
    by apply dict_get_setitem_ne. }
  assert (total g1 = total g) as Htotal1.
  { subst g1. destruct (dict_get (key a) g) as [grp|] eqn:E; [done|].
    pose proof (total_setitem (key a) [] g) as H. rewrite E in H. simpl in H. lia. }
  rewrite Hg1. simpl. split; [by apply dict_setitem_NoDup|]. split.
  - intros k. rewrite filter_app, filter_cons, filter_nil.
    destruct (decide (key a = k)) as [<-|Hne].
    + rewrite dict_get_setitem. by destruct (filter _ l).
    + rewrite dict_get_setitem_ne, Hother, Hget, app_nil_r by done. done.
  - pose proof (total_setitem (key a)
                  (filter (fun x => key x = key a) l ++ [a]) g1) as H.
    rewrite Hg1 in H. simpl in H. rewrite !length_app in *. simpl in *. lia.
Qed.

Lemma group_by_spec l :
  NoDup (foldl (group_step key) [] l).*1 ∧
  (∀ k, dict_get k (foldl (group_step key) [] l) =
        match filter (fun x => key x = k) l with
        | [] => None
        | grp => Some grp
        end) ∧
  total (foldl (group_step key) [] l) = length l.
Proof.
  induction l as [|a l IH] using rev_ind.
  - split; [constructor | done].
  - rewrite foldl_snoc. destruct IH as (Hnd & Hget & Htotal).
    by apply group_step_spec.
Qed.

Lemma group_by_groups l k grp :
  (k, grp) ∈ foldl (group_step key) [] l ↔
  grp ≠ [] ∧ grp = filter (fun x => key x = k) l.
Proof.
  destruct (group_by_spec l) as (Hnd & Hget & _).
  rewrite (dict_get_elem_of _ _ _ Hnd), Hget.
  destruct (filter (fun x => key x = k) l) as [|x xs].
  - split; [done | by intros [? ->]].
  - split; [by intros [= <-] | by intros [_ ->]].
Qed.

Lemma group_by_length l :
  length (concat (foldl (group_step key) [] l).*2) = length l.
Proof. apply group_by_spec. Qed.
End Grouping.

(** X13. The groups of the three grouping functions. The keys are the
    printed forms of the section, the teacher or the room, each once; the
    group of a key is never empty and holds exactly the assignments whose
    section (teacher, room) prints as the key, in the order of the
    timetable; the groups together have as many assignments as the
    timetable. *)
Theorem timetable_groups assignments :
  (NoDup (_group_by_section assignments).*1 ∧
   (∀ k grp,
      (k, grp) ∈ _group_by_section assignments ↔
      grp ≠ [] ∧
      grp = filter (fun a => Section_str (section a) = k) assignments) ∧
   length (concat (_group_by_section assignments).*2) = length assignments) ∧
  (NoDup (_group_by_teacher assignments).*1 ∧
   (∀ k grp,
      (k, grp) ∈ _group_by_teacher assignments ↔
      grp ≠ [] ∧
      grp = filter (fun a => Teacher_str (teacher a) = k) assignments) ∧
   length (concat (_group_by_teacher assignments).*2) = length assignments) ∧
  (NoDup (_group_by_room assignments).*1 ∧
   (∀ k grp,
      (k, grp) ∈ _group_by_room assignments ↔
      grp ≠ [] ∧
      grp = filter (fun a => Room_str (room a) = k) assignments) ∧
   length (concat (_group_by_room assignments).*2) = length assignments).
Proof.
  unfold _group_by_section, _group_by_teacher, _group_by_room.
  split; [|split];
    (split; [apply group_by_spec|];
     split; [intros k grp; apply group_by_groups | apply group_by_length]).
Qed.

Example sections_of_one_name_share_a_group :
  _group_by_section
    [mkClassAssignment cs101 cs_a sharma room101 monday1;
     mkClassAssignment cs102 (mkSection "S009" "CS-A" "Physics" 3 20) patel
       room105 monday1] =
  [("CS-A (Sem 3)",
    [mkClassAssignment cs101 cs_a sharma room101 monday1;
     mkClassAssignment cs102 (mkSection "S009" "CS-A" "Physics" 3 20) patel
       room105 monday1])].
Proof. vm_compute. reflexivity. Qed.

(** ** The conflict report as text *)

Lemma foldl_append_lines {A} (f : A → list string) l (acc : list string) :
  foldl (fun report e => report ++ f e) acc l = acc ++ flat_map f l.
Proof.
  revert acc. induction l as [|e l IH]; intros acc; simpl.
  - by rewrite app_nil_r.
  - by rewrite IH, <- app_assoc.
Qed.

Lemma count_conflicts_zero c :
  count_conflicts c = 0 ↔
  teacher_conflicts c = [] ∧ room_conflicts c = [] ∧ section_conflicts c = [] ∧
  capacity_issues c = [] ∧ availability_issues c = [] ∧ room_type_issues c = [].
Proof.
  unfold count_conflicts. rewrite <- !length_zero_iff_nil. lia.
Qed.

(** The lines of a category: nothing for an empty list, else a heading and
    the lines of its entries. *)
Lemma category_lines {A} (l : list A) (heading : string)
    (f : A → list string) (report : list string) :
  match l with
  | [] => report
  | _ => foldl (fun report e => report ++ f e) (report ++ [heading]) l
  end =
  report ++ match l with [] => [] | _ => heading :: flat_map f l end.
Proof.
  destruct l as [|e l]; [by rewrite app_nil_r|].
  by rewrite foldl_append_lines, <- app_assoc.
Qed.

Lemma clean_line_not_in_category {A} (l : list A) (heading : string)
    (f : A → list string) :
  heading ≠ "No conflicts detected! Timetable is valid." →
  (∀ e line, line ∈ f e → line ≠ "No conflicts detected! Timetable is valid.") →
  "No conflicts detected! Timetable is valid." ∉
    match l with [] => [] | _ => heading :: flat_map f l end.
Proof.
  intros Hh Hf Hin. destruct l as [|e l]; [by apply elem_of_nil in Hin|].
  apply elem_of_cons in Hin as [Heq|Hin]; [done|].
  apply list_elem_of_In, in_flat_map in Hin as (e' & _ & Hline).
  apply list_elem_of_In in Hline. by apply (Hf e' _ Hline).
Qed.

Lemma report_lines_blocks c :
  report_lines c =
  [nl +:+ "=== Conflict Detection Report ===";
   "Total conflicts found: " +:+ pretty (count_conflicts c) +:+ nl] ++
  match teacher_conflicts c with
  | [] => []
  | _ => ("Teacher Conflicts (" +:+ len_str (teacher_conflicts c) +:+ "):") ::
         flat_map (fun e =>
           ["  - " +:+ tc_teacher e +:+ " has overlapping classes at " +:+
            tc_time_slot e] ++
           ["    Courses: " +:+ join ", " (tc_courses e)]) (teacher_conflicts c)
  end ++
  match room_conflicts c with
  | [] => []
  | _ => (nl +:+ "Room Conflicts (" +:+ len_str (room_conflicts c) +:+ "):") ::
         flat_map (fun e =>
           ["  - " +:+ rc_room e +:+ " is double-booked at " +:+ rc_time_slot e] ++
           ["    Courses: " +:+ join ", " (rc_courses e)]) (room_conflicts c)
  end ++
  match section_conflicts c with
  | [] => []
  | _ => (nl +:+ "Section Conflicts (" +:+ len_str (section_conflicts c) +:+ "):") ::
         flat_map (fun e =>
           ["  - " +:+ sc_section e +:+ " has overlapping classes at " +:+
            sc_time_slot e] ++
           ["    Courses: " +:+ join ", " (sc_courses e)]) (section_conflicts c)
  end ++
  match capacity_issues c with
  | [] => []
  | _ => (nl +:+ "Capacity Issues (" +:+ len_str (capacity_issues c) +:+ "):") ::
         flat_map (fun e =>
           ["  - Room " +:+ ci_room e +:+ " (capacity: " +:+
            pretty (ci_capacity e) +:+ ") is too small for section " +:+
            ci_section e +:+ " (" +:+ pretty (ci_student_count e) +:+
            " students)"]) (capacity_issues c)
  end ++
  match availability_issues c with
  | [] => []
  | _ => (nl +:+ "Availability Issues (" +:+ len_str (availability_issues c)
          +:+ "):") ::
         flat_map (fun e =>
           ["  - " +:+ ai_teacher e +:+ " is not available at " +:+
            ai_time_slot e]) (availability_issues c)
  end ++
  match room_type_issues c with
  | [] => []
  | _ => (nl +:+ "Room Type Issues (" +:+ len_str (room_type_issues c) +:+ "):") ::
         flat_map (fun e =>
           ["  - Course " +:+ ri_course e +:+ " requires " +:+
            ri_required_type e +:+ " but assigned " +:+ ri_room e +:+
            " (" +:+ ri_room_type e +:+ ")"]) (room_type_issues c)
  end ++
  (if bool_decide (count_conflicts c = 0)
   then ["No conflicts detected! Timetable is valid."] else []).
Proof.
  unfold report_lines. cbv zeta.
  rewrite !category_lines. rewrite <- !app_assoc.
  case_bool_decide; rewrite <- ?app_assoc, ?app_nil_r; reflexivity.
Qed.

Ltac other_line :=
  intros ? ? Hline%list_elem_of_In; simpl in Hline;
  repeat (destruct Hline as [<-|Hline]; [unfold nl; cbn [String.append]; discriminate|]);
  destruct Hline.

Lemma clean_line_iff c :
  "No conflicts detected! Timetable is valid." ∈ report_lines c ↔
  count_conflicts c = 0.
Proof.
  rewrite report_lines_blocks. split.
  - case_bool_decide as Hc; [done|]. intros Hin. exfalso.
    rewrite !elem_of_app in Hin.
    destruct Hin as [Hin|[Hin|[Hin|[Hin|[Hin|[Hin|[Hin|Hin]]]]]]].
    + apply list_elem_of_In in Hin. simpl in Hin.
      destruct Hin as [Heq|[Heq|[]]]; revert Heq; unfold nl;
        cbn [String.append]; discriminate.
    + revert Hin. apply clean_line_not_in_category;
        [cbn [String.append]; discriminate | other_line].
    + revert Hin. apply clean_line_not_in_category;
        [unfold nl; cbn [String.append]; discriminate | other_line].
    + revert Hin. apply clean_line_not_in_category;
        [unfold nl; cbn [String.append]; discriminate | other_line].
    + revert Hin. apply clean_line_not_in_category;
        [unfold nl; cbn [String.append]; discriminate | other_line].
    + revert Hin. apply clean_line_not_in_category;
        [unfold nl; cbn [String.append]; discriminate | other_line].
    + revert Hin. apply clean_line_not_in_category;
        [unfold nl; cbn [String.append]; discriminate | other_line].
    + by apply elem_of_nil in Hin.
  - intros Hc. rewrite bool_decide_eq_true_2 by done.
    rewrite !elem_of_app. do 7 right. left.
Qed.

Lemma format_conflict_report_zero c :
  count_conflicts c = 0 →
  format_conflict_report c =
  nl +:+ "=== Conflict Detection Report ===" +:+ nl +:+
  "Total conflicts found: 0" +:+ nl +:+ nl +:+
  "No conflicts detected! Timetable is valid.".
Proof.
  intros Hc. unfold format_conflict_report. rewrite report_lines_blocks.
  rewrite bool_decide_eq_true_2 by done. rewrite Hc.
  apply count_conflicts_zero in Hc as (-> & -> & -> & -> & -> & ->).
  reflexivity.
Qed.

(** X14. The text of the conflict report. For a report with no conflict it
    is exactly the heading, the total 0 and the line "No conflicts
    detected! Timetable is valid."; that line is among the lines of a report
    exactly when the total is zero. A timetable that satisfies the hard
    invariants gets that text. *)
Theorem format_conflict_report_clean :
  (∀ c,
     count_conflicts c = 0 →
     format_conflict_report c =
     nl +:+ "=== Conflict Detection Report ===" +:+ nl +:+
     "Total conflicts found: 0" +:+ nl +:+ nl +:+
     "No conflicts detected! Timetable is valid.") ∧
  (∀ c,
     "No conflicts detected! Timetable is valid." ∈ report_lines c ↔
     count_conflicts c = 0) ∧
  (∀ l,
     hard_invariants l →
     format_conflict_report (find_all_conflicts l) =
     nl +:+ "=== Conflict Detection Report ===" +:+ nl +:+
     "Total conflicts found: 0" +:+ nl +:+ nl +:+
     "No conflicts detected! Timetable is valid.").
Proof.
  split; [apply format_conflict_report_zero|].
  split; [apply clean_line_iff|].
  intros l Hl. apply format_conflict_report_zero.
  by apply accepted_list_no_conflicts, hard_invariants_accepted.
Qed.

Lemma format_conflict_report_clean_witness :
  format_conflict_report
    (find_all_conflicts [sharma_cs102_monday1; patel_cs102_monday2]) =
  nl +:+ "=== Conflict Detection Report ===" +:+ nl +:+
  "Total conflicts found: 0" +:+ nl +:+ nl +:+
  "No conflicts detected! Timetable is valid.".
Proof.
  apply (proj1 format_conflict_report_clean). vm_compute. reflexivity.
Defined.

Example format_conflict_report_crowded :
  report_lines (find_all_conflicts [sharma_cs101_monday1; sharma_cs102_monday1]) =
  [nl +:+ "=== Conflict Detection Report ===";
   "Total conflicts found: 2" +:+ nl;
   "Teacher Conflicts (1):";
   "  - Dr. Sharma has overlapping classes at Monday Period 1 (09:00-10:00)";
   "    Courses: Data Structures, Algorithms";
   nl +:+ "Capacity Issues (1):";
   "  - Room Room 105 (capacity: 40) is too small for section CS-A (55 students)"].
Proof. vm_compute. reflexivity. Qed.

(** ** Loading the teachers *)

Lemma add_unavailable_slots_fold t (slots : list SlotData) :
  let t' :=
    foldl (fun teacher slot_data =>
             add_unavailable_slot teacher
               (mkTimeSlot (sd_day slot_data) (sd_period slot_data)
                           (default "" (sd_start_time slot_data))
                           (default "" (sd_end_time slot_data))))
          t slots in
  teacher_id t' = teacher_id t ∧ teacher_name t' = teacher_name t ∧
  teacher_department t' = teacher_department t ∧
  specializations t' = specializations t ∧
  ∀ k, k ∈ unavailable_slots t' ↔
       k ∈ unavailable_slots t ∨
       ∃ sd, sd ∈ slots ∧ k = (sd_day sd, sd_period sd).
Proof.
  revert t. induction slots as [|sd slots IH]; intros t; simpl.
  - split_and!; try done. intros k. split; [by left|].
    intros [?|(sd & Hin & _)]; [done | by apply elem_of_nil in Hin].
  - destruct (IH (add_unavailable_slot t
                    (mkTimeSlot (sd_day sd) (sd_period sd)
                       (default "" (sd_start_time sd))
                       (default "" (sd_end_time sd)))))
      as (Hid & Hname & Hdep & Hspec & Hk).
    simpl in *. split_and!; try done. intros k. rewrite Hk.
    rewrite elem_of_union, elem_of_singleton. unfold slot_key. simpl. split.
    + intros [[->|?]|(sd' & Hin & ->)].
      * right. exists sd. split; [left | done].
      * by left.
      * right. exists sd'. split; [by right | done].
    + intros [?|(sd' & Hin & ->)]; [left; by right|].
      apply elem_of_cons in Hin as [->|Hin]; [left; by left|].
      right. by exists sd'.
Qed.

(** X15. A teacher loaded from a record has the id, name and department of
    the record, and is unavailable exactly at the slots whose day and period
    are those of an entry of [unavailable_slots] (at none when the record
    has no such field); start and end times play no part. The loader keeps
    the records' order. *)
Theorem load_teachers_availability :
  (∀ item,
     teacher_id (load_teacher item) = ti_teacher_id item ∧
     teacher_name (load_teacher item) = ti_name item ∧
     teacher_department (load_teacher item) = ti_department item ∧
     specializations (load_teacher item) = default [] (ti_specializations item)) ∧
  (∀ item s,
     is_available (load_teacher item) s = false ↔
     ∃ sd, sd ∈ default [] (ti_unavailable_slots item) ∧
           sd_day sd = day s ∧ sd_period sd = period s) ∧
  (∀ data, load_teachers data = load_teacher <$> data).
Proof.
  split; [|split].
  - intros item. unfold load_teacher.
    destruct (ti_unavailable_slots item) as [slots|]; [|done].
    destruct (add_unavailable_slots_fold
                (Teacher_init (ti_teacher_id item) (ti_name item)
                   (ti_department item)
                   (Some (default [] (ti_specializations item)))) slots)
      as (? & ? & ? & ? & _).
    done.
  - intros item s. unfold is_available.
    rewrite bool_decide_eq_false. unfold load_teacher.
    destruct (ti_unavailable_slots item) as [slots|]; simpl.
    + destruct (add_unavailable_slots_fold
                  (Teacher_init (ti_teacher_id item) (ti_name item)
                     (ti_department item)
                     (Some (default [] (ti_specializations item)))) slots)
        as (_ & _ & _ & _ & Hk).
      split.
      * intros Hnn. apply dec_stable in Hnn. apply Hk in Hnn.
        destruct Hnn as [Hin|(sd & Hin & [= ? ?])];
          [by apply not_elem_of_empty in Hin|].
        by exists sd.
      * intros (sd & Hin & Hd & Hp) Hno. apply Hno, Hk. right.
        exists sd. split; [done|]. unfold slot_key. by rewrite Hd, Hp.
    + split.
      * intros Hnn. destruct Hnn. apply not_elem_of_empty.
      * intros (sd & Hin & _). by apply elem_of_nil in Hin.
  - intros data. unfold load_teachers.
    assert (∀ acc, foldl (fun teachers item => teachers ++ [load_teacher item])
                         acc data = acc ++ (load_teacher <$> data)) as H.
    { induction data as [|item data IH]; intros acc; simpl.
      - by rewrite app_nil_r.
      - by rewrite IH, <- app_assoc. }
    apply H.
Qed.

(** ** The rows of the CSV export *)

Lemma day_period_ltb_irrefl k : day_period_ltb k k = false.
Proof.
  unfold day_period_ltb. rewrite bool_decide_eq_true_2 by done.
  apply bool_decide_eq_false. lia.
Qed.

Lemma day_period_ltb_asym a b :
  day_period_ltb a b = true → day_period_ltb b a = false.
Proof.
  unfold day_period_ltb.
  repeat case_bool_decide; try done; try congruence; try lia.
  apply string_ltb_asym.
Qed.

Lemma day_period_ltb_le_trans a b c :
  day_period_ltb b a = false → day_period_ltb c b = false →
  day_period_ltb c a = false.
Proof.
  destruct a as [a1 a2], b as [b1 b2], c as [c1 c2].
  unfold day_period_ltb. simpl. intros Hba Hcb.
  destruct (decide (b1 = a1)) as [Hba1|Hba1], (decide (c1 = b1)) as [Hcb1|Hcb1].
  - subst. rewrite !bool_decide_eq_true_2 in * by done.
    apply bool_decide_eq_false in Hba, Hcb. apply bool_decide_eq_false. lia.
  - subst. rewrite bool_decide_eq_true_2 in Hba by done.
    by rewrite bool_decide_eq_false_2 in * by done.
  - subst. rewrite bool_decide_eq_true_2 in Hcb by done.
    by rewrite bool_decide_eq_false_2 in * by done.
  - rewrite bool_decide_eq_false_2 in Hba, Hcb by done.
    pose proof (string_ltb_le_trans a1 b1 c1 Hba Hcb) as Hca.
    case_bool_decide as Heq; [|done]. subst c1.
    apply string_ltb_false in Hba, Hcb.
    destruct Hba1. by apply String.leb_antisym.
Qed.

(** X16. The rows [export_to_csv] writes: the heading, then one row for each
    assignment. The rows are in ascending order of the day name, compared
    as a string (so Friday comes before Monday), and within a day of the
    period; assignments of the same day and period keep the order of the
    timetable. *)
Theorem export_to_csv_rows assignments :
  ∃ sorted,
    sorted ≡ₚ assignments ∧
    export_to_csv assignments =
      ["Day"; "Period"; "Start Time"; "End Time"; "Course ID"; "Course Name";
       "Section"; "Teacher"; "Room"] :: (csv_row <$> sorted) ∧
    (∀ i j a b,
       sorted !! i = Some a → sorted !! j = Some b → (i < j)%nat →
       String.ltb (day (time_slot a)) (day (time_slot b)) = true ∨
       (day (time_slot a) = day (time_slot b) ∧
        period (time_slot a) <= period (time_slot b))) ∧
    (∀ k,
       filter (fun a => day_period a = k) sorted =
       filter (fun a => day_period a = k) assignments).
Proof.
  exists (sorted_by day_period day_period_ltb assignments).
  split; [apply sorted_by_Permutation|]. split; [|split].
  - unfold export_to_csv. f_equal.
    generalize (sorted_by day_period day_period_ltb assignments) as l. intros l.
    assert (∀ acc, foldl (fun rows a => rows ++ [csv_row a]) acc l =
                   acc ++ (csv_row <$> l)) as H.
    { induction l as [|a l IH]; intros acc; simpl.
      - by rewrite app_nil_r.
      - by rewrite IH, <- app_assoc. }
    apply H.
  - intros i j a b Hi Hj Hij.
    pose proof (sorted_by_StronglySorted day_period day_period_ltb
                  day_period_ltb_asym day_period_ltb_le_trans assignments)
      as Hsorted.
    pose proof (StronglySorted_lookup _ _ i j a b Hsorted Hi Hj Hij) as Hle.
    simpl in Hle. unfold day_period_ltb, day_period in Hle. simpl in Hle.
    case_bool_decide as Hday.
    + right. apply bool_decide_eq_false in Hle. split; [done | lia].
    + left. apply string_ltb_false in Hle.
      destruct (String.ltb (day (time_slot a)) (day (time_slot b))) eqn:Hlt;
        [done|].
      apply string_ltb_false in Hlt. destruct Hday.
      by apply String.leb_antisym.
  - intros k. apply sorted_by_stable, day_period_ltb_irrefl.
Qed.

Example export_to_csv_friday_first :
  export_to_csv
    [mkClassAssignment cs101 cs_a sharma room101 monday2;
     mkClassAssignment cs102 cs_b patel room105
       (mkTimeSlot "Friday" 6 "15:00" "16:00");
     mkClassAssignment cs102 cs_b patel room101 monday1] =
  [["Day"; "Period"; "Start Time"; "End Time"; "Course ID"; "Course Name";
    "Section"; "Teacher"; "Room"];
   ["Friday"; "6"; "15:00"; "16:00"; "CS102"; "Algorithms"; "CS-B"; "Dr. Patel";
    "Room 105"];
   ["Monday"; "1"; "09:00"; "10:00"; "CS102"; "Algorithms"; "CS-B"; "Dr. Patel";
    "Room 101"];
   ["Monday"; "2"; "10:00"; "11:00"; "CS101"; "Data Structures"; "CS-A";
    "Dr. Sharma"; "Room 101"]].
Proof. vm_compute. reflexivity. Qed.

Lemma export_to_csv_rows_witness :
  ∃ sorted,
    sorted ≡ₚ [sharma_cs101_room101; patel_cs102_monday2] ∧
    export_to_csv [sharma_cs101_room101; patel_cs102_monday2] =
      ["Day"; "Period"; "Start Time"; "End Time"; "Course ID"; "Course Name";
       "Section"; "Teacher"; "Room"] :: (csv_row <$> sorted).
Proof.
  destruct (export_to_csv_rows [sharma_cs101_room101; patel_cs102_monday2])
    as (sorted & Hperm & Hrows & _).
  exists sorted. split; [exact Hperm | exact Hrows].
Defined.
